(** * Coin selection and balancing of [cardano_clusterlib.txtools]

    A shallow embedding of the transaction-assembly core of
    [src/cardano_clusterlib/txtools.py]: the value indexer
    ([_organize_*]), the selection engine ([_select_utxos] and the two
    picking phases), the balancer ([_balance_txouts]) and the orchestrator
    ([_get_tx_ins_outs]); of the functions around them (balances and
    filters of UTxO lists, withdrawals, joined outputs,
    [collect_data_for_build]); and of the change address settled by
    [build_tx] in [src/cardano_clusterlib/transaction_group.py]; followed
    by the properties established for them.

    Conventions of the embedding:
    - Python [int] is [Z]; [str] is [string].
    - a [dict] is an association list in insertion order (assigning to an
      existing key keeps its position), because the code iterates over
      [items()] and relies on stable sorting of that order;
    - a [set] of strings is a duplicate-free list; the iteration order of a
      Python set is unspecified, so the functions that loop over a set take
      the iteration order [set_iter] as an argument, and the properties hold
      for every order that is a permutation of the set;
    - [raise] is a [Raise] result, [LOGGER.warning]/[LOGGER.error] append to
      a log that is returned next to the result. *)

From Stdlib Require Import ZArith String List Bool Lia Permutation ListSet.
From Stdlib Require Import DecimalString.
Import ListNotations.
Local Open Scope Z_scope.

Set Implicit Arguments.

(** ** Records of [structs] *)

(** Modelled from the spec: [consts.DEFAULT_COIN] is imported from a module
    that is not part of the sources at hand; it is the distinguished base
    asset of the data model. No proof below depends on its spelling. *)
Definition DEFAULT_COIN : string := "lovelace".

(** Modelled from the spec: [structs.UTXOData], one (identity, asset, amount)
    row of an unspent output with its datum-lock markers. Only the fields
    read by the functions below are kept. *)
Record UTXOData : Type := mkUTXOData {
  utxo_hash : string;
  utxo_ix : Z;
  utxo_amount : Z;
  utxo_address : string;
  utxo_coin : string;
  datum_hash : string;
  inline_datum_hash : string
}.

(** Modelled from the spec: [structs.TxOut], a requested output (also used
    for withdrawals and minted amounts). *)
Record TxOut : Type := mkTxOut {
  txout_address : string;
  txout_amount : Z;
  txout_coin : string
}.

(** The functions below read [rec.coin] and [rec.amount] of either record. *)
Class CoinRecord (A : Type) : Type := {
  coin : A -> string;
  amount : A -> Z
}.

#[export] Instance UTXOData_CoinRecord : CoinRecord UTXOData :=
  {| coin := utxo_coin; amount := utxo_amount |}.

#[export] Instance TxOut_CoinRecord : CoinRecord TxOut :=
  {| coin := txout_coin; amount := txout_amount |}.

(** [str(n)] for an integer. *)
Definition str_of_int (n : Z) : string :=
  NilZero.string_of_int (Z.to_int n).

(** [f"{rec.utxo_hash}#{rec.utxo_ix}"] *)
Definition utxo_id (rec : UTXOData) : string :=
  (utxo_hash rec ++ "#" ++ str_of_int (utxo_ix rec))%string.

(** Truthiness of a string. *)
Definition truthy (s : string) : bool :=
  match s with EmptyString => false | _ => true end.

(** ** Dictionaries and sets *)

Section Dict.
Context {V : Type}.

Definition dict : Type := list (string * V).

Fixpoint dict_get (k : string) (d : dict) : option V :=
  match d with
  | [] => None
  | (k', v) :: d' => if String.eqb k k' then Some v else dict_get k d'
  end.

(** [d[k] = v] *)
Fixpoint dict_set (k : string) (v : V) (d : dict) : dict :=
  match d with
  | [] => [(k, v)]
  | (k', v') :: d' =>
      if String.eqb k k' then (k, v) :: d' else (k', v') :: dict_set k v d'
  end.

Definition dict_mem (k : string) (d : dict) : bool :=
  match dict_get k d with Some _ => true | None => false end.

Definition dict_keys (d : dict) : list string := map fst d.

Definition dict_values (d : dict) : list V := map snd d.
End Dict.

Arguments dict V : clear implicits.

(** [d.get(k) or []] *)
Definition get_or_nil {A : Type} (k : string) (d : dict (list A)) : list A :=
  match dict_get k d with Some l => l | None => [] end.

(** [d.get(k) or {}] *)
Definition get_or_empty {V : Type} (k : string) (d : dict (dict V)) : dict V :=
  match dict_get k d with Some m => m | None => [] end.

Definition str_set : Type := set string.

Definition str_mem (x : string) (s : str_set) : bool :=
  set_mem string_dec x s.

Definition str_add (x : string) (s : str_set) : str_set :=
  set_add string_dec x s.

(** [s.update(xs)] *)
Definition str_update (s : str_set) (xs : list string) : str_set :=
  fold_left (fun acc x => str_add x acc) xs s.

(** [set(a).union(b).union(c)] in one possible iteration order. *)
Definition coin_union (a b c : list string) : str_set :=
  str_update (str_update (str_update [] a) b) c.

(** [functools.reduce(lambda x, y: x + y.amount, recs, 0)] *)
Definition total_amount {A : Type} `{CoinRecord A} (recs : list A) : Z :=
  fold_left (fun x y => x + amount y) recs 0.

(** ** Value indexer *)

(** [if key not in db: db[key] = []] followed by [db[key].append(rec)]. *)
Definition group_append {A : Type} (key : string) (rec : A)
    (db : dict (list A)) : dict (list A) :=
  let db1 := if dict_mem key db then db else dict_set key [] db in
  dict_set key (get_or_nil key db1 ++ [rec]) db1.

Definition _organize_tx_ins_outs_by_coin {A : Type} `{CoinRecord A}
    (tx_list : list A) : dict (list A) :=
  fold_left (fun db rec => group_append (coin rec) rec db) tx_list [].

Definition _organize_utxos_by_id (tx_list : list UTXOData)
    : dict (list UTXOData) :=
  fold_left (fun db rec => group_append (utxo_id rec) rec db) tx_list [].

Definition coin_and_id_step (db : dict (dict Z)) (r : UTXOData)
    : dict (dict Z) :=
  match dict_get (utxo_coin r) db with
  | None => dict_set (utxo_coin r) [(utxo_id r, utxo_amount r)] db
  | Some db_rec =>
      dict_set (utxo_coin r) (dict_set (utxo_id r) (utxo_amount r) db_rec) db
  end.

Definition _organize_utxos_by_coin_and_id (tx_list : list UTXOData)
    : dict (dict Z) :=
  fold_left coin_and_id_step tx_list [].

(** ** Selection engine: reuse phase *)

(** The [for utxo_id in already_selected_utxos] loop; [break] yields [true],
    the [else] branch of the loop yields [false]. *)
Fixpoint pick_already_loop (coin_txins : dict Z) (ids : list string)
    (target_amount target_with_change : Z)
    (picked_utxos : str_set) (accumulated_amount : Z)
    : str_set * Z * bool :=
  match ids with
  | [] => (picked_utxos, accumulated_amount, false)
  | utxo_id :: rest =>
      match dict_get utxo_id coin_txins with
      | None =>
          pick_already_loop coin_txins rest target_amount target_with_change
            picked_utxos accumulated_amount
      | Some utxo_amount =>
          let accumulated_amount := accumulated_amount + utxo_amount in
          if accumulated_amount =? target_amount then
            (picked_utxos, accumulated_amount, true)
          else if accumulated_amount >=? target_with_change then
            (picked_utxos, accumulated_amount, true)
          else
            pick_already_loop coin_txins rest target_amount
              target_with_change picked_utxos accumulated_amount
      end
  end.

Definition _pick_coins_from_already_selected_utxos (coin_txins : dict Z)
    (already_selected_utxos : str_set)
    (target_amount target_with_change : Z) : str_set * Z * bool :=
  pick_already_loop coin_txins already_selected_utxos target_amount
    target_with_change [] 0.

(** ** Selection engine: defragmentation phase *)

(** [enumerate(utxos)] *)
Fixpoint enumerate_from {A : Type} (n : nat) (l : list A) : list (nat * A) :=
  match l with
  | [] => []
  | x :: xs => (n, x) :: enumerate_from (S n) xs
  end.

Definition enumerate {A : Type} (l : list A) : list (nat * A) :=
  enumerate_from 0 l.

Definition entry : Type := (nat * (string * Z))%type.

Definition entry_amount (e : entry) : Z := snd (snd e).

(** [sorted(..., key=lambda x: x[1][1])] is a stable sort: an element is
    put in front of the elements that followed it and carry the same key. *)
Fixpoint insert_by_amount (x : entry) (l : list entry) : list entry :=
  match l with
  | [] => [x]
  | y :: ys =>
      if entry_amount x <=? entry_amount y then x :: y :: ys
      else y :: insert_by_amount x ys
  end.

Definition sorted_by_amount (l : list entry) : list entry :=
  fold_right insert_by_amount [] l.

(** [min(iterable, key=key, default=None)]: the first minimal element. *)
Fixpoint min_by {A : Type} (key : A -> Z) (l : list A) : option A :=
  match l with
  | [] => None
  | x :: xs =>
      match min_by key xs with
      | None => Some x
      | Some y => if key y <? key x then Some y else Some x
      end
  end.

Definition nat_mem (i : nat) (s : list nat) : bool :=
  existsb (Nat.eqb i) s.

(** [utxos[i]]; the indices used below come from [enumerate(utxos)]. *)
Definition utxo_at (utxos : list (string * Z)) (i : nat) : string * Z :=
  nth i utxos (EmptyString, 0).

(** Step 1, the loop over [sorted_utxos[:10]]. [inr] is a [return] from
    inside the loop, [inl] the state when the loop runs to its end. *)
Fixpoint defrag_smallest (entries : list entry)
    (target_amount target_with_change : Z)
    (selected_indices : list nat) (picked_utxos : str_set)
    (accumulated_amount : Z)
    : (list nat * str_set * Z) + (str_set * Z * bool) :=
  match entries with
  | [] => inl (selected_indices, picked_utxos, accumulated_amount)
  | (i, (utxo_id, coin_amount)) :: rest =>
      let picked_utxos := str_add utxo_id picked_utxos in
      let selected_indices := i :: selected_indices in
      let accumulated_amount := accumulated_amount + coin_amount in
      if accumulated_amount =? target_amount then
        inr (picked_utxos, accumulated_amount, true)
      else if accumulated_amount >=? target_with_change then
        inr (picked_utxos, accumulated_amount, true)
      else
        defrag_smallest rest target_amount target_with_change
          selected_indices picked_utxos accumulated_amount
  end.

(** Step 2, the [while accumulated_amount < target_with_change] loop. Every
    round that does not return selects one more index, so [fuel] rounds are
    enough when [fuel] is the number of entries; the branch that runs out of
    fuel is dead code of the embedding (see [defrag_closest_fuel]). *)
Fixpoint defrag_closest (fuel : nat) (utxos : list (string * Z))
    (sorted_utxos : list entry) (target_amount target_with_change : Z)
    (selected_indices : list nat) (picked_utxos : str_set)
    (accumulated_amount : Z) : str_set * Z * bool :=
  if accumulated_amount <? target_with_change then
    if accumulated_amount =? target_amount then
      (picked_utxos, accumulated_amount, true)
    else
      let remaining_amount :=
        if accumulated_amount >? target_amount
        then target_with_change - accumulated_amount
        else target_amount - accumulated_amount in
      let candidates :=
        filter (fun i => negb (nat_mem i selected_indices))
               (map fst sorted_utxos) in
      match
        min_by (fun i => Z.abs (snd (utxo_at utxos i) - remaining_amount))
               candidates
      with
      | None => (picked_utxos, accumulated_amount, false)
      | Some closest_index =>
          match fuel with
          | O => (picked_utxos, accumulated_amount, false)
          | S fuel' =>
              let '(utxo_id, coin_amount) := utxo_at utxos closest_index in
              defrag_closest fuel' utxos sorted_utxos target_amount
                target_with_change (closest_index :: selected_indices)
                (str_add utxo_id picked_utxos)
                (accumulated_amount + coin_amount)
          end
      end
  else (picked_utxos, accumulated_amount, true).

Definition _pick_utxos_with_defragmentation (utxos : list (string * Z))
    (target_amount target_with_change accumulated_amount : Z)
    : str_set * Z * bool :=
  let sorted_utxos := sorted_by_amount (enumerate utxos) in
  match
    defrag_smallest (firstn 10 sorted_utxos) target_amount
      target_with_change [] [] accumulated_amount
  with
  | inr result => result
  | inl (selected_indices, picked_utxos, accumulated_amount) =>
      defrag_closest (length utxos) utxos sorted_utxos target_amount
        target_with_change selected_indices picked_utxos accumulated_amount
  end.

(** ** Log records and exceptions *)

Inductive LogRecord : Type :=
| Warning_target_not_met (target_amount : Z) (coin : string)
| Error_not_enough_funds (funds_available funds_needed : Z)
| Error_coin_not_sufficient (coin : string)
    (funds_available total_output_amount : Z).

Inductive Message : Type :=
| Token_burning_not_allowed (burning_txouts : list TxOut)
| Send_all_to_more_than_one_address
| Only_matching_utxos_have_datum
| No_utxo_returned (src_address : string)
| No_input_utxo
| Not_all_output_coins_present
| Empty_txins.

Inductive Exception : Type :=
| AssertionError (msg : Message)
| CLIError (msg : Message).

Inductive result (A : Type) : Type :=
| Return (a : A)
| Raise (e : Exception).

Arguments Return {A} a.
Arguments Raise {A} e.

(** A computation that logs and may raise. *)
Definition M (A : Type) : Type := (list LogRecord * result A)%type.

Definition ret {A : Type} (a : A) : M A := ([], Return a).

Definition raise {A : Type} (e : Exception) : M A := ([], Raise e).

Definition log (r : LogRecord) : M unit := ([r], Return tt).

Definition bind {A B : Type} (m : M A) (k : A -> M B) : M B :=
  match m with
  | (l, Return a) => let '(l', r) := k a in (l ++ l', r)
  | (l, Raise e) => (l, Raise e)
  end.

Notation "x <- m ;; k" := (bind m (fun x => k))
  (at level 61, m at next level, right associativity).
Notation "' p <- m ;; k" := (bind m (fun x => let p := x in k))
  (at level 61, p pattern, m at next level, right associativity).

(** A [for] loop whose body logs and may raise. *)
Fixpoint for_each {A S : Type} (body : S -> A -> M S) (l : list A) (s : S)
    : M S :=
  match l with
  | [] => ret s
  | x :: xs => s' <- body s x ;; for_each body xs s'
  end.

(** [int] used as a condition. *)
Definition nonzero (n : Z) : bool := negb (n =? 0).

(** [[idx for idx, val in enumerate(coin_txouts) if val.amount == -1]] *)
Definition send_all_indices (coin_txouts : list TxOut) : list nat :=
  map fst (filter (fun p => txout_amount (snd p) =? -1) (enumerate coin_txouts)).

(** [l.pop(i)] leaves the list without its element at index [i]. *)
Fixpoint list_pop {A : Type} (i : nat) (l : list A) : list A :=
  match l, i with
  | [], _ => []
  | _ :: xs, O => xs
  | x :: xs, S j => x :: list_pop j xs
  end.

(** [max_address or change_address] *)
Definition address_or (max_address : option string) (change_address : string)
    : string :=
  match max_address with
  | Some a => if truthy a then a else change_address
  | None => change_address
  end.

(** [rec.datum_hash or rec.inline_datum_hash] used as a condition. *)
Definition has_datum (rec : UTXOData) : bool :=
  truthy (datum_hash rec) || truthy (inline_datum_hash rec).

Section Engine.

(** The order in which a [for] loop visits the elements of a set. *)
Variable set_iter : str_set -> list string.

(** *** Selection engine *)

(** The body of [_select_utxos_per_coin] up to the warning, with the
    accumulated amount and the flag of the phase that ended it. *)
Definition select_per_coin_outcome (coin_txins : dict Z)
    (target_amount target_with_change : Z)
    (already_selected_utxos : str_set) : str_set * Z * bool :=
  let '(selected_utxos, accumulated_amount, target_met) :=
    _pick_coins_from_already_selected_utxos coin_txins
      (set_iter already_selected_utxos) target_amount target_with_change in
  if negb target_met then
    let ids_and_amounts :=
      filter (fun ia => negb (str_mem (fst ia) already_selected_utxos))
             coin_txins in
    let '(more_utxos, accumulated_amount, target_met) :=
      _pick_utxos_with_defragmentation ids_and_amounts target_amount
        target_with_change accumulated_amount in
    (str_update selected_utxos more_utxos, accumulated_amount, target_met)
  else (selected_utxos, accumulated_amount, target_met).

Definition _select_utxos_per_coin (coin_txins : dict Z) (coin : string)
    (target_amount target_with_change : Z)
    (already_selected_utxos : str_set) : str_set * list LogRecord :=
  let '(selected_utxos, _, target_met) :=
    select_per_coin_outcome coin_txins target_amount target_with_change
      already_selected_utxos in
  (selected_utxos,
   if negb target_met then [Warning_target_not_met target_amount coin]
   else []).

(** One round of the loop over coins in [_select_utxos]. *)
Definition select_coin (txins_by_coin_and_id : dict (dict Z))
    (txouts_passed_db txouts_mint_db : dict (list TxOut))
    (fee : Z) (withdrawals : list TxOut)
    (min_change_value deposit treasury_donation : Z)
    (state : str_set * list LogRecord) (coin : string)
    : str_set * list LogRecord :=
  let '(utxo_ids, logs) := state in
  let coin_txins := get_or_empty coin txins_by_coin_and_id in
  let coin_txouts := get_or_nil coin txouts_passed_db in
  let total_output_amount := total_amount coin_txouts in
  let select_for (input_funds_needed target_with_change : Z) :=
    if nonzero input_funds_needed then
      let '(selected, warnings) :=
        _select_utxos_per_coin coin_txins coin input_funds_needed
          target_with_change utxo_ids in
      (str_update utxo_ids selected, logs ++ warnings)
    else (utxo_ids, logs) in
  if String.eqb coin DEFAULT_COIN then
    match send_all_indices coin_txouts with
    | _ :: _ => (str_update utxo_ids (dict_keys coin_txins), logs)
    | [] =>
        let tx_fee := Z.max 1 fee in
        let funds_needed :=
          total_output_amount + tx_fee + deposit + treasury_donation in
        let total_withdrawals_amount := total_amount withdrawals in
        let input_funds_needed :=
          Z.max (funds_needed - total_withdrawals_amount) tx_fee in
        let target_with_change := input_funds_needed + min_change_value in
        select_for input_funds_needed target_with_change
    end
  else
    let coin_txouts_minted := get_or_nil coin txouts_mint_db in
    let total_minted_amount := total_amount coin_txouts_minted in
    let input_funds_needed := total_output_amount - total_minted_amount in
    let target_with_change := input_funds_needed in
    select_for input_funds_needed target_with_change.

(** The loop of [_select_utxos] over a given sequence of coins. *)
Definition select_loop (txins_by_coin_and_id : dict (dict Z))
    (txouts_passed_db txouts_mint_db : dict (list TxOut))
    (fee : Z) (withdrawals : list TxOut)
    (min_change_value deposit treasury_donation : Z)
    (coins : list string) (state : str_set * list LogRecord)
    : str_set * list LogRecord :=
  fold_left
    (select_coin txins_by_coin_and_id txouts_passed_db txouts_mint_db fee
       withdrawals min_change_value deposit treasury_donation)
    coins state.

Definition _select_utxos (txins_by_coin_and_id : dict (dict Z))
    (txouts_passed_db txouts_mint_db : dict (list TxOut))
    (fee : Z) (withdrawals : list TxOut)
    (min_change_value deposit treasury_donation : Z)
    : str_set * list LogRecord :=
  select_loop txins_by_coin_and_id txouts_passed_db txouts_mint_db fee
    withdrawals min_change_value deposit treasury_donation
    (set_iter (coin_union (dict_keys txins_by_coin_and_id)
                 (dict_keys txouts_passed_db) (dict_keys txouts_mint_db)))
    ([], []).

(** *** Balancer *)

(** One round of the loop over coins in [_balance_txouts], up to the value
    of [max_address] and [change]. The [pop] changes the list held by
    [txouts_passed_db]; no later round reads the entry of this coin. *)
Definition balance_coin (txins_db : dict (list UTXOData))
    (txouts_passed_db txouts_mint_db : dict (list TxOut))
    (fee : Z) (withdrawals : list TxOut) (deposit treasury_donation : Z)
    (coin : string) : M (option string * Z) :=
  let coin_txins := get_or_nil coin txins_db in
  let coin_txouts := get_or_nil coin txouts_passed_db in
  let total_input_amount := total_amount coin_txins in
  if String.eqb coin DEFAULT_COIN then
    let max_index := send_all_indices coin_txouts in
    if (1 <? length max_index)%nat then
      raise (AssertionError Send_all_to_more_than_one_address)
    else
      let '(max_address, coin_txouts) :=
        match max_index with
        | i :: _ =>
            (option_map txout_address (nth_error coin_txouts i),
             list_pop i coin_txouts)
        | [] => (None, coin_txouts)
        end in
      let total_output_amount := total_amount coin_txouts in
      let tx_fee := Z.max 0 fee in
      let total_withdrawals_amount := total_amount withdrawals in
      let funds_available := total_input_amount + total_withdrawals_amount in
      let funds_needed :=
        total_output_amount + tx_fee + deposit + treasury_donation in
      let change := funds_available - funds_needed in
      _ <- (if change <? 0
            then log (Error_not_enough_funds funds_available funds_needed)
            else ret tt) ;;
      ret (max_address, change)
  else
    let coin_txouts_minted := get_or_nil coin txouts_mint_db in
    let total_output_amount := total_amount coin_txouts in
    let total_minted_amount := total_amount coin_txouts_minted in
    let funds_available := total_input_amount + total_minted_amount in
    let change := funds_available - total_output_amount in
    _ <- (if change <? 0
          then log (Error_coin_not_sufficient coin funds_available
                      total_output_amount)
          else ret tt) ;;
    ret (None, change).

Definition balance_step (change_address : string)
    (txins_db : dict (list UTXOData))
    (txouts_passed_db txouts_mint_db : dict (list TxOut))
    (fee : Z) (withdrawals : list TxOut) (deposit treasury_donation : Z)
    (txouts_result : list TxOut) (coin : string) : M (list TxOut) :=
  ' (max_address, change) <-
    balance_coin txins_db txouts_passed_db txouts_mint_db fee withdrawals
      deposit treasury_donation coin ;;
  if change >? 0 then
    ret (txouts_result ++
         [mkTxOut (address_or max_address change_address) change coin])
  else ret txouts_result.

Definition burning_txouts (txouts : list TxOut) : list TxOut :=
  filter (fun r => (txout_amount r <? 0)
                   && negb (String.eqb (txout_coin r) DEFAULT_COIN))
         txouts.

Definition _balance_txouts (change_address : string) (txouts : list TxOut)
    (txins_db : dict (list UTXOData))
    (txouts_passed_db txouts_mint_db : dict (list TxOut))
    (fee : Z) (withdrawals : list TxOut) (deposit treasury_donation : Z)
    (skip_asset_balancing : bool) : M (list TxOut) :=
  match burning_txouts txouts with
  | _ :: _ =>
      raise (AssertionError
               (Token_burning_not_allowed (burning_txouts txouts)))
  | [] =>
      let txouts_result := filter (fun r => txout_amount r >? 0) txouts in
      if skip_asset_balancing then ret txouts_result
      else
        for_each
          (balance_step change_address txins_db txouts_passed_db
             txouts_mint_db fee withdrawals deposit treasury_donation)
          (set_iter (coin_union (dict_keys txins_db)
                       (dict_keys txouts_passed_db)
                       (dict_keys txouts_mint_db)))
          txouts_result
  end.

(** *** Assembly orchestrator *)

(** One round of the loop of [_get_usable_utxos]; the state is [txins],
    [seen_ids] and [matching_with_datum]. Every identity met in the loop is
    a key of [txins_by_id]. *)
Definition usable_step (txins_by_id : dict (list UTXOData))
    (coins : str_set) (state : list UTXOData * str_set * bool)
    (rec : UTXOData) : list UTXOData * str_set * bool :=
  let '(txins, seen_ids, matching_with_datum) := state in
  if str_mem (utxo_coin rec) coins && negb (str_mem (utxo_id rec) seen_ids)
  then
    if has_datum rec then (txins, seen_ids, true)
    else (txins ++ get_or_nil (utxo_id rec) txins_by_id,
          str_add (utxo_id rec) seen_ids, matching_with_datum)
  else state.

Definition _get_usable_utxos (address_utxos : list UTXOData)
    (coins : str_set) : result (list UTXOData) :=
  let txins_by_id := _organize_utxos_by_id address_utxos in
  let '(txins, _, matching_with_datum) :=
    fold_left (usable_step txins_by_id coins) address_utxos ([], [], false)
  in
  match txins with
  | [] =>
      if matching_with_datum
      then Raise (CLIError Only_matching_utxos_have_datum)
      else Return txins
  | _ :: _ => Return txins
  end.

(** Modelled from the spec: the collaborators reached through
    [clusterlib_obj]. The UTxO query of an address and the dust threshold
    taken from the protocol parameters are not part of the sources at hand.
    The deposit needed by the transaction files is [get_tx_deposit] of
    [transaction_group.py], which reads the certificate and proposal files
    and queries the protocol parameters; its result is taken here as a
    given integer. *)
Record ClusterLib : Type := mkClusterLib {
  g_query_get_utxo : string -> list UTXOData;
  g_transaction_get_tx_deposit : Z;
  _min_change_value : Z
}.

Definition _get_tx_ins_outs (clusterlib_obj : ClusterLib)
    (src_address : string) (txins : list UTXOData) (txouts : list TxOut)
    (fee : Z) (deposit treasury_donation : option Z)
    (withdrawals mint_txouts : list TxOut)
    (src_addr_utxos : option (list UTXOData))
    (skip_asset_balancing : bool) : M (list UTXOData * list TxOut) :=
  let txouts_passed_db := _organize_tx_ins_outs_by_coin txouts in
  let txouts_mint_db := _organize_tx_ins_outs_by_coin mint_txouts in
  let outcoins_all : str_set :=
    str_update []
      (DEFAULT_COIN :: dict_keys txouts_mint_db ++ dict_keys txouts_passed_db)
  in
  let outcoins_passed := DEFAULT_COIN :: dict_keys txouts_passed_db in
  txins_all <-
    match txins with
    | _ :: _ => ret txins
    | [] =>
        let address_utxos :=
          match src_addr_utxos with
          | Some (r :: rs) => r :: rs
          | _ => g_query_get_utxo clusterlib_obj src_address
          end in
        match address_utxos with
        | [] => raise (CLIError (No_utxo_returned src_address))
        | _ :: _ => ([], _get_usable_utxos address_utxos outcoins_all)
        end
    end ;;
  match txins_all with
  | [] => raise (CLIError No_input_utxo)
  | _ :: _ =>
      let txins_by_coin_and_id := _organize_utxos_by_coin_and_id txins_all in
      if negb (forallb (fun c => dict_mem c txouts_mint_db
                                 || dict_mem c txins_by_coin_and_id)
                       outcoins_passed)
      then raise (CLIError Not_all_output_coins_present)
      else
        let tx_deposit :=
          match deposit with
          | None => g_transaction_get_tx_deposit clusterlib_obj
          | Some d => d
          end in
        let tx_treasury_donation :=
          match treasury_donation with Some d => d | None => 0 end in
        txins_filtered <-
          match txins with
          | _ :: _ => ret txins_all
          | [] =>
              let '(selected_utxo_ids, warnings) :=
                _select_utxos txins_by_coin_and_id txouts_passed_db
                  txouts_mint_db fee withdrawals
                  (_min_change_value clusterlib_obj) tx_deposit
                  tx_treasury_donation in
              let txins_by_id := _organize_utxos_by_id txins_all in
              let _txins_filtered :=
                map snd
                  (filter (fun kv => str_mem (fst kv) selected_utxo_ids)
                          txins_by_id) in
              (warnings, Return (concat _txins_filtered))
          end ;;
        match txins_filtered with
        | [] => raise (CLIError Empty_txins)
        | _ :: _ =>
            let txins_db_filtered :=
              _organize_tx_ins_outs_by_coin txins_filtered in
            txouts_balanced <-
              _balance_txouts src_address txouts txins_db_filtered
                txouts_passed_db txouts_mint_db fee withdrawals tx_deposit
                tx_treasury_donation skip_asset_balancing ;;
            ret (txins_filtered, txouts_balanced)
        end
  end.

End Engine.

(** The iteration order that follows the representation of a set. *)
Definition list_order (s : str_set) : list string := s.

(** *** Scenarios of the specification *)

Definition row (h : string) (ix amt : Z) (addr c : string) : UTXOData :=
  mkUTXOData h ix amt addr c EmptyString EmptyString.

Definition locked_row (h : string) (ix amt : Z) (addr c : string) : UTXOData :=
  mkUTXOData h ix amt addr c "d4t4" EmptyString.

Definition cluster (utxos : list UTXOData) (mcv : Z) : ClusterLib :=
  mkClusterLib (fun _ => utxos) 0 mcv.

(** ** Notions used to state the properties *)

(** One round of the grouping loops of the value indexer. *)
Definition group_step {A : Type} (key_of : A -> string)
    (db : dict (list A)) (rec : A) : dict (list A) :=
  group_append (key_of rec) rec db.

(** The amount of the last row of a list that carries a given coin and
    identity. *)
Definition last_amount (c i : string) (rows : list UTXOData) : option Z :=
  option_map utxo_amount
    (find (fun r => String.eqb (utxo_coin r) c && String.eqb (utxo_id r) i)
          (rev rows)).

(** The change output that a round of the balancer appends for a coin, if
    the round returns. *)
Definition coin_change_outs (change_address : string)
    (txins_db : dict (list UTXOData))
    (txouts_passed_db txouts_mint_db : dict (list TxOut))
    (fee : Z) (withdrawals : list TxOut) (deposit treasury_donation : Z)
    (c : string) : list TxOut :=
  match
    snd (balance_coin txins_db txouts_passed_db txouts_mint_db fee
           withdrawals deposit treasury_donation c)
  with
  | Return (max_address, change) =>
      if change >? 0
      then [mkTxOut (address_or max_address change_address) change c]
      else []
  | Raise _ => []
  end.

(** The rows or outputs of a list that carry a given coin. *)
Definition of_coin {A : Type} `{CoinRecord A} (c : string) (l : list A)
    : list A :=
  filter (fun r => String.eqb (coin r) c) l.

(** The requested outputs that are kept as they are: [r.amount > 0]. *)
Definition positive_txouts (txouts : list TxOut) : list TxOut :=
  filter (fun r => txout_amount r >? 0) txouts.

(** The requested outputs of the base coin that carry the send-all mark. *)
Definition send_all_txouts (txouts : list TxOut) : list TxOut :=
  filter (fun r => String.eqb (txout_coin r) DEFAULT_COIN
                   && (txout_amount r =? -1)) txouts.

(** The datum lock belongs to an unspent output: the rows of one identity
    agree on it, as in the rows that [get_utxo] builds from a query. *)
Definition datum_consistent (rows : list UTXOData) : Prop :=
  forall r r', In r rows -> In r' rows -> utxo_id r = utxo_id r' ->
               has_datum r = has_datum r'.

(** [src_addr_utxos or clusterlib_obj.g_query.get_utxo(address=src_address)] *)
Definition candidate_utxos (clusterlib_obj : ClusterLib)
    (src_address : string) (src_addr_utxos : option (list UTXOData))
    : list UTXOData :=
  match src_addr_utxos with
  | Some (r :: rs) => r :: rs
  | _ => g_query_get_utxo clusterlib_obj src_address
  end.

(** The coins that the orchestrator looks for among the candidates: the base
    coin and the coins of the minted amounts and of the requested outputs. *)
Definition required_coins (txouts mint_txouts : list TxOut) : list string :=
  DEFAULT_COIN :: map txout_coin mint_txouts ++ map txout_coin txouts.

(** What holds of the state of the loop of [_get_usable_utxos]: the rows kept
    so far come from the candidates, and every identity seen so far was
    entered by a row without a datum. *)
Definition usable_inv (rows : list UTXOData)
    (state : list UTXOData * str_set * bool) : Prop :=
  let '(txins, seen_ids, _) := state in
  (forall r, In r txins -> In r rows /\ In (utxo_id r) seen_ids)
  /\ forall i, In i seen_ids ->
       exists r0, In r0 rows /\ utxo_id r0 = i /\ has_datum r0 = false.

(** The total of the amounts of a dictionary under the keys that satisfy a
    test. *)
Fixpoint dict_sum (P : string -> bool) (m : dict Z) : Z :=
  match m with
  | [] => 0
  | (k, v) :: m' => (if P k then v else 0) + dict_sum P m'
  end.

(** What holds of the state of the defragmentation phase: the accumulated
    amount is covered by the amounts of the picked identities, and an index
    that is not selected yet names an identity that is not picked yet. *)
Definition defrag_inv (utxos : list (string * Z)) (acc0 : Z)
    (state : list nat * str_set * Z) : Prop :=
  let '(selected_indices, picked_utxos, accumulated_amount) := state in
  accumulated_amount
  <= acc0 + dict_sum (fun i => str_mem i picked_utxos) utxos
  /\ forall j, (j < length utxos)%nat -> ~ In j selected_indices ->
       ~ In (fst (utxo_at utxos j)) picked_utxos.

(** A candidate row that lets its unspent output in: it holds a required
    coin and carries no datum. *)
Definition opens_utxo (coins : str_set) (r : UTXOData) : bool :=
  str_mem (utxo_coin r) coins && negb (has_datum r).

(** The identities that some row of the candidates lets in. *)
Definition utxo_is_usable (rows : list UTXOData) (coins : str_set)
    (i : string) : bool :=
  existsb (fun r0 => String.eqb (utxo_id r0) i && opens_utxo coins r0) rows.

(** What holds of the state of the loop of [_get_usable_utxos] after the
    rows [seen_rows]: the identities seen are those let in by a row met so
    far, each once; the rows kept are the rows of those identities, identity
    after identity; the flag is raised by a row with a datum that holds a
    required coin, and such a row otherwise belongs to an identity seen. *)
Definition usable_state (rows seen_rows : list UTXOData) (coins : str_set)
    (state : list UTXOData * str_set * bool) : Prop :=
  let '(txins, seen_ids, matching_with_datum) := state in
  NoDup seen_ids
  /\ (forall i, In i seen_ids <->
                exists r0, In r0 seen_rows /\ utxo_id r0 = i
                           /\ opens_utxo coins r0 = true)
  /\ txins
     = concat (map (fun i => filter (fun r => String.eqb (utxo_id r) i) rows)
                   seen_ids)
  /\ (matching_with_datum = true ->
      exists r, In r seen_rows /\ str_mem (utxo_coin r) coins = true
                /\ has_datum r = true)
  /\ (forall r, In r seen_rows -> str_mem (utxo_coin r) coins = true ->
                has_datum r = true ->
                matching_with_datum = true \/ In (utxo_id r) seen_ids).

(** What the defragmentation phase has done so far: the selected indices are
    distinct indices of [utxos], the accumulated amount is the starting
    amount plus the amounts at those indices, and the picked identities are
    the identities at those indices. *)
Definition defrag_trace (utxos : list (string * Z)) (acc0 : Z)
    (state : list nat * str_set * Z) : Prop :=
  let '(selected_indices, picked_utxos, accumulated_amount) := state in
  NoDup selected_indices
  /\ (forall i, In i selected_indices -> (i < length utxos)%nat)
  /\ accumulated_amount
     = acc0 + dict_sum (fun _ => true) (map (utxo_at utxos) selected_indices)
  /\ forall id, In id picked_utxos <->
                exists i, In i selected_indices
                          /\ fst (utxo_at utxos i) = id.

(** ** Balances and filters of UTxO lists *)

(** [calculate_utxos_balance]; [int(...)] of an [int] is the same [int]. *)
Definition calculate_utxos_balance {A : Type} `{CoinRecord A}
    (utxos : list A) (coin_name : string) : Z :=
  let filtered_utxos :=
    filter (fun u => String.eqb (coin u) coin_name) utxos in
  fold_left (fun x y => x + amount y) filtered_utxos 0.

(** [max(iterable, key=key)]: the first maximal element, which a later
    element replaces only when its key is greater. [None] stands for the
    [ValueError] that [max] raises on an empty sequence. *)
Definition max_by {A : Type} (key : A -> Z) (l : list A) : option A :=
  match l with
  | [] => None
  | x :: xs =>
      Some (fold_left (fun best y => if key y >? key best then y else best)
                      xs x)
  end.

Definition filter_utxo_with_highest_amount (utxos : list UTXOData)
    (coin_name : string) : option UTXOData :=
  let filtered_utxos :=
    filter (fun u => String.eqb (utxo_coin u) coin_name) utxos in
  max_by utxo_amount filtered_utxos.

(** [filter_utxos]; a criterion that is the empty string or [None] is not
    applied. Each [continue] leaves [filtered_utxos] as it is. *)
Definition filter_utxos (utxos : list UTXOData) (hash : string)
    (ix amount_wanted : option Z)
    (address coin_name datum inline_datum : string) : list UTXOData :=
  fold_left
    (fun filtered_utxos u =>
       if truthy hash && negb (String.eqb (utxo_hash u) hash)
       then filtered_utxos
       else if match ix with
               | Some i => negb (i =? utxo_ix u)
               | None => false
               end
       then filtered_utxos
       else if match amount_wanted with
               | Some a => negb (a =? utxo_amount u)
               | None => false
               end
       then filtered_utxos
       else if truthy address && negb (String.eqb (utxo_address u) address)
       then filtered_utxos
       else if truthy coin_name && negb (String.eqb (utxo_coin u) coin_name)
       then filtered_utxos
       else if truthy datum && negb (String.eqb (datum_hash u) datum)
       then filtered_utxos
       else if truthy inline_datum
               && negb (String.eqb (inline_datum_hash u) inline_datum)
       then filtered_utxos
       else filtered_utxos ++ [u])
    utxos [].

(** ** Inputs of scripts and withdrawals *)

(** Modelled from the spec: [structs.ScriptTxIn], of which the functions
    below read the rows of the script input only. *)
Record ScriptTxIn : Type := mkScriptTxIn {
  script_txins : list UTXOData
}.

(** [_get_txin_strings]: the identities of the plain inputs without the
    identity of the first row of each script input. *)
Definition _get_txin_strings (txins : list UTXOData)
    (script_inputs : list ScriptTxIn) : str_set :=
  let txins_utxos := str_update [] (map utxo_id txins) in
  let plutus_txins_utxos :=
    str_update []
      (flat_map (fun x => match script_txins x with
                          | r :: _ => [utxo_id r]
                          | [] => []
                          end) script_inputs) in
  filter (fun i => negb (str_mem i plutus_txins_utxos)) txins_utxos.

(** [_resolve_withdrawals]; [reward_account_balance] stands for
    [clusterlib_obj.g_query.get_stake_addr_info(address).reward_account_balance].
    A [TxOut] built from an address and an amount carries the base coin. *)
Definition _resolve_withdrawals (reward_account_balance : string -> Z)
    (withdrawals : list TxOut) : list TxOut :=
  fold_left
    (fun resolved_withdrawals rec =>
       if txout_amount rec =? -1 then
         let balance := reward_account_balance (txout_address rec) in
         resolved_withdrawals
         ++ [mkTxOut (txout_address rec) balance DEFAULT_COIN]
       else resolved_withdrawals ++ [rec])
    withdrawals [].

(** Modelled from the spec: [structs.ScriptWithdrawal], of which the
    functions below read and replace the withdrawal only. *)
Record ScriptWithdrawal : Type := mkScriptWithdrawal {
  script_withdrawal_txout : TxOut
}.

(** [_get_withdrawals]; [x and f(x)] is [x] for an empty [x], and
    [_resolve_withdrawals(...)[0]] is the head of the resolved list (the
    fallback of [hd] is not reached, see [resolve_withdrawals_map]). *)
Definition _get_withdrawals (reward_account_balance : string -> Z)
    (withdrawals : list TxOut) (script_withdrawals : list ScriptWithdrawal)
    : list TxOut * list ScriptWithdrawal * list TxOut :=
  let withdrawals :=
    match withdrawals with
    | [] => withdrawals
    | _ :: _ => _resolve_withdrawals reward_account_balance withdrawals
    end in
  let script_withdrawals :=
    map (fun s =>
           mkScriptWithdrawal
             (hd (script_withdrawal_txout s)
                 (_resolve_withdrawals reward_account_balance
                    [script_withdrawal_txout s])))
        script_withdrawals in
  let withdrawals_txouts :=
    withdrawals ++ map script_withdrawal_txout script_withdrawals in
  (withdrawals, script_withdrawals, withdrawals_txouts).

(** ** Joined outputs *)

Section JoinedTxouts.

(** The key
    [f"{rec.address}::{datum_src}::{inline_datum_src}::{rec.reference_script_file}"]
    of an output; the datum and script fields that it reads are not kept in
    [TxOut], so the key is left open. *)
Variable eutxo_attrs : TxOut -> string.

(** One round of the loop that fills [txouts_by_coin]. *)
Definition join_coin_step (txouts_by_coin : dict (TxOut * list Z))
    (ar : TxOut) : dict (TxOut * list Z) :=
  match dict_get (txout_coin ar) txouts_by_coin with
  | Some (r, amounts) =>
      dict_set (txout_coin ar) (r, amounts ++ [txout_amount ar])
               txouts_by_coin
  | None =>
      dict_set (txout_coin ar) (ar, [txout_amount ar]) txouts_by_coin
  end.

(** [dataclasses.replace(r[0], amount=sum(r[1]))] for every coin. *)
Definition sum_txouts (txouts_list : list TxOut) : list TxOut :=
  map (fun r => mkTxOut (txout_address (fst r)) (fold_left Z.add (snd r) 0)
                        (txout_coin (fst r)))
      (dict_values (fold_left join_coin_step txouts_list [])).

Definition get_joined_txouts (txouts : list TxOut) : list (list TxOut) :=
  let txouts_by_eutxo_attrs :=
    fold_left (fun db rec => group_append (eutxo_attrs rec) rec db)
              txouts [] in
  map sum_txouts (dict_values txouts_by_eutxo_attrs).

End JoinedTxouts.

(** ** Data for the build commands *)

(** Modelled from the spec: [structs.Mint], of which [collect_data_for_build]
    reads the minted outputs only. *)
Record Mint : Type := mkMint {
  mint_txouts_of : list TxOut
}.

(** Modelled from the spec: [structs.DataForBuild]. *)
Record DataForBuild : Type := mkDataForBuild {
  build_txins : list UTXOData;
  build_txouts : list TxOut;
  build_withdrawals : list TxOut;
  build_script_withdrawals : list ScriptWithdrawal
}.

(** How [collect_data_for_build] ends: it returns the data, it lets through
    an exception of [_get_tx_ins_outs], or it raises its own
    [AssertionError]: the source address cannot be a script address. *)
Inductive BuildResult : Type :=
| Build_return (data : DataForBuild)
| Build_raise (e : Exception)
| Build_source_is_script_address.

(** [collect_data_for_build]. The certificate and proposal files, which it
    only collects for the deposit of the transaction, are behind
    [g_transaction_get_tx_deposit]. *)
Definition collect_data_for_build (set_iter : str_set -> list string)
    (clusterlib_obj : ClusterLib) (reward_account_balance : string -> Z)
    (src_address : string) (txins : list UTXOData) (txouts : list TxOut)
    (script_inputs : list ScriptTxIn) (mint : list Mint) (fee : Z)
    (withdrawals : list TxOut) (script_withdrawals : list ScriptWithdrawal)
    (deposit treasury_donation : option Z)
    (src_addr_utxos : option (list UTXOData)) (skip_asset_balancing : bool)
    : list LogRecord * BuildResult :=
  let '(withdrawals, script_withdrawals, withdrawals_txouts) :=
    _get_withdrawals reward_account_balance withdrawals script_withdrawals in
  let script_txins_records := flat_map script_txins script_inputs in
  let script_addresses :=
    str_update [] (map utxo_address script_txins_records) in
  if str_mem src_address script_addresses
  then ([], Build_source_is_script_address)
  else
    let combined_txins := txins ++ script_txins_records in
    let mint_txouts := flat_map mint_txouts_of mint in
    match
      _get_tx_ins_outs set_iter clusterlib_obj src_address combined_txins
        txouts fee deposit treasury_donation withdrawals_txouts mint_txouts
        src_addr_utxos skip_asset_balancing
    with
    | (logs, Raise e) => (logs, Build_raise e)
    | (logs, Return (txins_copy, txouts_copy)) =>
        let payment_txins :=
          match txins with [] => txins_copy | _ :: _ => txins end in
        let payment_txins :=
          match script_txins_records with
          | [] => payment_txins
          | _ :: _ => match txins with [] => [] | _ :: _ => txins end
          end in
        (logs,
         Build_return
           (mkDataForBuild payment_txins txouts_copy withdrawals
              script_withdrawals))
    end.

(** ** The change address of the build commands *)

(** The first statements of [build_tx] and of [build_estimate_tx] in
    [transaction_group.py], which settle the change address. [None] stands
    for the [AssertionError] raised when an output asks for all the
    remaining funds and a change address is given as well. *)
Definition build_tx_change_address (src_address change_address : string)
    (txouts : list TxOut) : option string :=
  let max_txout :=
    filter (fun o => (txout_amount o =? -1)
                     && (String.eqb (txout_coin o) EmptyString
                         || String.eqb (txout_coin o) DEFAULT_COIN))
           txouts in
  match max_txout with
  | o :: _ =>
      if truthy change_address then None else Some (txout_address o)
  | [] =>
      Some (if truthy change_address then change_address else src_address)
  end.

(** The test that [filter_utxos] applies to a row: every criterion that is
    given holds of the row. *)
Definition utxo_matches (hash : string) (ix amount_wanted : option Z)
    (address coin_name datum inline_datum : string) (u : UTXOData) : bool :=
  (negb (truthy hash) || String.eqb (utxo_hash u) hash)
  && match ix with Some i => i =? utxo_ix u | None => true end
  && match amount_wanted with Some a => a =? utxo_amount u | None => true end
  && (negb (truthy address) || String.eqb (utxo_address u) address)
  && (negb (truthy coin_name) || String.eqb (utxo_coin u) coin_name)
  && (negb (truthy datum) || String.eqb (datum_hash u) datum)
  && (negb (truthy inline_datum)
      || String.eqb (inline_datum_hash u) inline_datum).

(** What [_resolve_withdrawals] does to one withdrawal. *)
Definition resolve_withdrawal (reward_account_balance : string -> Z)
    (rec : TxOut) : TxOut :=
  if txout_amount rec =? -1
  then mkTxOut (txout_address rec)
               (reward_account_balance (txout_address rec)) DEFAULT_COIN
  else rec.

(** What holds of [txouts_by_coin] after the outputs [done] of a group: the
    coins are the coins of these outputs; the entry of a coin holds one of
    these outputs of that coin, and amounts that add up to the total of the
    coin. *)
Definition join_inv (txouts_by_coin : dict (TxOut * list Z))
    (done : list TxOut) : Prop :=
  NoDup (dict_keys txouts_by_coin)
  /\ (forall k, In k (dict_keys txouts_by_coin)
                <-> exists r, In r done /\ txout_coin r = k)
  /\ forall k r amounts,
       dict_get k txouts_by_coin = Some (r, amounts) ->
       txout_coin r = k /\ In r done
       /\ fold_left Z.add amounts 0 = total_amount (of_coin k done).

(** A group of joined outputs for the outputs of key [k]: one output per
    coin of these outputs, with the total of the coin and the address of
    one of them. *)
Definition joined_group (eutxo_attrs : TxOut -> string)
    (txouts : list TxOut) (k : string) (g : list TxOut) : Prop :=
  let txouts_list :=
    filter (fun r => String.eqb (eutxo_attrs r) k) txouts in
  g <> []
  /\ NoDup (map txout_coin g)
  /\ (forall o, In o g ->
        txout_amount o = calculate_utxos_balance txouts_list (txout_coin o)
        /\ exists r, In r txouts_list
                     /\ txout_address o = txout_address r
                     /\ txout_coin o = txout_coin r)
  /\ forall r, In r txouts_list ->
       exists o, In o g /\ txout_coin o = txout_coin r.

(** * Properties *)

Unset Implicit Arguments.

(** ** Dictionaries *)

Section DictFacts.
Context {V : Type}.
Implicit Types (d : dict V) (k : string) (v : V).

Lemma dict_get_set_eq k v d : dict_get k (dict_set k v d) = Some v.
Proof.
  induction d as [|[k' v'] d IH]; simpl.
  - now rewrite String.eqb_refl.
  - destruct (String.eqb k k') eqn:E; simpl.
    + now rewrite String.eqb_refl.
    + now rewrite E.
Qed.

Lemma dict_get_set_neq k k' v d :
  k <> k' -> dict_get k (dict_set k' v d) = dict_get k d.
Proof.
  intros Hne. induction d as [|[k2 v2] d IH]; simpl.
  - apply String.eqb_neq in Hne. now rewrite Hne.
  - destruct (String.eqb k' k2) eqn:E; simpl.
    + apply String.eqb_eq in E. subst k2.
      apply String.eqb_neq in Hne. now rewrite Hne.
    + now rewrite IH.
Qed.

Lemma dict_set_absent k v d :
  dict_get k d = None -> dict_set k v d = d ++ [(k, v)].
Proof.
  induction d as [|[k' v'] d IH]; simpl; intros H; [reflexivity|].
  destruct (String.eqb k k'); [discriminate|]. now rewrite IH.
Qed.

Lemma dict_get_In k v d : dict_get k d = Some v -> In (k, v) d.
Proof.
  induction d as [|[k' v'] d IH]; simpl; [discriminate|].
  destruct (String.eqb k k') eqn:E.
  - apply String.eqb_eq in E. intros [= ->]. left. now subst.
  - intros H. right. now apply IH.
Qed.

Lemma dict_get_None_keys k d :
  dict_get k d = None <-> ~ In k (dict_keys d).
Proof.
  induction d as [|[k' v'] d IH]; simpl.
  - tauto.
  - destruct (String.eqb k k') eqn:E.
    + apply String.eqb_eq in E. subst. split; [discriminate|tauto].
    + apply String.eqb_neq in E. rewrite IH. split.
      * intros H [H1|H1]; [now subst|tauto].
      * tauto.
Qed.

Lemma dict_mem_keys k d : dict_mem k d = true <-> In k (dict_keys d).
Proof.
  unfold dict_mem. destruct (dict_get k d) eqn:E.
  - split; [intros _|reflexivity].
    apply dict_get_In in E. now apply (in_map fst) in E.
  - split; [discriminate|]. intros H. now apply dict_get_None_keys in E.
Qed.

Lemma dict_keys_set k v d :
  dict_keys (dict_set k v d)
  = if dict_mem k d then dict_keys d else dict_keys d ++ [k].
Proof.
  unfold dict_mem. induction d as [|[k' v'] d IH]; simpl; [reflexivity|].
  destruct (String.eqb k k') eqn:E; simpl.
  - apply String.eqb_eq in E. now subst.
  - rewrite IH. now destruct (dict_get k d).
Qed.

Lemma dict_keys_set_NoDup k v d :
  NoDup (dict_keys d) -> NoDup (dict_keys (dict_set k v d)).
Proof.
  intros H. rewrite dict_keys_set. destruct (dict_mem k d) eqn:E; [easy|].
  apply NoDup_app; [easy|repeat constructor; easy|].
  intros x Hx [<-|[]]. apply dict_mem_keys in Hx. congruence.
Qed.

Lemma dict_get_NoDup_In k v d :
  NoDup (dict_keys d) -> In (k, v) d -> dict_get k d = Some v.
Proof.
  induction d as [|[k' v'] d IH]; simpl; [tauto|].
  intros Hnd [H|H].
  - injection H as -> ->. now rewrite String.eqb_refl.
  - inversion Hnd as [|? ? Hn Hnd']; subst.
    destruct (String.eqb k k') eqn:E.
    + apply String.eqb_eq in E. subst. exfalso. apply Hn.
      now apply (in_map fst) in H.
    + now apply IH.
Qed.
End DictFacts.

(** ** Sums of amounts *)

Section Totals.
Context {A : Type} `{CoinRecord A}.

Lemma fold_amount_shift (l : list A) (a b : Z) :
  fold_left (fun x y => x + amount y) l (a + b)
  = a + fold_left (fun x y => x + amount y) l b.
Proof.
  revert b. induction l as [|x l IH]; intros b; simpl; [reflexivity|].
  now rewrite <- Z.add_assoc, IH.
Qed.

Lemma fold_amount (l : list A) (a : Z) :
  fold_left (fun x y => x + amount y) l a = a + total_amount l.
Proof.
  unfold total_amount. now rewrite <- fold_amount_shift, Z.add_0_r.
Qed.

Lemma total_amount_nil : total_amount (@nil A) = 0.
Proof. reflexivity. Qed.

Lemma total_amount_cons (x : A) (l : list A) :
  total_amount (x :: l) = amount x + total_amount l.
Proof.
  unfold total_amount at 1. simpl fold_left.
  rewrite fold_amount. lia.
Qed.

Lemma total_amount_app (l1 l2 : list A) :
  total_amount (l1 ++ l2) = total_amount l1 + total_amount l2.
Proof.
  induction l1 as [|x l1 IH]; simpl; [reflexivity|].
  rewrite !total_amount_cons, IH. lia.
Qed.

End Totals.

(** ** Value indexer *)

Section Grouping.
Context {A : Type}.
Variable key_of : A -> string.

Lemma group_append_alt (k : string) (r : A) (db : dict (list A)) :
  group_append k r db
  = match dict_get k db with
    | Some g => dict_set k (g ++ [r]) db
    | None => db ++ [(k, [r])]
    end.
Proof.
  unfold group_append, dict_mem, get_or_nil.
  destruct (dict_get k db) as [g|] eqn:E.
  - now rewrite E.
  - rewrite dict_get_set_eq. simpl.
    rewrite (@dict_set_absent (list A) k [] db E).
    assert (E' : dict_set k [r] (db ++ [(k, [])]) = db ++ [(k, [r])]).
    { clear - E. induction db as [|[k' v'] db IH]; simpl.
      - now rewrite String.eqb_refl.
      - simpl in E. destruct (String.eqb k k'); [discriminate|].
        now rewrite IH. }
    exact E'.
Qed.

Lemma group_append_get (k k' : string) (r : A) (db : dict (list A)) :
  get_or_nil k (group_append k' r db)
  = if String.eqb k k' then get_or_nil k db ++ [r] else get_or_nil k db.
Proof.
  unfold group_append, get_or_nil at 1.
  destruct (String.eqb k k') eqn:E.
  - apply String.eqb_eq in E. subst k'. rewrite dict_get_set_eq.
    unfold dict_mem, get_or_nil.
    destruct (dict_get k db) eqn:E0; simpl;
      now rewrite ?E0, ?dict_get_set_eq.
  - apply String.eqb_neq in E. rewrite dict_get_set_neq by assumption.
    unfold dict_mem, get_or_nil.
    destruct (dict_get k' db); [reflexivity|].
    now rewrite dict_get_set_neq by assumption.
Qed.

Lemma group_fold_get (k : string) (l : list A) (db : dict (list A)) :
  get_or_nil k (fold_left (group_step key_of) l db)
  = get_or_nil k db ++ filter (fun r => String.eqb (key_of r) k) l.
Proof.
  revert db. induction l as [|r l IH]; intros db; simpl.
  - now rewrite app_nil_r.
  - rewrite IH. unfold group_step. rewrite group_append_get.
    rewrite (String.eqb_sym (key_of r) k).
    destruct (String.eqb k (key_of r)); [|reflexivity].
    now rewrite <- app_assoc.
Qed.

Lemma group_append_keys (k : string) (r : A) (db : dict (list A)) :
  dict_keys (group_append k r db)
  = if dict_mem k db then dict_keys db else dict_keys db ++ [k].
Proof.
  rewrite group_append_alt. unfold dict_mem.
  destruct (dict_get k db) eqn:E.
  - rewrite dict_keys_set. unfold dict_mem. now rewrite E.
  - unfold dict_keys. now rewrite map_app.
Qed.

Lemma group_fold_keys (k : string) (l : list A) (db : dict (list A)) :
  In k (dict_keys (fold_left (group_step key_of) l db))
  <-> In k (dict_keys db) \/ exists r, In r l /\ key_of r = k.
Proof.
  revert db. induction l as [|r l IH]; intros db; simpl.
  - split; [tauto|]. intros [H|[r [[] _]]]. exact H.
  - rewrite IH. unfold group_step at 1. rewrite group_append_keys.
    destruct (dict_mem (key_of r) db) eqn:E.
    + apply dict_mem_keys in E. split.
      * intros [H|[r' [H1 H2]]]; [tauto|]. right. exists r'. tauto.
      * intros [H|[r' [[H1|H1] H2]]]; [tauto| |].
        -- subst. tauto.
        -- right. exists r'. tauto.
    + rewrite in_app_iff. simpl. split.
      * intros [[H|[H|[]]]|[r' [H1 H2]]]; [tauto| |].
        -- right. exists r. tauto.
        -- right. exists r'. tauto.
      * intros [H|[r' [[H1|H1] H2]]]; [tauto| |].
        -- subst. tauto.
        -- right. exists r'. tauto.
Qed.

(** The groups selected by their key hold the rows selected by their key. *)
Lemma group_append_filter_perm (P : string -> bool) (k : string) (r : A)
    (db : dict (list A)) :
  Permutation
    (concat (map snd (filter (fun kv => P (fst kv)) (group_append k r db))))
    (concat (map snd (filter (fun kv => P (fst kv)) db))
     ++ (if P k then [r] else [])).
Proof.
  rewrite group_append_alt. induction db as [|[k' g'] db IH]; simpl.
  - destruct (P k); simpl; reflexivity.
  - destruct (String.eqb k k') eqn:E.
    + apply String.eqb_eq in E. subst k'. simpl.
      destruct (P k); simpl.
      * rewrite <- !app_assoc. apply Permutation_app_head.
        apply Permutation_app_comm.
      * now rewrite app_nil_r.
    + destruct (dict_get k db) as [g|] eqn:Eg; simpl.
      * destruct (P k'); simpl.
        -- rewrite <- app_assoc. now apply Permutation_app_head.
        -- exact IH.
      * destruct (P k'); simpl.
        -- rewrite <- app_assoc. now apply Permutation_app_head.
        -- exact IH.
Qed.

Lemma group_fold_filter_perm (P : string -> bool) (l : list A)
    (db : dict (list A)) :
  Permutation
    (concat (map snd (filter (fun kv => P (fst kv))
                        (fold_left (group_step key_of) l db))))
    (concat (map snd (filter (fun kv => P (fst kv)) db))
     ++ filter (fun r => P (key_of r)) l).
Proof.
  revert db. induction l as [|r l IH]; intros db; simpl.
  - now rewrite app_nil_r.
  - rewrite IH. unfold group_step at 1.
    rewrite group_append_filter_perm.
    destruct (P (key_of r)); simpl.
    + now rewrite <- app_assoc.
    + now rewrite app_nil_r.
Qed.
End Grouping.

Lemma organize_by_coin_get {A : Type} `{CoinRecord A} (c : string)
    (l : list A) :
  get_or_nil c (_organize_tx_ins_outs_by_coin l)
  = filter (fun r => String.eqb (coin r) c) l.
Proof.
  unfold _organize_tx_ins_outs_by_coin.
  exact (group_fold_get coin c l []).
Qed.

Lemma organize_by_coin_keys {A : Type} `{CoinRecord A} (c : string)
    (l : list A) :
  In c (dict_keys (_organize_tx_ins_outs_by_coin l))
  <-> exists r, In r l /\ coin r = c.
Proof.
  change (_organize_tx_ins_outs_by_coin l)
    with (fold_left (group_step coin) l []).
  rewrite (group_fold_keys coin c l []). simpl. tauto.
Qed.

Lemma organize_by_id_get (i : string) (l : list UTXOData) :
  get_or_nil i (_organize_utxos_by_id l)
  = filter (fun r => String.eqb (utxo_id r) i) l.
Proof. exact (group_fold_get utxo_id i l []). Qed.

Lemma organize_by_id_filter_perm (P : string -> bool) (l : list UTXOData) :
  Permutation
    (concat (map snd (filter (fun kv => P (fst kv)) (_organize_utxos_by_id l))))
    (filter (fun r => P (utxo_id r)) l).
Proof. exact (group_fold_filter_perm utxo_id P l []). Qed.

Lemma filter_true {A : Type} (l : list A) : filter (fun _ => true) l = l.
Proof. induction l; simpl; congruence. Qed.

Lemma organize_by_id_perm (l : list UTXOData) :
  Permutation (concat (dict_values (_organize_utxos_by_id l))) l.
Proof.
  pose proof (organize_by_id_filter_perm (fun _ => true) l) as H.
  now rewrite !filter_true in H.
Qed.

Lemma organize_by_coin_perm {A : Type} `{CoinRecord A} (l : list A) :
  Permutation (concat (dict_values (_organize_tx_ins_outs_by_coin l))) l.
Proof.
  pose proof (group_fold_filter_perm coin (fun _ => true) l []) as H1.
  simpl in H1. now rewrite !filter_true in H1.
Qed.

Lemma coin_and_id_step_lookup (c i : string) (db : dict (dict Z))
    (r : UTXOData) :
  dict_get i (get_or_empty c (coin_and_id_step db r))
  = if String.eqb (utxo_coin r) c && String.eqb (utxo_id r) i
    then Some (utxo_amount r)
    else dict_get i (get_or_empty c db).
Proof.
  unfold coin_and_id_step, get_or_empty.
  destruct (String.eqb (utxo_coin r) c) eqn:Ec; simpl.
  - apply String.eqb_eq in Ec. subst c.
    destruct (dict_get (utxo_coin r) db) as [m|] eqn:Em;
      rewrite dict_get_set_eq.
    + destruct (String.eqb (utxo_id r) i) eqn:Ei.
      * apply String.eqb_eq in Ei. subst i. apply dict_get_set_eq.
      * apply String.eqb_neq in Ei. apply dict_get_set_neq. congruence.
    + simpl. rewrite (String.eqb_sym i (utxo_id r)).
      now destruct (String.eqb (utxo_id r) i).
  - apply String.eqb_neq in Ec.
    destruct (dict_get (utxo_coin r) db) as [m|] eqn:Em;
      now rewrite dict_get_set_neq by congruence.
Qed.

Lemma coin_and_id_lookup (c i : string) (rows : list UTXOData) :
  dict_get i (get_or_empty c (_organize_utxos_by_coin_and_id rows))
  = last_amount c i rows.
Proof.
  unfold _organize_utxos_by_coin_and_id, last_amount.
  induction rows as [|r rows IH] using rev_ind; [reflexivity|].
  rewrite fold_left_app, rev_app_distr. simpl.
  rewrite coin_and_id_step_lookup.
  destruct (String.eqb (utxo_coin r) c && String.eqb (utxo_id r) i);
    [reflexivity|exact IH].
Qed.

Lemma coin_and_id_step_keys (c : string) (db : dict (dict Z)) (r : UTXOData) :
  In c (dict_keys (coin_and_id_step db r))
  <-> In c (dict_keys db) \/ c = utxo_coin r.
Proof.
  unfold coin_and_id_step.
  destruct (dict_get (utxo_coin r) db) as [m|] eqn:Em;
    rewrite dict_keys_set; unfold dict_mem; rewrite Em.
  - split; [tauto|]. intros [H| ->]; [exact H|].
    apply dict_get_In in Em. now apply (in_map fst) in Em.
  - rewrite in_app_iff. simpl. intuition.
Qed.

Lemma coin_and_id_keys (c : string) (rows : list UTXOData) :
  In c (dict_keys (_organize_utxos_by_coin_and_id rows))
  <-> exists r, In r rows /\ utxo_coin r = c.
Proof.
  unfold _organize_utxos_by_coin_and_id.
  induction rows as [|r rows IH] using rev_ind.
  - simpl. split; [tauto|]. now intros [r [[] _]].
  - rewrite fold_left_app. simpl. rewrite coin_and_id_step_keys, IH.
    split.
    + intros [[r' [H1 H2]]| ->].
      * exists r'. rewrite in_app_iff. tauto.
      * exists r. rewrite in_app_iff. simpl. tauto.
    + intros [r' [H1 H2]]. apply in_app_iff in H1.
      destruct H1 as [H1|[<-|[]]]; [left; now exists r'|now right].
Qed.

Lemma coin_and_id_inner_NoDup (c : string) (rows : list UTXOData) :
  NoDup (dict_keys (get_or_empty c (_organize_utxos_by_coin_and_id rows))).
Proof.
  unfold _organize_utxos_by_coin_and_id.
  induction rows as [|r rows IH] using rev_ind; [constructor|].
  rewrite fold_left_app. simpl.
  set (db := fold_left coin_and_id_step rows []) in *.
  unfold coin_and_id_step, get_or_empty in *.
  destruct (String.eqb_spec c (utxo_coin r)) as [->|Hne].
  - destruct (dict_get (utxo_coin r) db) as [m|] eqn:Em;
      rewrite dict_get_set_eq.
    + now apply dict_keys_set_NoDup.
    + repeat constructor. easy.
  - destruct (dict_get (utxo_coin r) db) as [m|] eqn:Em;
      now rewrite dict_get_set_neq by assumption.
Qed.

(** ** Sets of strings *)

Lemma str_mem_In (x : string) (s : str_set) : str_mem x s = true <-> In x s.
Proof.
  unfold str_mem. split.
  - apply set_mem_correct1.
  - apply set_mem_correct2.
Qed.

Lemma str_mem_false (x : string) (s : str_set) :
  str_mem x s = false <-> ~ In x s.
Proof.
  rewrite <- str_mem_In. destruct (str_mem x s); split; congruence.
Qed.

Lemma str_add_In (x y : string) (s : str_set) :
  In x (str_add y s) <-> x = y \/ In x s.
Proof. unfold str_add. apply set_add_iff. Qed.

Lemma str_add_NoDup (y : string) (s : str_set) :
  NoDup s -> NoDup (str_add y s).
Proof. apply set_add_nodup. Qed.

Lemma str_update_In (x : string) (s : str_set) (xs : list string) :
  In x (str_update s xs) <-> In x s \/ In x xs.
Proof.
  unfold str_update. revert s.
  induction xs as [|y xs IH]; intros s; simpl; [tauto|].
  rewrite IH, str_add_In. intuition.
Qed.

Lemma str_update_NoDup (s : str_set) (xs : list string) :
  NoDup s -> NoDup (str_update s xs).
Proof.
  unfold str_update. revert s.
  induction xs as [|y xs IH]; intros s H; simpl; [exact H|].
  apply IH. now apply str_add_NoDup.
Qed.

Lemma coin_union_In (x : string) (a b c : list string) :
  In x (coin_union a b c) <-> In x a \/ In x b \/ In x c.
Proof. unfold coin_union. rewrite !str_update_In. simpl. tauto. Qed.

Lemma coin_union_NoDup (a b c : list string) : NoDup (coin_union a b c).
Proof. unfold coin_union. repeat apply str_update_NoDup. constructor. Qed.

(** ** Reuse phase *)

Lemma pick_already_loop_picked (coin_txins : dict Z) (ids : list string)
    (target twc : Z) (picked : str_set) (acc : Z) :
  fst (fst (pick_already_loop coin_txins ids target twc picked acc)) = picked.
Proof.
  revert acc. induction ids as [|i ids IH]; intros acc; simpl; [reflexivity|].
  destruct (dict_get i coin_txins) as [a|]; [|apply IH].
  destruct (acc + a =? target); [reflexivity|].
  destruct (acc + a >=? twc); [reflexivity|apply IH].
Qed.

(** C8 (as amended). The groupings by identity and by coin keep every row,
    in the order of the list: the group of a key is the sub-list of the rows
    with that key and the groups together are a permutation of the rows. The
    mapping from coin and identity to an amount keeps one amount for each
    pair, the amount of the last row with that pair. *)
Theorem value_indexer_groupings :
  forall (rows : list UTXOData) (txouts : list TxOut),
    (Permutation (concat (dict_values (_organize_utxos_by_id rows))) rows
     /\ forall i, get_or_nil i (_organize_utxos_by_id rows)
                  = filter (fun r => String.eqb (utxo_id r) i) rows)
    /\ (Permutation
          (concat (dict_values (_organize_tx_ins_outs_by_coin rows))) rows
        /\ forall c, get_or_nil c (_organize_tx_ins_outs_by_coin rows)
                     = filter (fun r => String.eqb (coin r) c) rows)
    /\ (Permutation
          (concat (dict_values (_organize_tx_ins_outs_by_coin txouts))) txouts
        /\ forall c, get_or_nil c (_organize_tx_ins_outs_by_coin txouts)
                     = filter (fun r => String.eqb (coin r) c) txouts)
    /\ forall c i,
         dict_get i (get_or_empty c (_organize_utxos_by_coin_and_id rows))
         = last_amount c i rows.
Proof.
  intros rows txouts. repeat split.
  - apply organize_by_id_perm.
  - intros i. apply organize_by_id_get.
  - apply organize_by_coin_perm.
  - intros c. apply organize_by_coin_get.
  - apply organize_by_coin_perm.
  - intros c. apply organize_by_coin_get.
  - intros c i. apply coin_and_id_lookup.
Qed.

(** C8, the claim as stated fails: two rows with the same identity and coin,
    of amounts 3 and 4, leave the single amount 4 in the mapping from coin
    and identity to amount; the amount 3 is kept nowhere and the pair is not
    mapped to the sum 7. *)
Lemma coin_and_id_overwrites_duplicate :
  let rows := [row "a" 0 3 "S" DEFAULT_COIN; row "a" 0 4 "S" DEFAULT_COIN] in
  _organize_utxos_by_coin_and_id rows = [(DEFAULT_COIN, [("a#0"%string, 4)])]
  /\ total_amount
       (filter (fun r => String.eqb (utxo_coin r) DEFAULT_COIN
                         && String.eqb (utxo_id r) "a#0") rows) = 7
  /\ dict_get "a#0" (get_or_empty DEFAULT_COIN
                       (_organize_utxos_by_coin_and_id rows)) <> Some 7
  /\ ~ In 3 (concat (map (fun kv => map snd (snd kv))
                         (_organize_utxos_by_coin_and_id rows))).
Proof.
  cbv zeta. repeat split; try reflexivity.
  - vm_compute. discriminate.
  - vm_compute. intros [H|[]]. discriminate.
Qed.

(** ** Loops that log and raise *)

Lemma for_each_returns {A S : Type} (body : S -> A -> M S)
    (logs_of : A -> list LogRecord) (next : S -> A -> S) (l : list A) :
  (forall x s, In x l -> body s x = (logs_of x, Return (next s x))) ->
  forall s, for_each body l s = (flat_map logs_of l, Return (fold_left next l s)).
Proof.
  induction l as [|x l IH]; intros Hbody s; simpl; [reflexivity|].
  rewrite Hbody by now left. unfold bind.
  rewrite IH by (intros; apply Hbody; now right). reflexivity.
Qed.

Lemma fold_left_app_outs {A B : Type} (outs : A -> list B) (l : list A)
    (init : list B) :
  fold_left (fun s x => s ++ outs x) l init = init ++ flat_map outs l.
Proof.
  revert init. induction l as [|x l IH]; intros init; simpl.
  - now rewrite app_nil_r.
  - now rewrite IH, app_assoc.
Qed.

Lemma log_if_then (b : bool) (r : LogRecord) {A : Type} (v : A) :
  (_ <- (if b then log r else ret tt) ;; ret v)
  = (if b then [r] else [], Return v).
Proof. now destruct b. Qed.

(** ** The send-all mark among the outputs of a coin *)

Lemma send_all_from_nil (n : nat) (l : list TxOut) :
  map fst (filter (fun p => txout_amount (snd p) =? -1) (enumerate_from n l))
  = [] <-> forall r, In r l -> txout_amount r <> -1.
Proof.
  revert n. induction l as [|x l IH]; intros n; simpl.
  - split; [intros _ r []|reflexivity].
  - destruct (txout_amount x =? -1) eqn:E; simpl.
    + apply Z.eqb_eq in E. split; [discriminate|].
      intros H. exfalso. now apply (H x); [left|].
    + apply Z.eqb_neq in E. rewrite IH. split.
      * intros H r [<-|Hr]; [exact E|now apply H].
      * intros H r Hr. apply H. now right.
Qed.

Lemma send_all_from_cons (n i : nat) (rest : list nat) (l : list TxOut) :
  map fst (filter (fun p => txout_amount (snd p) =? -1) (enumerate_from n l))
  = i :: rest ->
  exists l1 x l2,
    l = l1 ++ x :: l2 /\ i = (n + length l1)%nat /\ txout_amount x = -1
    /\ (forall r, In r l1 -> txout_amount r <> -1)
    /\ rest = map fst (filter (fun p => txout_amount (snd p) =? -1)
                         (enumerate_from (S i) l2)).
Proof.
  revert n. induction l as [|y l IH]; intros n; simpl; [discriminate|].
  destruct (txout_amount y =? -1) eqn:E; simpl.
  - apply Z.eqb_eq in E. intros [= <- <-].
    exists [], y, l. simpl. rewrite Nat.add_0_r. repeat split; easy.
  - apply Z.eqb_neq in E. intros H.
    destruct (IH _ H) as (l1 & x & l2 & -> & -> & Hx & Hl1 & Hrest).
    exists (y :: l1), x, l2. simpl. repeat split; try easy.
    intros r [<-|Hr]; [exact E|now apply Hl1].
Qed.

Lemma send_all_indices_nil (l : list TxOut) :
  send_all_indices l = [] <-> forall r, In r l -> txout_amount r <> -1.
Proof. apply send_all_from_nil. Qed.

Lemma send_all_indices_one (i : nat) (l : list TxOut) :
  send_all_indices l = [i] ->
  exists l1 x l2,
    l = l1 ++ x :: l2 /\ i = length l1 /\ txout_amount x = -1
    /\ (forall r, In r (l1 ++ l2) -> txout_amount r <> -1).
Proof.
  intros H. apply send_all_from_cons in H.
  destruct H as (l1 & x & l2 & -> & -> & Hx & Hl1 & Hrest).
  exists l1, x, l2. repeat split; try easy.
  symmetry in Hrest. rewrite send_all_from_nil in Hrest.
  intros r Hr. apply in_app_iff in Hr. destruct Hr; auto.
Qed.

Lemma send_all_indices_length (l : list TxOut) :
  length (send_all_indices l)
  = length (filter (fun r => txout_amount r =? -1) l).
Proof.
  unfold send_all_indices, enumerate. generalize 0%nat.
  induction l as [|x l IH]; intros n; simpl; [reflexivity|].
  destruct (txout_amount x =? -1); simpl; now rewrite IH.
Qed.

Lemma nth_error_middle {A : Type} (l1 l2 : list A) (x : A) :
  nth_error (l1 ++ x :: l2) (length l1) = Some x.
Proof. induction l1; simpl; auto. Qed.

Lemma list_pop_middle {A : Type} (l1 l2 : list A) (x : A) :
  list_pop (length l1) (l1 ++ x :: l2) = l1 ++ l2.
Proof. induction l1; simpl; congruence. Qed.

(** ** One round of the balancer *)

Section BalanceCoin.
Variables (txins_db : dict (list UTXOData))
          (txouts_passed_db txouts_mint_db : dict (list TxOut))
          (fee : Z) (withdrawals : list TxOut)
          (deposit treasury_donation : Z).

Let round := balance_coin txins_db txouts_passed_db txouts_mint_db fee
               withdrawals deposit treasury_donation.

Lemma balance_coin_token (c : string) :
  c <> DEFAULT_COIN ->
  let available :=
    total_amount (get_or_nil c txins_db)
    + total_amount (get_or_nil c txouts_mint_db) in
  let needed := total_amount (get_or_nil c txouts_passed_db) in
  round c
  = (if available - needed <? 0
     then [Error_coin_not_sufficient c available needed] else [],
     Return (None, available - needed)).
Proof.
  intros Hc. cbv zeta. unfold round, balance_coin.
  apply String.eqb_neq in Hc. rewrite Hc. apply log_if_then.
Qed.

Lemma balance_coin_base_plain :
  send_all_indices (get_or_nil DEFAULT_COIN txouts_passed_db) = [] ->
  let available :=
    total_amount (get_or_nil DEFAULT_COIN txins_db)
    + total_amount withdrawals in
  let needed :=
    total_amount (get_or_nil DEFAULT_COIN txouts_passed_db)
    + Z.max 0 fee + deposit + treasury_donation in
  round DEFAULT_COIN
  = (if available - needed <? 0
     then [Error_not_enough_funds available needed] else [],
     Return (None, available - needed)).
Proof.
  intros Hs. cbv zeta. unfold round, balance_coin.
  rewrite String.eqb_refl, Hs. simpl length. simpl Nat.ltb.
  cbv iota beta. apply log_if_then.
Qed.

Lemma balance_coin_base_send_all (l1 l2 : list TxOut) (x : TxOut) :
  get_or_nil DEFAULT_COIN txouts_passed_db = l1 ++ x :: l2 ->
  send_all_indices (l1 ++ x :: l2) = [length l1] ->
  let available :=
    total_amount (get_or_nil DEFAULT_COIN txins_db)
    + total_amount withdrawals in
  let needed :=
    total_amount (l1 ++ l2) + Z.max 0 fee + deposit + treasury_donation in
  round DEFAULT_COIN
  = (if available - needed <? 0
     then [Error_not_enough_funds available needed] else [],
     Return (Some (txout_address x), available - needed)).
Proof.
  intros Hl Hs. cbv zeta. unfold round, balance_coin.
  rewrite String.eqb_refl, Hl, Hs. simpl length. simpl Nat.ltb.
  cbv iota beta. rewrite nth_error_middle, list_pop_middle. simpl option_map.
  apply log_if_then.
Qed.

(** A round raises only for the base coin with several send-all marks. *)
Lemma balance_coin_returns (c : string) :
  (length (send_all_indices (get_or_nil DEFAULT_COIN txouts_passed_db))
   <= 1)%nat ->
  exists max_address change, snd (round c) = Return (max_address, change).
Proof.
  intros Hs. destruct (String.eqb_spec c DEFAULT_COIN) as [->|Hc].
  - destruct (send_all_indices (get_or_nil DEFAULT_COIN txouts_passed_db))
      as [|i [|j rest]] eqn:E.
    + rewrite (balance_coin_base_plain E). simpl. eauto.
    + destruct (send_all_indices_one _ _ E)
        as (l1 & x & l2 & Hl & -> & _ & _).
      rewrite Hl in E. rewrite (balance_coin_base_send_all _ _ _ Hl E).
      simpl. eauto.
    + simpl in Hs. lia.
  - rewrite (balance_coin_token _ Hc). simpl. eauto.
Qed.

Lemma balance_step_returns (change_address : string)
    (txouts_result : list TxOut) (c : string)
    (max_address : option string) (change : Z) :
  snd (round c) = Return (max_address, change) ->
  balance_step change_address txins_db txouts_passed_db txouts_mint_db fee
    withdrawals deposit treasury_donation txouts_result c
  = (fst (round c),
     Return (txouts_result
             ++ coin_change_outs change_address txins_db txouts_passed_db
                  txouts_mint_db fee withdrawals deposit treasury_donation
                  c)).
Proof.
  intros H. unfold balance_step, coin_change_outs. fold round.
  rewrite H. destruct (round c) as [lg res]. simpl in *. subst res.
  unfold bind. destruct (change >? 0); simpl; now rewrite !app_nil_r.
Qed.

Lemma coin_change_outs_coin (change_address c : string) (o : TxOut) :
  In o (coin_change_outs change_address txins_db txouts_passed_db
          txouts_mint_db fee withdrawals deposit treasury_donation c) ->
  txout_coin o = c.
Proof.
  unfold coin_change_outs.
  destruct (snd _) as [[ma ch]|e]; [|intros []].
  destruct (ch >? 0); [|intros []]. now intros [<-|[]].
Qed.
End BalanceCoin.

(** ** The balancer *)

Section OfCoin.
Context {A : Type} `{CoinRecord A}.

Lemma of_coin_app (c : string) (l1 l2 : list A) :
  of_coin c (l1 ++ l2) = of_coin c l1 ++ of_coin c l2.
Proof. apply filter_app. Qed.

Lemma of_coin_all (c : string) (l : list A) :
  (forall o, In o l -> coin o = c) -> of_coin c l = l.
Proof.
  unfold of_coin. induction l as [|o l IH]; intros Hl; [reflexivity|].
  cbn [filter]. rewrite (Hl o) by now left. rewrite String.eqb_refl.
  f_equal. apply IH. intros; apply Hl; now right.
Qed.

Lemma of_coin_none (c : string) (l : list A) :
  (forall o, In o l -> coin o <> c) -> of_coin c l = [].
Proof.
  unfold of_coin. induction l as [|o l IH]; intros Hl; [reflexivity|].
  cbn [filter]. destruct (String.eqb_spec (coin o) c) as [E|E].
  - exfalso. now apply (Hl o); [left|].
  - apply IH. intros; apply Hl; now right.
Qed.

Lemma of_coin_In (c : string) (l : list A) (o : A) :
  In o (of_coin c l) <-> In o l /\ coin o = c.
Proof. unfold of_coin. rewrite filter_In, String.eqb_eq. tauto. Qed.

Variable outs : string -> list A.
Hypothesis outs_coin : forall c o, In o (outs c) -> coin o = c.

Lemma of_coin_flat_map_out (c : string) (coins : list string) :
  ~ In c coins -> of_coin c (flat_map outs coins) = [].
Proof.
  intros Hc. apply of_coin_none. intros o Ho.
  apply in_flat_map in Ho. destruct Ho as (c' & Hc' & Ho).
  apply outs_coin in Ho. congruence.
Qed.

Lemma of_coin_flat_map_in (c : string) (coins : list string) :
  NoDup coins -> In c coins -> of_coin c (flat_map outs coins) = outs c.
Proof.
  induction coins as [|c' coins IH]; intros Hnd Hin; [easy|].
  inversion Hnd as [|? ? Hn Hnd']; subst. simpl. rewrite of_coin_app.
  destruct Hin as [->|Hin].
  - rewrite of_coin_flat_map_out by assumption. rewrite app_nil_r.
    apply of_coin_all. intros o. apply outs_coin.
  - rewrite IH by assumption.
    rewrite of_coin_none; [reflexivity|].
    intros o Ho E. apply outs_coin in Ho. apply Hn. congruence.
Qed.
End OfCoin.

Lemma burning_txouts_nil (txouts : list TxOut) :
  burning_txouts txouts = [] <->
  forall r, In r txouts -> txout_amount r < 0 -> txout_coin r = DEFAULT_COIN.
Proof.
  unfold burning_txouts. induction txouts as [|x l IH]; simpl.
  - split; [intros _ r []|reflexivity].
  - destruct (txout_amount x <? 0) eqn:E1;
      destruct (String.eqb_spec (txout_coin x) DEFAULT_COIN) as [E2|E2];
      simpl.
    + rewrite IH. split.
      * intros H r [<-|Hr]; auto.
      * intros H r Hr. apply H. now right.
    + apply Z.ltb_lt in E1. split; [discriminate|].
      intros H. exfalso. apply E2. apply (H x); [now left|exact E1].
    + apply Z.ltb_ge in E1. rewrite IH. split.
      * intros H r [<-|Hr]; [lia|auto].
      * intros H r Hr. apply H. now right.
    + apply Z.ltb_ge in E1. rewrite IH. split.
      * intros H r [<-|Hr]; [lia|auto].
      * intros H r Hr. apply H. now right.
Qed.

Section Balancer.
Variable set_iter : str_set -> list string.
Hypothesis set_iter_perm : forall s, Permutation (set_iter s) s.

Lemma set_iter_In (x : string) (s : str_set) : In x (set_iter s) <-> In x s.
Proof.
  split; apply Permutation_in;
    [apply set_iter_perm|apply Permutation_sym, set_iter_perm].
Qed.

Lemma set_iter_NoDup (s : str_set) : NoDup s -> NoDup (set_iter s).
Proof. apply Permutation_NoDup, Permutation_sym, set_iter_perm. Qed.

Variables (change_address : string) (txouts : list TxOut)
          (txins_db : dict (list UTXOData))
          (txouts_passed_db txouts_mint_db : dict (list TxOut))
          (fee : Z) (withdrawals : list TxOut)
          (deposit treasury_donation : Z).

Let coins :=
  set_iter (coin_union (dict_keys txins_db) (dict_keys txouts_passed_db)
              (dict_keys txouts_mint_db)).
Let round := balance_coin txins_db txouts_passed_db txouts_mint_db fee
               withdrawals deposit treasury_donation.
Let change_outs :=
  coin_change_outs change_address txins_db txouts_passed_db txouts_mint_db
    fee withdrawals deposit treasury_donation.

(** Without token burning among the outputs and with at most one send-all
    mark the balancer returns: the kept outputs, then the change outputs of
    the coins in the order of the loop. *)
Lemma balance_txouts_returns :
  burning_txouts txouts = [] ->
  (length (send_all_indices (get_or_nil DEFAULT_COIN txouts_passed_db))
   <= 1)%nat ->
  _balance_txouts set_iter change_address txouts txins_db txouts_passed_db
    txouts_mint_db fee withdrawals deposit treasury_donation false
  = (flat_map (fun c => fst (round c)) coins,
     Return (positive_txouts txouts ++ flat_map change_outs coins)).
Proof.
  intros Hb Hs. unfold _balance_txouts. rewrite Hb.
  rewrite (for_each_returns _ (fun c => fst (round c))
             (fun s c => s ++ change_outs c)).
  - now rewrite fold_left_app_outs.
  - intros c s _.
    destruct (balance_coin_returns txins_db txouts_passed_db txouts_mint_db
                fee withdrawals deposit treasury_donation c Hs)
      as (ma & ch & Hr).
    now rewrite (balance_step_returns _ _ _ _ _ _ _ _ _ _ _ _ Hr).
Qed.

Lemma balance_txouts_of_coin (c : string) :
  NoDup coins -> In c coins ->
  of_coin c (positive_txouts txouts ++ flat_map change_outs coins)
  = of_coin c (positive_txouts txouts) ++ change_outs c.
Proof.
  intros Hnd Hin. rewrite of_coin_app. f_equal.
  apply of_coin_flat_map_in; try assumption.
  intros c' o. apply coin_change_outs_coin.
Qed.

End Balancer.

(** ** Requested outputs that are kept, and the send-all mark *)

Lemma total_positive_txouts (l : list TxOut) :
  (forall r, In r l -> 0 <= txout_amount r) ->
  total_amount (positive_txouts l) = total_amount l.
Proof.
  unfold positive_txouts.
  induction l as [|x l IH]; intros Hl; [reflexivity|]. cbn [filter].
  assert (Hx : 0 <= txout_amount x) by (apply Hl; now left).
  assert (IH' : total_amount (filter (fun r => txout_amount r >? 0) l)
                = total_amount l) by (apply IH; intros; apply Hl; now right).
  destruct (Z.gtb_spec (txout_amount x) 0) as [E|E];
    rewrite ?total_amount_cons, IH'; [reflexivity|].
  change (amount x) with (txout_amount x). lia.
Qed.

Lemma filter_comm {A : Type} (f g : A -> bool) (l : list A) :
  filter f (filter g l) = filter g (filter f l).
Proof.
  induction l as [|x l IH]; [reflexivity|]. simpl.
  destruct (f x) eqn:Ef, (g x) eqn:Eg; simpl; rewrite ?Ef, ?Eg, IH;
    reflexivity.
Qed.

Lemma filter_andb {A : Type} (f g : A -> bool) (l : list A) :
  filter (fun x => f x && g x) l = filter g (filter f l).
Proof.
  induction l as [|x l IH]; [reflexivity|]. simpl.
  destruct (f x); simpl; [destruct (g x)|]; now rewrite IH.
Qed.

Lemma positive_of_coin (c : string) (l : list TxOut) :
  of_coin c (positive_txouts l) = positive_txouts (of_coin c l).
Proof. apply filter_comm. Qed.

Lemma send_all_txouts_of_coin (l : list TxOut) :
  send_all_txouts l
  = filter (fun r => txout_amount r =? -1) (of_coin DEFAULT_COIN l).
Proof. apply filter_andb. Qed.

Lemma positive_txouts_app (l1 l2 : list TxOut) :
  positive_txouts (l1 ++ l2) = positive_txouts l1 ++ positive_txouts l2.
Proof. apply filter_app. Qed.

(** The outputs of the base coin around the only send-all mark. *)
Lemma send_all_split (l : list TxOut) :
  (length (filter (fun r => (txout_amount r =? -1)%Z) l) <= 1)%nat ->
  (send_all_indices l = [] /\ forall r, In r l -> txout_amount r <> -1)
  \/ exists l1 x l2,
       l = l1 ++ x :: l2 /\ send_all_indices l = [length l1]
       /\ txout_amount x = -1
       /\ (forall r, In r (l1 ++ l2) -> txout_amount r <> -1).
Proof.
  intros Hlen. rewrite <- send_all_indices_length in Hlen.
  destruct (send_all_indices l) as [|i [|j rest]] eqn:E.
  - left. split; [reflexivity|]. now apply send_all_indices_nil.
  - right. destruct (send_all_indices_one _ _ E)
      as (l1 & x & l2 & Hl & -> & Hx & Hrest).
    exists l1, x, l2. repeat split; assumption.
  - simpl in Hlen. lia.
Qed.

Lemma filter_none {A : Type} (f : A -> bool) (l : list A) :
  (forall r, In r l -> f r = false) -> filter f l = [].
Proof.
  induction l as [|x l IH]; intros Hl; [reflexivity|]. simpl.
  rewrite (Hl x) by now left. apply IH. intros; apply Hl; now right.
Qed.

Lemma filter_all {A : Type} (f : A -> bool) (l : list A) :
  (forall r, In r l -> f r = true) -> filter f l = l.
Proof.
  induction l as [|x l IH]; intros Hl; [reflexivity|]. simpl.
  rewrite (Hl x) by now left. f_equal. apply IH. intros; apply Hl; now right.
Qed.

(** C7 (as amended). With [skip_asset_balancing] set, and no requested
    output of a negative amount for a coin other than the base coin, the
    balancer returns the requested outputs without those of a non-positive
    amount, logs nothing and computes no change. The check for token burning
    comes before the test of [skip_asset_balancing]: with such an output the
    balancer raises an [AssertionError], skipping or not. *)
Theorem skip_balancing_strips_non_positive :
  forall (set_iter : str_set -> list string) (change_address : string)
         (txouts : list TxOut) (txins_db : dict (list UTXOData))
         (txouts_passed_db txouts_mint_db : dict (list TxOut))
         (fee : Z) (withdrawals : list TxOut) (deposit treasury_donation : Z),
    ((forall r, In r txouts -> txout_amount r < 0 ->
                txout_coin r = DEFAULT_COIN) ->
     _balance_txouts set_iter change_address txouts txins_db txouts_passed_db
       txouts_mint_db fee withdrawals deposit treasury_donation true
     = ([], Return (filter (fun r => txout_amount r >? 0) txouts)))
    /\ forall skip_asset_balancing,
         burning_txouts txouts <> [] ->
         _balance_txouts set_iter change_address txouts txins_db
           txouts_passed_db txouts_mint_db fee withdrawals deposit
           treasury_donation skip_asset_balancing
         = ([], Raise (AssertionError
                         (Token_burning_not_allowed (burning_txouts txouts)))).
Proof.
  intros. split.
  - intros Hb. apply burning_txouts_nil in Hb.
    unfold _balance_txouts. now rewrite Hb.
  - intros skip Hb. unfold _balance_txouts.
    destruct (burning_txouts txouts); [contradiction|reflexivity].
Qed.

Lemma skip_balancing_strips_non_positive_witness :
  _balance_txouts list_order "S"
    [mkTxOut "X" 5 DEFAULT_COIN; mkTxOut "Y" (-1) DEFAULT_COIN;
     mkTxOut "Z" 0 "T"] [] [] [] 0 [] 0 0 true
  = ([], Return [mkTxOut "X" 5 DEFAULT_COIN]).
Proof.
  apply (proj1 (skip_balancing_strips_non_positive list_order "S"
                  [mkTxOut "X" 5 DEFAULT_COIN; mkTxOut "Y" (-1) DEFAULT_COIN;
                   mkTxOut "Z" 0 "T"] [] [] [] 0 [] 0 0)).
  intros r [<-|[<-|[<-|[]]]]; simpl; intros; try reflexivity; lia.
Defined.

(** C7, the claim as stated fails: with [skip_asset_balancing] set and an
    output of amount -5 of the token ["T"], the balancer does not return the
    outputs of a positive amount; it raises. *)
Lemma skip_balancing_raises_on_token_burning :
  let txouts := [mkTxOut "X" (-5) "T"; mkTxOut "X" 7 DEFAULT_COIN] in
  _balance_txouts list_order "S" txouts [] [] [] 0 [] 0 0 true
  = ([], Raise (AssertionError
                  (Token_burning_not_allowed [mkTxOut "X" (-5) "T"])))
  /\ _balance_txouts list_order "S" txouts [] [] [] 0 [] 0 0 true
     <> ([], Return (filter (fun r => txout_amount r >? 0) txouts)).
Proof. cbv zeta. split; [reflexivity|discriminate]. Qed.

Lemma gtb_false (x : Z) : x <= 0 -> (x >? 0) = false.
Proof. intros H. rewrite Z.gtb_ltb. now apply Z.ltb_ge. Qed.

Section BalancerClaims.
Variable set_iter : str_set -> list string.
Hypothesis set_iter_perm : forall s, Permutation (set_iter s) s.

(** C1 (as amended). When the change that the balancer computes for a coin
    of the loop is negative, the balancer still returns: it logs an error
    with the available and the needed totals (for a token the record names
    the coin; the record of the base coin carries the totals only), and its
    result holds no change output for that coin, only the requested outputs
    of a positive amount. *)
Theorem balance_negative_change_is_logged :
  forall (change_address : string) (txouts : list TxOut)
         (txins_db : dict (list UTXOData))
         (txouts_passed_db txouts_mint_db : dict (list TxOut))
         (fee : Z) (withdrawals : list TxOut)
         (deposit treasury_donation : Z)
         (c : string) (max_address : option string) (change : Z),
    burning_txouts txouts = [] ->
    (length (send_all_indices (get_or_nil DEFAULT_COIN txouts_passed_db))
     <= 1)%nat ->
    In c (coin_union (dict_keys txins_db) (dict_keys txouts_passed_db)
            (dict_keys txouts_mint_db)) ->
    snd (balance_coin txins_db txouts_passed_db txouts_mint_db fee
           withdrawals deposit treasury_donation c)
    = Return (max_address, change) ->
    change < 0 ->
    exists logs outs,
      _balance_txouts set_iter change_address txouts txins_db
        txouts_passed_db txouts_mint_db fee withdrawals deposit
        treasury_donation false
      = (logs, Return outs)
      /\ (let available :=
            total_amount (get_or_nil c txins_db)
            + (if String.eqb c DEFAULT_COIN then total_amount withdrawals
               else total_amount (get_or_nil c txouts_mint_db)) in
          In (if String.eqb c DEFAULT_COIN
              then Error_not_enough_funds available (available - change)
              else Error_coin_not_sufficient c available
                     (available - change))
             logs)
      /\ of_coin c outs = of_coin c (positive_txouts txouts).
Proof.
  intros change_address txouts txins_db passed mint fee w dep don c ma ch
         Hb Hs Hc Hr Hneg.
  eexists. eexists. split; [|split].
  - apply balance_txouts_returns; assumption.
  - cbv zeta. apply in_flat_map. exists c. split.
    + now apply set_iter_In.
    + destruct (String.eqb_spec c DEFAULT_COIN) as [->|Hne].
      * destruct (send_all_indices (get_or_nil DEFAULT_COIN passed))
          as [|i [|j rest]] eqn:E; [| |simpl in Hs; lia].
        -- rewrite (balance_coin_base_plain _ _ _ _ _ _ _ E) in Hr |- *.
           simpl in Hr. injection Hr as _ Hch. rewrite Hch.
           apply Z.ltb_lt in Hneg. rewrite Hneg. left. f_equal. lia.
        -- destruct (send_all_indices_one _ _ E)
             as (l1 & x & l2 & Hl & -> & _ & _).
           rewrite Hl in E.
           rewrite (balance_coin_base_send_all _ _ _ _ _ _ _ _ _ _ Hl E)
             in Hr |- *.
           simpl in Hr. injection Hr as _ Hch. rewrite Hch.
           apply Z.ltb_lt in Hneg. rewrite Hneg. left. f_equal. lia.
      * rewrite (balance_coin_token _ _ _ _ _ _ _ _ Hne) in Hr |- *.
        simpl in Hr. injection Hr as _ Hch. rewrite Hch.
        apply Z.ltb_lt in Hneg. rewrite Hneg. left. f_equal. lia.
  - rewrite balance_txouts_of_coin.
    + unfold coin_change_outs. rewrite Hr.
      rewrite gtb_false by lia.
      apply app_nil_r.
    + apply set_iter_NoDup; [assumption|apply coin_union_NoDup].
    + now apply set_iter_In.
Qed.

(** C2 (as amended). Balancing is not skipped; every requested amount that
    is negative is the send-all mark -1 on the base coin, at most one
    output carries it, the fee is not negative and no minted amount is
    given for the base coin. Then the balancer returns, and for every coin
    of the loop whose change is not negative the inputs of that coin, plus
    its minted amounts, plus the withdrawals for the base coin, equal the
    final outputs of that coin, plus fee, deposit and treasury donation for
    the base coin. *)
Theorem balance_conserves_value :
  forall (change_address : string) (txouts : list TxOut)
         (txins : list UTXOData) (mint_txouts : list TxOut)
         (fee : Z) (withdrawals : list TxOut)
         (deposit treasury_donation : Z)
         (c : string) (max_address : option string) (change : Z),
    let txins_db := _organize_tx_ins_outs_by_coin txins in
    let txouts_passed_db := _organize_tx_ins_outs_by_coin txouts in
    let txouts_mint_db := _organize_tx_ins_outs_by_coin mint_txouts in
    (forall r, In r txouts -> txout_amount r < 0 ->
               txout_coin r = DEFAULT_COIN /\ txout_amount r = -1) ->
    (length (send_all_txouts txouts) <= 1)%nat ->
    0 <= fee ->
    of_coin DEFAULT_COIN mint_txouts = [] ->
    In c (coin_union (dict_keys txins_db) (dict_keys txouts_passed_db)
            (dict_keys txouts_mint_db)) ->
    snd (balance_coin txins_db txouts_passed_db txouts_mint_db fee
           withdrawals deposit treasury_donation c)
    = Return (max_address, change) ->
    0 <= change ->
    exists logs outs,
      _balance_txouts set_iter change_address txouts txins_db
        txouts_passed_db txouts_mint_db fee withdrawals deposit
        treasury_donation false
      = (logs, Return outs)
      /\ total_amount (of_coin c txins) + total_amount (of_coin c mint_txouts)
         + (if String.eqb c DEFAULT_COIN then total_amount withdrawals
            else 0)
         = total_amount (of_coin c outs)
           + (if String.eqb c DEFAULT_COIN
              then fee + deposit + treasury_donation else 0).
Proof.
  intros change_address txouts txins mint_txouts fee w dep don c ma ch
         txins_db passed mint Hneg Hone Hfee Hmint Hc Hr Hch.
  assert (Hb : burning_txouts txouts = []).
  { apply burning_txouts_nil. intros r Hr1 Hr2. now apply Hneg. }
  assert (Hlen : (length (filter (fun r => (txout_amount r =? -1)%Z)
                            (of_coin DEFAULT_COIN txouts)) <= 1)%nat).
  { now rewrite <- send_all_txouts_of_coin. }
  assert (Hs : (length (send_all_indices (get_or_nil DEFAULT_COIN passed))
                <= 1)%nat).
  { unfold passed. rewrite organize_by_coin_get, send_all_indices_length.
    exact Hlen. }
  eexists. eexists. split; [now apply balance_txouts_returns|].
  rewrite balance_txouts_of_coin;
    [|apply set_iter_NoDup; [assumption|apply coin_union_NoDup]
     |now apply set_iter_In].
  rewrite total_amount_app, positive_of_coin.
  assert (Hout : total_amount
                   (coin_change_outs change_address txins_db passed mint fee
                      w dep don c) = ch).
  { unfold coin_change_outs. rewrite Hr.
    destruct (Z.gtb_spec ch 0); [|rewrite total_amount_nil; lia].
    rewrite total_amount_cons, total_amount_nil. simpl. lia. }
  rewrite Hout. clear Hout.
  destruct (String.eqb_spec c DEFAULT_COIN) as [->|Hne].
  - rewrite Hmint, total_amount_nil.
    destruct (send_all_split _ Hlen)
      as [[Hnil Hno]|(l1 & x & l2 & Hl & Hidx & Hx & Hno)].
    + unfold txins_db, passed in Hr. rewrite balance_coin_base_plain in Hr
        by (now rewrite organize_by_coin_get).
      simpl in Hr. injection Hr as _ Hr.
      rewrite !organize_by_coin_get in Hr. fold (of_coin DEFAULT_COIN txins) in Hr.
      fold (of_coin DEFAULT_COIN txouts) in Hr.
      rewrite total_positive_txouts.
      * rewrite Z.max_r in Hr by assumption. lia.
      * intros r Hr1. destruct (Z.le_gt_cases 0 (txout_amount r)) as [|Hlt];
          [assumption|].
        exfalso. apply (Hno r Hr1). apply of_coin_In in Hr1.
        now apply Hneg.
    + assert (Hget : get_or_nil DEFAULT_COIN passed = l1 ++ x :: l2).
      { unfold passed. now rewrite organize_by_coin_get. }
      rewrite Hl in Hidx.
      rewrite (balance_coin_base_send_all _ _ _ _ _ _ _ _ _ _ Hget Hidx)
        in Hr.
      simpl in Hr. injection Hr as _ Hr.
      unfold txins_db in Hr. rewrite organize_by_coin_get in Hr.
      fold (of_coin DEFAULT_COIN txins) in Hr.
      rewrite Hl. replace (positive_txouts (l1 ++ x :: l2))
        with (positive_txouts (l1 ++ l2)).
      * rewrite total_positive_txouts.
        -- rewrite Z.max_r in Hr by assumption. lia.
        -- intros r Hr1.
           destruct (Z.le_gt_cases 0 (txout_amount r)) as [|Hlt];
             [assumption|].
           exfalso. apply (Hno r Hr1).
           apply Hneg; [|lia].
           assert (Hin : In r (of_coin DEFAULT_COIN txouts)).
           { rewrite Hl. apply in_app_iff in Hr1. apply in_app_iff.
             simpl. tauto. }
           now apply of_coin_In in Hin.
      * rewrite !positive_txouts_app. f_equal.
        unfold positive_txouts. simpl. now rewrite Hx.
  - rewrite (balance_coin_token _ _ _ _ _ _ _ _ Hne) in Hr.
    cbv zeta in Hr. cbn [snd] in Hr. injection Hr as _ Hr.
    unfold txins_db, passed, mint in Hr.
    rewrite !organize_by_coin_get in Hr.
    fold (of_coin c txins) in Hr. fold (of_coin c txouts) in Hr.
    fold (of_coin c mint_txouts) in Hr.
    rewrite total_positive_txouts; [lia|].
    intros r Hr1. destruct (Z.le_gt_cases 0 (txout_amount r)) as [|Hlt];
      [assumption|].
    exfalso. apply of_coin_In in Hr1. destruct Hr1 as [Hr1 Hr2].
    apply Hne. rewrite <- Hr2. now apply Hneg.
Qed.

(** The balancer with one send-all mark: the whole remainder of the base
    coin goes to the address of the mark. *)
Lemma balance_send_all_remainder :
  forall (change_address : string) (txouts : list TxOut)
         (txins : list UTXOData) (mint_txouts : list TxOut)
         (fee : Z) (withdrawals : list TxOut)
         (deposit treasury_donation : Z) (y : TxOut),
    let remainder :=
      total_amount (of_coin DEFAULT_COIN txins) + total_amount withdrawals
      - (total_amount
           (filter (fun r => negb (txout_amount r =? -1))
                   (of_coin DEFAULT_COIN txouts))
         + Z.max 0 fee + deposit + treasury_donation) in
    send_all_txouts txouts = [y] ->
    truthy (txout_address y) = true ->
    burning_txouts txouts = [] ->
    exists logs outs,
      _balance_txouts set_iter change_address txouts
        (_organize_tx_ins_outs_by_coin txins)
        (_organize_tx_ins_outs_by_coin txouts)
        (_organize_tx_ins_outs_by_coin mint_txouts)
        fee withdrawals deposit treasury_donation false
      = (logs, Return outs)
      /\ of_coin DEFAULT_COIN outs
         = of_coin DEFAULT_COIN (positive_txouts txouts)
           ++ (if remainder >? 0
               then [mkTxOut (txout_address y) remainder DEFAULT_COIN]
               else []).
Proof.
  intros change_address txouts txins mint_txouts fee w dep don y remainder
         Hy Haddr Hb.
  assert (Hf : filter (fun r => (txout_amount r =? -1)%Z)
                 (of_coin DEFAULT_COIN txouts) = [y]).
  { now rewrite <- send_all_txouts_of_coin. }
  assert (Hlen : (length (filter (fun r => (txout_amount r =? -1)%Z)
                            (of_coin DEFAULT_COIN txouts)) <= 1)%nat).
  { rewrite Hf. simpl. lia. }
  destruct (send_all_split _ Hlen)
    as [[Hnil Hno]|(l1 & x & l2 & Hl & Hidx & Hx & Hno)].
  { exfalso. rewrite filter_none in Hf; [discriminate|].
    intros r Hr. apply Z.eqb_neq. now apply Hno. }
  assert (Hxy : x = y /\ filter (fun r => negb (txout_amount r =? -1))
                           (of_coin DEFAULT_COIN txouts) = l1 ++ l2).
  { rewrite Hl in Hf |- *. rewrite filter_app in Hf |- *.
    simpl in Hf |- *. apply Z.eqb_eq in Hx. rewrite Hx in Hf |- *.
    simpl. rewrite !filter_none in Hf
      by (intros r Hr; apply Z.eqb_neq, Hno, in_app_iff; tauto).
    simpl in Hf. split; [congruence|].
    rewrite <- filter_app. apply filter_all.
    intros r Hr. apply negb_true_iff, Z.eqb_neq. now apply Hno. }
  destruct Hxy as [-> Hrest].
  assert (Hget : get_or_nil DEFAULT_COIN
                   (_organize_tx_ins_outs_by_coin txouts) = l1 ++ y :: l2).
  { now rewrite organize_by_coin_get. }
  assert (Hs : (length (send_all_indices
                          (get_or_nil DEFAULT_COIN
                             (_organize_tx_ins_outs_by_coin txouts)))
                <= 1)%nat).
  { rewrite Hget. rewrite Hl in Hidx. rewrite Hidx. simpl. lia. }
  eexists. eexists. split; [now apply balance_txouts_returns|].
  rewrite balance_txouts_of_coin;
    [|apply set_iter_NoDup; [assumption|apply coin_union_NoDup]|].
  - f_equal. unfold coin_change_outs.
    rewrite Hl in Hidx.
    rewrite (balance_coin_base_send_all _ _ _ _ _ _ _ _ _ _ Hget Hidx).
    simpl snd. rewrite organize_by_coin_get.
    fold (of_coin DEFAULT_COIN txins). unfold remainder. rewrite Hrest.
    simpl address_or. rewrite Haddr. reflexivity.
  - apply set_iter_In; [assumption|]. apply coin_union_In. right. left.
    apply organize_by_coin_keys. exists y. split.
    + assert (Hin : In y (of_coin DEFAULT_COIN txouts)).
      { rewrite Hl. apply in_app_iff. simpl. tauto. }
      now apply of_coin_In in Hin.
    + assert (Hin : In y (of_coin DEFAULT_COIN txouts)).
      { rewrite Hl. apply in_app_iff. simpl. tauto. }
      now apply of_coin_In in Hin.
Qed.
End BalancerClaims.

Lemma balance_negative_change_is_logged_witness :
  exists logs outs,
    _balance_txouts list_order "S" [mkTxOut "X" 1000000 DEFAULT_COIN]
      (_organize_tx_ins_outs_by_coin [row "a" 0 500 "S" DEFAULT_COIN])
      (_organize_tx_ins_outs_by_coin [mkTxOut "X" 1000000 DEFAULT_COIN])
      [] 200000 [] 0 0 false
    = (logs, Return outs)
    /\ In (Error_not_enough_funds 500 1200000) logs
    /\ of_coin DEFAULT_COIN outs = [mkTxOut "X" 1000000 DEFAULT_COIN].
Proof.
  refine (balance_negative_change_is_logged list_order
           (fun s => Permutation_refl s) "S"
           [mkTxOut "X" 1000000 DEFAULT_COIN]
           (_organize_tx_ins_outs_by_coin [row "a" 0 500 "S" DEFAULT_COIN])
           (_organize_tx_ins_outs_by_coin [mkTxOut "X" 1000000 DEFAULT_COIN])
           [] 200000 [] 0 0 DEFAULT_COIN None (-1199500) _ _ _ _ _).
  - reflexivity.
  - vm_compute. lia.
  - vm_compute. tauto.
  - reflexivity.
  - lia.
Defined.

(** C1, the claim as stated fails: one input of 500 against an output of
    1000000 and a fee of 200000 leaves a change of -1199500. The balancer
    logs the error and returns the requested output; nothing is raised, in
    the balancer or in the orchestrator that calls it. *)
Lemma balance_shortfall_returns_normally :
  _balance_txouts list_order "S" [mkTxOut "X" 1000000 DEFAULT_COIN]
    (_organize_tx_ins_outs_by_coin [row "a" 0 500 "S" DEFAULT_COIN])
    (_organize_tx_ins_outs_by_coin [mkTxOut "X" 1000000 DEFAULT_COIN])
    [] 200000 [] 0 0 false
  = ([Error_not_enough_funds 500 1200000],
     Return [mkTxOut "X" 1000000 DEFAULT_COIN])
  /\ _get_tx_ins_outs list_order
       (cluster [row "a" 0 500 "S" DEFAULT_COIN] 1000000) "S" []
       [mkTxOut "X" 1000000 DEFAULT_COIN] 200000 (Some 0) None [] [] None
       false
     = ([Warning_target_not_met 1200000 DEFAULT_COIN;
         Error_not_enough_funds 500 1200000],
        Return ([row "a" 0 500 "S" DEFAULT_COIN],
                [mkTxOut "X" 1000000 DEFAULT_COIN])).
Proof. split; reflexivity. Qed.

Lemma balance_conserves_value_witness :
  exists logs outs,
    _balance_txouts list_order "S" [mkTxOut "X" 1000000 DEFAULT_COIN]
      (_organize_tx_ins_outs_by_coin [row "a" 0 5000000 "S" DEFAULT_COIN])
      (_organize_tx_ins_outs_by_coin [mkTxOut "X" 1000000 DEFAULT_COIN])
      (_organize_tx_ins_outs_by_coin []) 200000 [] 0 0 false
    = (logs, Return outs)
    /\ 5000000 + 0 + 0
       = total_amount (of_coin DEFAULT_COIN outs) + (200000 + 0 + 0).
Proof.
  refine (balance_conserves_value list_order (fun s => Permutation_refl s) "S"
           [mkTxOut "X" 1000000 DEFAULT_COIN]
           [row "a" 0 5000000 "S" DEFAULT_COIN] [] 200000 [] 0 0
           DEFAULT_COIN None 3800000 _ _ _ _ _ _ _).
  - intros r [<-|[]]. simpl. lia.
  - vm_compute. lia.
  - lia.
  - reflexivity.
  - vm_compute. tauto.
  - reflexivity.
  - lia.
Defined.

(** C2, the claim as stated fails: an output of the base coin with the
    amount -2 is not a send-all mark and is not refused. It counts in the
    total of the outputs, so the change is 10 - (-2) = 12, and it is left out
    of the result: the input holds 10 and the final outputs hold 12. *)
Lemma balance_negative_base_amount_breaks_conservation :
  let txins := [row "a" 0 10 "S" DEFAULT_COIN] in
  let txouts := [mkTxOut "X" (-2) DEFAULT_COIN] in
  let outs := [mkTxOut "S" 12 DEFAULT_COIN] in
  balance_coin (_organize_tx_ins_outs_by_coin txins)
    (_organize_tx_ins_outs_by_coin txouts) [] 0 [] 0 0 DEFAULT_COIN
  = ([], Return (None, 12))
  /\ _balance_txouts list_order "S" txouts
       (_organize_tx_ins_outs_by_coin txins)
       (_organize_tx_ins_outs_by_coin txouts) [] 0 [] 0 0 false
     = ([], Return outs)
  /\ total_amount (of_coin DEFAULT_COIN txins)
     + total_amount (of_coin DEFAULT_COIN (@nil TxOut))
     + total_amount (@nil TxOut)
     <> total_amount (of_coin DEFAULT_COIN outs) + (0 + 0 + 0).
Proof. cbv zeta. repeat split; try reflexivity. vm_compute. discriminate. Qed.

(** The other two conditions of C2 (as amended) are needed as well: the
    balancer charges [max(0, fee)], and it does not add the minted amounts of
    the base coin to the available funds. *)
Example balance_negative_fee_is_not_charged :
  _balance_txouts list_order "S" [mkTxOut "X" 10 DEFAULT_COIN]
    (_organize_tx_ins_outs_by_coin [row "a" 0 10 "S" DEFAULT_COIN])
    (_organize_tx_ins_outs_by_coin [mkTxOut "X" 10 DEFAULT_COIN])
    [] (-1) [] 0 0 false
  = ([], Return [mkTxOut "X" 10 DEFAULT_COIN])
  /\ 10 + 0 + 0 <> 10 + (-1 + 0 + 0).
Proof. split; [reflexivity|lia]. Qed.

Example balance_ignores_minted_base_coin :
  _balance_txouts list_order "S" [mkTxOut "X" 10 DEFAULT_COIN]
    (_organize_tx_ins_outs_by_coin [row "a" 0 10 "S" DEFAULT_COIN])
    (_organize_tx_ins_outs_by_coin [mkTxOut "X" 10 DEFAULT_COIN])
    (_organize_tx_ins_outs_by_coin [mkTxOut "M" 5 DEFAULT_COIN])
    0 [] 0 0 false
  = ([], Return [mkTxOut "X" 10 DEFAULT_COIN])
  /\ 10 + 5 + 0 <> 10 + (0 + 0 + 0).
Proof. split; [reflexivity|lia]. Qed.

(** ** The selection engine *)

(** C10. The reuse phase returns an empty set of picked identities, whatever
    its arguments: it yields an accumulated amount and a flag only. The
    identities that the selection for one coin returns are therefore those
    picked by the defragmentation phase, and there are none when the reuse
    phase has met the target. *)
Theorem reuse_phase_picks_no_utxo :
  forall (set_iter : str_set -> list string) (coin_txins : dict Z)
         (already_selected_utxos : str_set) (coin : string)
         (target_amount target_with_change : Z),
    fst (fst (_pick_coins_from_already_selected_utxos coin_txins
                already_selected_utxos target_amount target_with_change))
    = []
    /\ let reuse :=
         _pick_coins_from_already_selected_utxos coin_txins
           (set_iter already_selected_utxos) target_amount
           target_with_change in
       fst (_select_utxos_per_coin set_iter coin_txins coin target_amount
              target_with_change already_selected_utxos)
       = if snd reuse then []
         else str_update []
                (fst (fst (_pick_utxos_with_defragmentation
                             (filter (fun ia => negb (str_mem (fst ia)
                                                   already_selected_utxos))
                                     coin_txins)
                             target_amount target_with_change
                             (snd (fst reuse))))).
Proof.
  intros set_iter coin_txins already coin target twc. split.
  - apply pick_already_loop_picked.
  - cbv zeta. unfold _select_utxos_per_coin, select_per_coin_outcome.
    pose proof (pick_already_loop_picked coin_txins (set_iter already) target
                  twc [] 0) as Hp.
    fold (_pick_coins_from_already_selected_utxos coin_txins
            (set_iter already) target twc) in Hp.
    destruct (_pick_coins_from_already_selected_utxos coin_txins
                (set_iter already) target twc) as [[picked acc] met].
    simpl in Hp. subst picked. destruct met; simpl; [reflexivity|].
    now destruct (_pick_utxos_with_defragmentation _ target twc acc)
      as [[more acc'] met'].
Qed.

Section Selection.
Variable set_iter : str_set -> list string.

Variables (txins_by_coin_and_id : dict (dict Z))
          (txouts_passed_db txouts_mint_db : dict (list TxOut))
          (fee : Z) (withdrawals : list TxOut)
          (min_change_value deposit treasury_donation : Z).

Let step := select_coin set_iter txins_by_coin_and_id txouts_passed_db
              txouts_mint_db fee withdrawals min_change_value deposit
              treasury_donation.

(** A round of the loop only adds identities. *)
Lemma select_coin_keeps (state : str_set * list LogRecord) (c x : string) :
  In x (fst state) -> In x (fst (step state c)).
Proof.
  destruct state as [ids logs]. simpl. intros Hx.
  unfold step, select_coin.
  assert (Hsel : forall needed twc,
             In x (fst (if nonzero needed
                        then let '(selected, warnings) :=
                               _select_utxos_per_coin set_iter
                                 (get_or_empty c txins_by_coin_and_id) c
                                 needed twc ids in
                             (str_update ids selected, logs ++ warnings)
                        else (ids, logs)))).
  { intros needed twc. destruct (nonzero needed); [|exact Hx].
    destruct (_select_utxos_per_coin _ _ _ _ _ _) as [sel warns]. simpl.
    apply str_update_In. now left. }
  destruct (String.eqb c DEFAULT_COIN).
  - destruct (send_all_indices _); [apply Hsel|].
    simpl. apply str_update_In. now left.
  - apply Hsel.
Qed.

Lemma select_loop_keeps (coins : list string)
    (state : str_set * list LogRecord) (x : string) :
  In x (fst state) ->
  In x (fst (select_loop set_iter txins_by_coin_and_id txouts_passed_db
               txouts_mint_db fee withdrawals min_change_value deposit
               treasury_donation coins state)).
Proof.
  unfold select_loop. revert state.
  induction coins as [|c coins IH]; intros state Hx; simpl; [exact Hx|].
  apply IH. now apply select_coin_keeps.
Qed.

Lemma select_loop_app (coins1 coins2 : list string)
    (state : str_set * list LogRecord) :
  select_loop set_iter txins_by_coin_and_id txouts_passed_db txouts_mint_db
    fee withdrawals min_change_value deposit treasury_donation
    (coins1 ++ coins2) state
  = select_loop set_iter txins_by_coin_and_id txouts_passed_db
      txouts_mint_db fee withdrawals min_change_value deposit
      treasury_donation coins2
      (select_loop set_iter txins_by_coin_and_id txouts_passed_db
         txouts_mint_db fee withdrawals min_change_value deposit
         treasury_donation coins1 state).
Proof. apply fold_left_app. Qed.

(** With a send-all mark the round of the base coin takes every identity
    that holds the base coin. *)
Lemma select_coin_sweeps (state : str_set * list LogRecord) (x : string) :
  send_all_indices (get_or_nil DEFAULT_COIN txouts_passed_db) <> [] ->
  In x (dict_keys (get_or_empty DEFAULT_COIN txins_by_coin_and_id)) ->
  In x (fst (step state DEFAULT_COIN)).
Proof.
  intros Hs Hx. destruct state as [ids logs].
  unfold step, select_coin. rewrite String.eqb_refl.
  destruct (send_all_indices _); [contradiction|].
  simpl. apply str_update_In. now right.
Qed.

Lemma select_loop_sweeps (coins : list string)
    (state : str_set * list LogRecord) (x : string) :
  send_all_indices (get_or_nil DEFAULT_COIN txouts_passed_db) <> [] ->
  In DEFAULT_COIN coins ->
  In x (dict_keys (get_or_empty DEFAULT_COIN txins_by_coin_and_id)) ->
  In x (fst (select_loop set_iter txins_by_coin_and_id txouts_passed_db
               txouts_mint_db fee withdrawals min_change_value deposit
               treasury_donation coins state)).
Proof.
  intros Hs Hin Hx. apply in_split in Hin.
  destruct Hin as (pre & post & ->).
  rewrite select_loop_app. change (DEFAULT_COIN :: post)
    with ([DEFAULT_COIN] ++ post).
  rewrite select_loop_app. apply select_loop_keeps.
  unfold select_loop at 1. simpl. now apply select_coin_sweeps.
Qed.


(** The round of a coin other than the base coin: the target is the total
    of its requested outputs minus the total of its minted amounts, and it
    is also the target with change. When the target is zero the round
    selects nothing and logs nothing. Any other target, a negative one as
    well, is passed to the selection for one coin. *)
Lemma token_round :
  forall (c : string) (utxo_ids : str_set) (logs : list LogRecord),
    c <> DEFAULT_COIN ->
    let target :=
      total_amount (get_or_nil c txouts_passed_db)
      - total_amount (get_or_nil c txouts_mint_db) in
    step (utxo_ids, logs) c
    = if target =? 0 then (utxo_ids, logs)
      else let '(selected, warnings) :=
             _select_utxos_per_coin set_iter
               (get_or_empty c txins_by_coin_and_id) c target target
               utxo_ids in
           (str_update utxo_ids selected, logs ++ warnings).
Proof.
  intros c ids logs Hc target. unfold step, select_coin.
  apply String.eqb_neq in Hc. rewrite Hc. fold target.
  unfold nonzero. now destruct (target =? 0).
Qed.

(** The engine as the rounds before a coin, the round of the coin, and the
    rounds after it. *)
Lemma select_utxos_split (c : string) (pre post : list string) :
  set_iter (coin_union (dict_keys txins_by_coin_and_id)
              (dict_keys txouts_passed_db) (dict_keys txouts_mint_db))
  = pre ++ c :: post ->
  _select_utxos set_iter txins_by_coin_and_id txouts_passed_db
    txouts_mint_db fee withdrawals min_change_value deposit
    treasury_donation
  = select_loop set_iter txins_by_coin_and_id txouts_passed_db
      txouts_mint_db fee withdrawals min_change_value deposit
      treasury_donation post
      (step
         (select_loop set_iter txins_by_coin_and_id txouts_passed_db
            txouts_mint_db fee withdrawals min_change_value deposit
            treasury_donation pre ([], []))
         c).
Proof.
  intros Hcoins. unfold _select_utxos. rewrite Hcoins.
  change (pre ++ c :: post) with (pre ++ [c] ++ post).
  now rewrite !select_loop_app.
Qed.


(** C3 (as amended). In every run of [_select_utxos], when the loop over
    the coins reaches a coin other than the base coin, the target of that
    coin is the total of its requested outputs minus the total of its
    minted amounts, and it is also the target with change. When the target
    is zero the engine selects nothing and logs nothing for the coin: its
    result is that of the rounds of the other coins. With any other target,
    a negative one as well, the engine calls the selection for one coin
    with that target, on the identities selected by the rounds before; what
    that call selects and logs is added to the state, and the rounds after
    go on from there. *)
Theorem token_target :
  forall (c : string) (pre post : list string),
    c <> DEFAULT_COIN ->
    set_iter (coin_union (dict_keys txins_by_coin_and_id)
                (dict_keys txouts_passed_db) (dict_keys txouts_mint_db))
    = pre ++ c :: post ->
    let target :=
      total_amount (get_or_nil c txouts_passed_db)
      - total_amount (get_or_nil c txouts_mint_db) in
    let before :=
      select_loop set_iter txins_by_coin_and_id txouts_passed_db
        txouts_mint_db fee withdrawals min_change_value deposit
        treasury_donation pre ([], []) in
    _select_utxos set_iter txins_by_coin_and_id txouts_passed_db
      txouts_mint_db fee withdrawals min_change_value deposit
      treasury_donation
    = select_loop set_iter txins_by_coin_and_id txouts_passed_db
        txouts_mint_db fee withdrawals min_change_value deposit
        treasury_donation post
        (if target =? 0 then before
         else let '(selected, warnings) :=
                _select_utxos_per_coin set_iter
                  (get_or_empty c txins_by_coin_and_id) c target target
                  (fst before) in
              (str_update (fst before) selected, snd before ++ warnings))
    /\ (target = 0 ->
        _select_utxos set_iter txins_by_coin_and_id txouts_passed_db
          txouts_mint_db fee withdrawals min_change_value deposit
          treasury_donation
        = select_loop set_iter txins_by_coin_and_id txouts_passed_db
            txouts_mint_db fee withdrawals min_change_value deposit
            treasury_donation (pre ++ post) ([], [])).
Proof.
  intros c pre post Hc Hcoins target before.
  assert (Heq : _select_utxos set_iter txins_by_coin_and_id txouts_passed_db
                  txouts_mint_db fee withdrawals min_change_value deposit
                  treasury_donation
                = select_loop set_iter txins_by_coin_and_id txouts_passed_db
                    txouts_mint_db fee withdrawals min_change_value deposit
                    treasury_donation post
                    (if target =? 0 then before
                     else let '(selected, warnings) :=
                            _select_utxos_per_coin set_iter
                              (get_or_empty c txins_by_coin_and_id) c target
                              target (fst before) in
                          (str_update (fst before) selected,
                           snd before ++ warnings))).
  { rewrite (select_utxos_split _ _ _ Hcoins). fold before.
    rewrite (surjective_pairing before) at 1.
    pose proof (token_round c (fst before) (snd before) Hc) as Hround.
    fold target in Hround. rewrite Hround.
    destruct (target =? 0); [now rewrite <- surjective_pairing|reflexivity]. }
  split; [exact Heq|].
  intros H0. rewrite Heq, H0. cbn [Z.eqb].
  unfold before. now rewrite select_loop_app.
Qed.
End Selection.

(** The loop of the engine reaches every coin that is a key of the inputs,
    of the requested outputs or of the minted amounts. *)
Lemma loop_reaches_coin (set_iter : str_set -> list string)
    (inputs outputs minted : list string) (c : string) :
  (forall s, Permutation (set_iter s) s) ->
  In c inputs \/ In c outputs \/ In c minted ->
  exists pre post,
    set_iter (coin_union inputs outputs minted) = pre ++ c :: post.
Proof.
  intros Hperm Hc. apply in_split.
  now apply (set_iter_In set_iter Hperm), coin_union_In.
Qed.



(** Scenario C: 50 of a token requested and 50 minted, nothing is selected
    for the token; the engine returns what the round of the base coin
    selected. *)
Lemma token_target_witness :
  _select_utxos list_order
    (_organize_utxos_by_coin_and_id
       [row "a" 0 5000000 "S" DEFAULT_COIN; row "a" 0 70 "S" "T"])
    (_organize_tx_ins_outs_by_coin [mkTxOut "X" 50 "T"])
    (_organize_tx_ins_outs_by_coin [mkTxOut "X" 50 "T"])
    200000 [] 1000000 0 0
  = select_loop list_order
      (_organize_utxos_by_coin_and_id
         [row "a" 0 5000000 "S" DEFAULT_COIN; row "a" 0 70 "S" "T"])
      (_organize_tx_ins_outs_by_coin [mkTxOut "X" 50 "T"])
      (_organize_tx_ins_outs_by_coin [mkTxOut "X" 50 "T"])
      200000 [] 1000000 0 0 [DEFAULT_COIN] ([], []).
Proof.
  refine (proj2 (token_target list_order
                   (_organize_utxos_by_coin_and_id
                      [row "a" 0 5000000 "S" DEFAULT_COIN;
                       row "a" 0 70 "S" "T"])
                   (_organize_tx_ins_outs_by_coin [mkTxOut "X" 50 "T"])
                   (_organize_tx_ins_outs_by_coin [mkTxOut "X" 50 "T"])
                   200000 [] 1000000 0 0 "T" [DEFAULT_COIN] [] _ _) _).
  - discriminate.
  - reflexivity.
  - reflexivity.
Defined.

(** C3, the claim as stated fails: 50 of the token ["T"] are requested and
    100 are minted, so the target of ["T"] is -50. The test on the target is
    [if input_funds_needed:], which a negative number passes, and the first
    step of the defragmentation phase adds the smallest candidate before it
    compares the amounts: the output ["c#0"], which no other coin needed,
    is selected for the negative target. *)
Lemma negative_token_target_selects_utxo :
  let txins_by_coin_and_id :=
    _organize_utxos_by_coin_and_id
      [row "a" 0 5000000 "S" DEFAULT_COIN; row "c" 0 9000000 "S" DEFAULT_COIN;
       row "c" 0 7 "S" "T"] in
  let txouts_passed_db :=
    _organize_tx_ins_outs_by_coin
      [mkTxOut "X" 1000000 DEFAULT_COIN; mkTxOut "X" 50 "T"] in
  let txouts_mint_db := _organize_tx_ins_outs_by_coin [mkTxOut "X" 100 "T"] in
  total_amount (get_or_nil "T" txouts_passed_db)
  - total_amount (get_or_nil "T" txouts_mint_db) = -50
  /\ select_coin list_order txins_by_coin_and_id txouts_passed_db
       txouts_mint_db 200000 [] 1000000 0 0 (["a#0"%string], []) "T"
     = (["a#0"%string; "c#0"%string], [])
  /\ _select_utxos list_order txins_by_coin_and_id txouts_passed_db
       txouts_mint_db 200000 [] 1000000 0 0
     = (["a#0"%string; "c#0"%string], []).
Proof. cbv zeta. repeat split; reflexivity. Qed.

Lemma last_amount_row (c : string) (rows : list UTXOData) (r : UTXOData) :
  In r rows -> utxo_coin r = c ->
  exists a, last_amount c (utxo_id r) rows = Some a.
Proof.
  intros Hin Hc. unfold last_amount.
  destruct (find _ (rev rows)) as [r'|] eqn:E; [simpl; eauto|].
  exfalso. apply in_rev in Hin.
  pose proof (find_none _ _ E _ Hin) as H. simpl in H.
  rewrite Hc, !String.eqb_refl in H. discriminate.
Qed.

Lemma last_amount_some (c i : string) (rows : list UTXOData) (a : Z) :
  last_amount c i rows = Some a ->
  exists r, In r rows /\ utxo_coin r = c /\ utxo_id r = i /\ utxo_amount r = a.
Proof.
  unfold last_amount. destruct (find _ (rev rows)) as [r|] eqn:E;
    [|discriminate].
  simpl. intros [= <-]. apply find_some in E. destruct E as [Hin E].
  apply andb_true_iff in E. destruct E as [E1 E2].
  apply String.eqb_eq in E1, E2. exists r.
  repeat split; try assumption. now apply in_rev.
Qed.

Lemma coin_and_id_row_key (c : string) (rows : list UTXOData) (r : UTXOData) :
  In r rows -> utxo_coin r = c ->
  In (utxo_id r)
     (dict_keys (get_or_empty c (_organize_utxos_by_coin_and_id rows))).
Proof.
  intros Hin Hc. destruct (last_amount_row c rows r Hin Hc) as [a Ha].
  rewrite <- coin_and_id_lookup in Ha.
  apply dict_get_In in Ha. now apply (in_map fst) in Ha.
Qed.

Lemma set_iter_singleton (set_iter : str_set -> list string) (x : string) :
  (forall s, Permutation (set_iter s) s) -> set_iter [x] = [x].
Proof.
  intros H. apply Permutation_length_1_inv, Permutation_sym, H.
Qed.

Section SendAll.
Variable set_iter : str_set -> list string.
Hypothesis set_iter_perm : forall s, Permutation (set_iter s) s.

(** C6. With at least one send-all mark among the requested outputs of the
    base coin, the selection takes the identity of every candidate row that
    holds the base coin. With exactly one mark (more than one is refused),
    on an address that is not empty, the balancer returns, and its outputs
    of the base coin are the requested ones of a positive amount followed
    by the whole remainder, inputs plus withdrawals minus the other
    outputs, fee, deposit and donation, sent to the address of the mark
    when it is positive: no output goes to the change address. Scenario B:
    inputs of 2000000 and 3000000 and a fee of 300000 are both selected
    and give the single output of 4700000 to the address of the mark. *)
Theorem send_all_sweeps_and_takes_remainder :
  forall (change_address : string) (candidates : list UTXOData)
         (txouts mint_txouts : list TxOut) (fee : Z)
         (withdrawals : list TxOut)
         (min_change_value deposit treasury_donation : Z),
    (send_all_txouts txouts <> [] ->
     forall r, In r candidates -> utxo_coin r = DEFAULT_COIN ->
       In (utxo_id r)
          (fst (_select_utxos set_iter
                  (_organize_utxos_by_coin_and_id candidates)
                  (_organize_tx_ins_outs_by_coin txouts)
                  (_organize_tx_ins_outs_by_coin mint_txouts)
                  fee withdrawals min_change_value deposit
                  treasury_donation)))
    /\ (forall (txins : list UTXOData) (y : TxOut),
          send_all_txouts txouts = [y] ->
          truthy (txout_address y) = true ->
          burning_txouts txouts = [] ->
          let remainder :=
            total_amount (of_coin DEFAULT_COIN txins)
            + total_amount withdrawals
            - (total_amount
                 (filter (fun r => negb (txout_amount r =? -1))
                         (of_coin DEFAULT_COIN txouts))
               + Z.max 0 fee + deposit + treasury_donation) in
          exists logs outs,
            _balance_txouts set_iter change_address txouts
              (_organize_tx_ins_outs_by_coin txins)
              (_organize_tx_ins_outs_by_coin txouts)
              (_organize_tx_ins_outs_by_coin mint_txouts)
              fee withdrawals deposit treasury_donation false
            = (logs, Return outs)
            /\ of_coin DEFAULT_COIN outs
               = of_coin DEFAULT_COIN (positive_txouts txouts)
                 ++ (if remainder >? 0
                     then [mkTxOut (txout_address y) remainder DEFAULT_COIN]
                     else []))
    /\ _get_tx_ins_outs set_iter
         (cluster [row "a" 0 2000000 "S" DEFAULT_COIN;
                   row "b" 1 3000000 "S" DEFAULT_COIN] min_change_value)
         "S" [] [mkTxOut "Y" (-1) DEFAULT_COIN] 300000 (Some 0) None [] []
         None false
       = ([], Return ([row "a" 0 2000000 "S" DEFAULT_COIN;
                       row "b" 1 3000000 "S" DEFAULT_COIN],
                      [mkTxOut "Y" 4700000 DEFAULT_COIN])).
Proof.
  intros change_address candidates txouts mint_txouts fee w mcv dep don.
  split; [|split].
  - intros Hs r Hr Hc. unfold _select_utxos.
    assert (Hsi : send_all_indices
                    (get_or_nil DEFAULT_COIN
                       (_organize_tx_ins_outs_by_coin txouts)) <> []).
    { rewrite organize_by_coin_get. intros Hnil.
      pose proof (proj1 (send_all_indices_nil _) Hnil) as Hno. apply Hs.
      rewrite send_all_txouts_of_coin. apply filter_none.
      intros o Ho. apply Z.eqb_neq. now apply Hno. }
    apply select_loop_sweeps; try assumption.
    + apply set_iter_In; [assumption|]. apply coin_union_In. right. left.
      apply organize_by_coin_keys.
      destruct (send_all_txouts txouts) as [|y ys] eqn:E; [contradiction|].
      assert (Hy : In y (send_all_txouts txouts)) by (rewrite E; now left).
      unfold send_all_txouts in Hy. apply filter_In in Hy.
      destruct Hy as [Hy1 Hy2]. apply andb_true_iff in Hy2.
      exists y. split; [assumption|]. now apply String.eqb_eq.
    + now apply coin_and_id_row_key.
  - intros txins y Hy Haddr Hb.
    now apply balance_send_all_remainder.
  - unfold _get_tx_ins_outs, _select_utxos, _balance_txouts.
    cbn.
    rewrite (set_iter_singleton set_iter) by assumption. cbn.
    rewrite (set_iter_singleton set_iter) by assumption. reflexivity.
Qed.
End SendAll.

Lemma send_all_sweeps_and_takes_remainder_witness :
  In "b#1"%string
     (fst (_select_utxos list_order
             (_organize_utxos_by_coin_and_id
                [row "a" 0 2000000 "S" DEFAULT_COIN;
                 row "b" 1 3000000 "S" DEFAULT_COIN])
             (_organize_tx_ins_outs_by_coin [mkTxOut "Y" (-1) DEFAULT_COIN])
             (_organize_tx_ins_outs_by_coin [])
             300000 [] 1000000 0 0))
  /\ exists logs outs,
       _balance_txouts list_order "S" [mkTxOut "Y" (-1) DEFAULT_COIN]
         (_organize_tx_ins_outs_by_coin
            [row "a" 0 2000000 "S" DEFAULT_COIN;
             row "b" 1 3000000 "S" DEFAULT_COIN])
         (_organize_tx_ins_outs_by_coin [mkTxOut "Y" (-1) DEFAULT_COIN])
         (_organize_tx_ins_outs_by_coin [])
         300000 [] 0 0 false
       = (logs, Return outs)
       /\ of_coin DEFAULT_COIN outs = [mkTxOut "Y" 4700000 DEFAULT_COIN].
Proof.
  pose proof (send_all_sweeps_and_takes_remainder list_order
                (fun s => Permutation_refl s) "S"
                [row "a" 0 2000000 "S" DEFAULT_COIN;
                 row "b" 1 3000000 "S" DEFAULT_COIN]
                [mkTxOut "Y" (-1) DEFAULT_COIN] [] 300000 [] 1000000 0 0)
    as [Hsweep [Hrest _]].
  split.
  - refine (Hsweep _ (row "b" 1 3000000 "S" DEFAULT_COIN) _ _).
    + discriminate.
    + simpl. tauto.
    + reflexivity.
  - exact (Hrest [row "a" 0 2000000 "S" DEFAULT_COIN;
                  row "b" 1 3000000 "S" DEFAULT_COIN]
                 (mkTxOut "Y" (-1) DEFAULT_COIN) eq_refl eq_refl eq_refl).
Defined.

(** ** Usable candidates *)

Lemma organize_by_coin_keys_map {A : Type} `{CoinRecord A} (c : string)
    (l : list A) :
  In c (dict_keys (_organize_tx_ins_outs_by_coin l)) <-> In c (map coin l).
Proof.
  rewrite organize_by_coin_keys, in_map_iff. split.
  - intros (r & H1 & H2). now exists r.
  - intros (r & H1 & H2). now exists r.
Qed.

Section Usable.
Variables (rows : list UTXOData) (coins : str_set).

Let step := usable_step (_organize_utxos_by_id rows) coins.

Lemma usable_step_inv (state : list UTXOData * str_set * bool)
    (rec : UTXOData) :
  In rec rows -> usable_inv rows state -> usable_inv rows (step state rec).
Proof.
  destruct state as [[txins seen] m]. intros Hrec [H1 H2].
  unfold step, usable_step.
  destruct (str_mem (utxo_coin rec) coins && negb (str_mem (utxo_id rec) seen));
    [|now split].
  destruct (has_datum rec) eqn:Ed; [now split|]. split.
  - intros r Hr. apply in_app_iff in Hr. destruct Hr as [Hr|Hr].
    + destruct (H1 r Hr) as [Ha Hb]. split; [exact Ha|].
      apply str_add_In. now right.
    + rewrite organize_by_id_get in Hr. apply filter_In in Hr.
      destruct Hr as [Ha Hb]. apply String.eqb_eq in Hb.
      split; [exact Ha|]. apply str_add_In. now left.
  - intros i Hi. apply str_add_In in Hi. destruct Hi as [->|Hi].
    + now exists rec.
    + now apply H2.
Qed.

Lemma usable_fold_inv (l : list UTXOData)
    (state : list UTXOData * str_set * bool) :
  (forall r, In r l -> In r rows) -> usable_inv rows state ->
  usable_inv rows (fold_left step l state).
Proof.
  revert state. induction l as [|rec l IH]; intros state Hl Hinv; [exact Hinv|].
  simpl. apply IH.
  - intros r Hr. apply Hl. now right.
  - apply usable_step_inv; [apply Hl; now left|exact Hinv].
Qed.

Lemma usable_fold_locked (l : list UTXOData) (m : bool) :
  (forall r, In r l -> str_mem (utxo_coin r) coins = true ->
             has_datum r = true) ->
  fold_left step l ([], [], m)
  = ([], [], m || existsb (fun r => str_mem (utxo_coin r) coins) l).
Proof.
  revert m. induction l as [|rec l IH]; intros m Hl.
  - simpl. now rewrite orb_false_r.
  - cbn [fold_left existsb]. assert (Hs : step ([], [], m) rec
                 = ([], [], m || str_mem (utxo_coin rec) coins)).
    { unfold step, usable_step. simpl.
      destruct (str_mem (utxo_coin rec) coins) eqn:Ec; simpl.
      - rewrite (Hl rec) by (now left || assumption).
        now rewrite orb_true_r.
      - now rewrite orb_false_r. }
    rewrite Hs, IH by (intros; apply Hl; [now right|assumption]).
    now rewrite orb_assoc.
Qed.

Lemma usable_no_datum (txins : list UTXOData) :
  datum_consistent rows ->
  _get_usable_utxos rows coins = Return txins ->
  forall r, In r txins -> In r rows /\ has_datum r = false.
Proof.
  intros Hcons Hret r Hr. unfold _get_usable_utxos in Hret.
  pose proof (usable_fold_inv rows ([], [], false) (fun r H => H)) as Hinv.
  fold step in Hret.
  destruct (fold_left step rows ([], [], false)) as [[txins' seen] m].
  assert (Htx : txins' = txins).
  { destruct txins'; [destruct m; [discriminate|]|]; congruence. }
  subst txins'.
  destruct Hinv as [H1 H2].
  { split; [intros ? []|intros ? []]. }
  destruct (H1 r Hr) as [Ha Hb]. split; [exact Ha|].
  destruct (H2 _ Hb) as (r0 & Hr0 & Hid & Hd).
  rewrite <- Hd. now apply Hcons.
Qed.

Lemma usable_all_locked :
  (forall r, In r rows -> str_mem (utxo_coin r) coins = true ->
             has_datum r = true) ->
  _get_usable_utxos rows coins
  = if existsb (fun r => str_mem (utxo_coin r) coins) rows
    then Raise (CLIError Only_matching_utxos_have_datum)
    else Return [].
Proof.
  intros Hl. unfold _get_usable_utxos. fold step.
  rewrite usable_fold_locked by assumption. reflexivity.
Qed.
End Usable.

Lemma usable_raise_message (rows : list UTXOData) (coins : str_set)
    (e : Exception) :
  _get_usable_utxos rows coins = Raise e ->
  e = CLIError Only_matching_utxos_have_datum.
Proof.
  unfold _get_usable_utxos.
  destruct (fold_left _ rows _) as [[txins seen] m].
  destruct txins; [destruct m|]; congruence.
Qed.

Lemma bind_nil_return {A B : Type} (a : A) (k : A -> M B) :
  bind ([], Return a) k = k a.
Proof. unfold bind. now destruct (k a). Qed.

Lemma bind_return {A B : Type} (l : list LogRecord) (a : A) (k : A -> M B) :
  bind (l, Return a) k = (l ++ fst (k a), snd (k a)).
Proof. unfold bind. now destruct (k a). Qed.

(** ** The orchestrator without explicit inputs *)

Section AutoSelect.
Variable set_iter : str_set -> list string.
Variables (clusterlib_obj : ClusterLib) (src_address : string)
          (txouts : list TxOut) (fee : Z)
          (deposit treasury_donation : option Z)
          (withdrawals mint_txouts : list TxOut)
          (src_addr_utxos : option (list UTXOData))
          (skip_asset_balancing : bool).

Let rows := candidate_utxos clusterlib_obj src_address src_addr_utxos.
Let outcoins_all : str_set :=
  str_update []
    (DEFAULT_COIN :: dict_keys (_organize_tx_ins_outs_by_coin mint_txouts)
       ++ dict_keys (_organize_tx_ins_outs_by_coin txouts)).
Let present (usable : list UTXOData) : bool :=
  forallb (fun c => dict_mem c (_organize_tx_ins_outs_by_coin mint_txouts)
                    || dict_mem c (_organize_utxos_by_coin_and_id usable))
          (DEFAULT_COIN :: dict_keys (_organize_tx_ins_outs_by_coin txouts)).
Let result :=
  _get_tx_ins_outs set_iter clusterlib_obj src_address [] txouts fee deposit
    treasury_donation withdrawals mint_txouts src_addr_utxos
    skip_asset_balancing.

(** The ways in which the orchestrator ends when it selects the inputs
    itself. *)
Lemma auto_select_cases :
  (rows = [] /\ result = ([], Raise (CLIError (No_utxo_returned src_address))))
  \/ (exists e, _get_usable_utxos rows outcoins_all = Raise e
                /\ result = ([], Raise e))
  \/ (_get_usable_utxos rows outcoins_all = Return []
      /\ result = ([], Raise (CLIError No_input_utxo)))
  \/ (exists usable, _get_usable_utxos rows outcoins_all = Return usable
        /\ present usable = false
        /\ result = ([], Raise (CLIError Not_all_output_coins_present)))
  \/ (exists usable selected logs res,
        _get_usable_utxos rows outcoins_all = Return usable
        /\ present usable = true
        /\ result = (logs, res)
        /\ forall ins outs, res = Return (ins, outs) ->
             ins = concat (map snd
                             (filter (fun kv => str_mem (fst kv) selected)
                                     (_organize_utxos_by_id usable)))).
Proof.
  unfold result, _get_tx_ins_outs.
  fold (candidate_utxos clusterlib_obj src_address src_addr_utxos).
  fold rows. fold outcoins_all. clearbody rows outcoins_all.
  destruct rows as [|r0 rs] eqn:Erows; [left; split; reflexivity|right].
  cbv beta iota. rewrite <- Erows.
  destruct (_get_usable_utxos rows outcoins_all) as [usable|e] eqn:Eu.
  2:{ left. exists e. split; reflexivity. }
  right. rewrite bind_nil_return.
  destruct usable as [|u us]; [left; split; reflexivity|right].
  change (forallb _ (DEFAULT_COIN :: _)) with (present (u :: us)).
  destruct (present (u :: us)) eqn:Ep.
  2:{ left. exists (u :: us). repeat split; first [assumption|reflexivity]. }
  right. cbn [negb].
  destruct (_select_utxos set_iter _ _ _ fee withdrawals _ _ _)
    as [selected warnings].
  exists (u :: us), selected.
  destruct (concat (map snd (filter (fun kv => str_mem (fst kv) selected)
                               (_organize_utxos_by_id (u :: us)))))
    as [|f fs] eqn:Ef.
  - eexists. eexists.
    split; [reflexivity|split; [assumption|split; [reflexivity|]]].
    intros ins outs H. discriminate.
  - rewrite bind_return. cbv beta iota.
    match goal with
    | |- context [_balance_txouts ?a1 ?a2 ?a3 ?a4 ?a5 ?a6 ?a7 ?a8 ?a9 ?a10
                    ?a11] =>
        destruct (_balance_txouts a1 a2 a3 a4 a5 a6 a7 a8 a9 a10 a11)
          as [logs [outs|exn]]
    end.
    + eexists. eexists.
      split; [reflexivity|split; [assumption|split; [reflexivity|]]].
      intros ins outs' H. cbn in H. now injection H as <- _.
    + eexists. eexists.
      split; [reflexivity|split; [assumption|split; [reflexivity|]]].
      intros ins outs' H. cbn in H. discriminate.
Qed.
End AutoSelect.

Lemma outcoins_all_In (txouts mint_txouts : list TxOut) (c : string) :
  str_mem c
    (str_update []
       (DEFAULT_COIN :: dict_keys (_organize_tx_ins_outs_by_coin mint_txouts)
          ++ dict_keys (_organize_tx_ins_outs_by_coin txouts))) = true
  <-> In c (required_coins txouts mint_txouts).
Proof.
  rewrite str_mem_In, str_update_In. unfold required_coins. simpl.
  rewrite !in_app_iff, !organize_by_coin_keys_map. simpl. tauto.
Qed.

(** C9 (as amended). When the caller supplies no inputs and the datum lock
    is the same on the rows of one identity: (1) every input that the
    orchestrator returns is a candidate row without a datum lock; (2) when
    some candidate holds a required coin and every such candidate is locked,
    the orchestrator raises [CLIError]: the only matching outputs have a
    datum; (3) when a coin of the requested outputs (or the base coin) that
    the transaction does not mint is held by locked candidates only, the
    orchestrator raises a [CLIError]. A coin that the transaction mints or
    burns is not covered by (3). *)
Theorem datum_locked_utxos_are_not_auto_selected :
  forall (set_iter : str_set -> list string) (clusterlib_obj : ClusterLib)
         (src_address : string) (txouts : list TxOut) (fee : Z)
         (deposit treasury_donation : option Z)
         (withdrawals mint_txouts : list TxOut)
         (src_addr_utxos : option (list UTXOData))
         (skip_asset_balancing : bool),
    let rows := candidate_utxos clusterlib_obj src_address src_addr_utxos in
    let result :=
      _get_tx_ins_outs set_iter clusterlib_obj src_address [] txouts fee
        deposit treasury_donation withdrawals mint_txouts src_addr_utxos
        skip_asset_balancing in
    datum_consistent rows ->
    (forall logs ins outs,
        result = (logs, Return (ins, outs)) ->
        forall r, In r ins -> In r rows /\ has_datum r = false)
    /\ ((exists r, In r rows
                   /\ In (utxo_coin r) (required_coins txouts mint_txouts)) ->
        (forall r, In r rows ->
                   In (utxo_coin r) (required_coins txouts mint_txouts) ->
                   has_datum r = true) ->
        result = ([], Raise (CLIError Only_matching_utxos_have_datum)))
    /\ (forall c,
          In c (DEFAULT_COIN :: map txout_coin txouts) ->
          ~ In c (map txout_coin mint_txouts) ->
          (forall r, In r rows -> utxo_coin r = c -> has_datum r = true) ->
          exists logs msg, result = (logs, Raise (CLIError msg))).
Proof.
  intros set_iter cl src txouts fee dep don w mint sau skip rows result Hcons.
  pose proof (auto_select_cases set_iter cl src txouts fee dep don w mint sau
                skip) as Hcases.
  fold rows in Hcases. fold result in Hcases.
  split; [|split].
  - intros logs ins outs Hres r Hr.
    destruct Hcases as [[_ H]|[(e & _ & H)|[[_ H]|[(u & _ & _ & H)|H]]]];
      try (rewrite H in Hres; discriminate).
    destruct H as (usable & selected & logs' & res & Hu & _ & H & Hins).
    rewrite H in Hres. injection Hres as _ Hres.
    rewrite (Hins _ _ Hres) in Hr.
    apply (Permutation_in _ (organize_by_id_filter_perm
                               (fun i => str_mem i selected) usable)) in Hr.
    apply filter_In in Hr. destruct Hr as [Hr _].
    exact (usable_no_datum _ _ _ Hcons Hu r Hr).
  - intros (r & Hr & Hreq) Hlocked.
    assert (Hu : _get_usable_utxos rows
                   (str_update []
                      (DEFAULT_COIN
                       :: dict_keys (_organize_tx_ins_outs_by_coin mint)
                          ++ dict_keys (_organize_tx_ins_outs_by_coin txouts)))
                 = Raise (CLIError Only_matching_utxos_have_datum)).
    { rewrite usable_all_locked.
      - replace (existsb _ rows) with true; [reflexivity|].
        symmetry. apply existsb_exists. exists r. split; [exact Hr|].
        now apply outcoins_all_In.
      - intros r' Hr' Hc. apply Hlocked; [exact Hr'|].
        now apply outcoins_all_In. }
    destruct Hcases as [[Hnil H]|[(e & He & H)|[[He H]|[(u & He & _ & H)|H]]]].
    + rewrite Hnil in Hr. destruct Hr.
    + rewrite H. congruence.
    + congruence.
    + congruence.
    + destruct H as (usable & selected & logs' & res & He & _). congruence.
  - intros c Hc Hmint Hlocked.
    destruct Hcases as [[_ H]|[(e & He & H)|[[_ H]|[(u & _ & _ & H)|H]]]];
      try (rewrite H; eauto; fail).
    + apply usable_raise_message in He. subst e. rewrite H. eauto.
    + destruct H as (usable & selected & logs' & res & Hu & Hp & _).
      exfalso.
      assert (Hin : In c (DEFAULT_COIN
                          :: dict_keys (_organize_tx_ins_outs_by_coin txouts))).
      { destruct Hc as [Hc|Hc]; [now left|right].
        now apply organize_by_coin_keys_map. }
      pose proof (proj1 (forallb_forall _ _) Hp c Hin) as Hpc.
      apply orb_true_iff in Hpc. destruct Hpc as [Hpc|Hpc].
      * apply dict_mem_keys, organize_by_coin_keys_map in Hpc. now apply Hmint.
      * apply dict_mem_keys, coin_and_id_keys in Hpc.
        destruct Hpc as (r & Hr & Hrc).
        destruct (usable_no_datum _ _ _ Hcons Hu r Hr) as [Hrows Hd].
        rewrite (Hlocked r Hrows Hrc) in Hd. discriminate.
Qed.

Lemma datum_locked_utxos_are_not_auto_selected_witness :
  exists logs msg,
    _get_tx_ins_outs list_order
      (cluster [row "a" 0 5000000 "S" DEFAULT_COIN;
                locked_row "b" 0 2000000 "S" DEFAULT_COIN;
                locked_row "b" 0 5 "S" "T"] 1000000)
      "S" [] [mkTxOut "X" 1000000 DEFAULT_COIN; mkTxOut "X" 3 "T"] 200000
      (Some 0) None [] [] None false
    = (logs, Raise (CLIError msg)).
Proof.
  refine (proj2 (proj2 (datum_locked_utxos_are_not_auto_selected list_order
                          (cluster [row "a" 0 5000000 "S" DEFAULT_COIN;
                                    locked_row "b" 0 2000000 "S" DEFAULT_COIN;
                                    locked_row "b" 0 5 "S" "T"] 1000000)
                          "S"
                          [mkTxOut "X" 1000000 DEFAULT_COIN; mkTxOut "X" 3 "T"]
                          200000 (Some 0) None [] [] None false _))
                "T"%string _ _ _).
  - intros r r' Hr Hr' Hid. simpl in Hr, Hr'.
    destruct Hr as [<-|[<-|[<-|[]]]]; destruct Hr' as [<-|[<-|[<-|[]]]];
      try reflexivity; vm_compute in Hid; discriminate.
  - simpl. tauto.
  - simpl. tauto.
  - intros r Hr Hc. simpl in Hr.
    destruct Hr as [<-|[<-|[<-|[]]]]; try reflexivity; discriminate.
Defined.

(** C9, the claim as stated fails: the token ["T"] is burned by the
    transaction and its only candidate output is datum-locked, while another
    output holds the base coin. The locked output is left out, nothing is
    raised: the selection logs a warning, the balancer logs an error, and the
    orchestrator returns inputs and outputs. *)
Lemma locked_only_token_is_not_refused :
  let rows := [row "a" 0 5000000 "S" DEFAULT_COIN;
               locked_row "b" 0 2000000 "S" DEFAULT_COIN;
               locked_row "b" 0 5 "S" "T"] in
  (forall r, In r rows -> utxo_coin r = "T"%string -> has_datum r = true)
  /\ In "T"%string
        (required_coins [mkTxOut "X" 1000000 DEFAULT_COIN]
                        [mkTxOut "X" (-5) "T"])
  /\ _get_tx_ins_outs list_order (cluster rows 1000000) "S" []
       [mkTxOut "X" 1000000 DEFAULT_COIN] 200000 (Some 0) None []
       [mkTxOut "X" (-5) "T"] None false
     = ([Warning_target_not_met 5 "T";
         Error_coin_not_sufficient "T" (-5) 0],
        Return ([row "a" 0 5000000 "S" DEFAULT_COIN],
                [mkTxOut "X" 1000000 DEFAULT_COIN;
                 mkTxOut "S" 3800000 DEFAULT_COIN])).
Proof.
  cbv zeta. split; [|split].
  - intros r Hr Hc. simpl in Hr.
    destruct Hr as [<-|[<-|[<-|[]]]]; try reflexivity; discriminate.
  - simpl. tauto.
  - reflexivity.
Qed.

(** The agreement of the rows of one unspent output on the datum lock is
    needed for part (1) of C9: when only the row of the base coin of the
    output ["a#0"] carries a datum, the row of the token lets the output
    in, and the row with the datum is returned among the inputs. *)
Example datum_lock_on_one_row_is_selected :
  let rows := [locked_row "a" 0 5000000 "S" DEFAULT_COIN;
               row "a" 0 5 "S" "T"] in
  ~ datum_consistent rows
  /\ _get_tx_ins_outs list_order (cluster rows 1000000) "S" []
       [mkTxOut "X" 1000000 DEFAULT_COIN; mkTxOut "X" 5 "T"] 200000
       (Some 0) None [] [] None false
     = ([], Return ([locked_row "a" 0 5000000 "S" DEFAULT_COIN;
                     row "a" 0 5 "S" "T"],
                    [mkTxOut "X" 1000000 DEFAULT_COIN; mkTxOut "X" 5 "T";
                     mkTxOut "S" 3800000 DEFAULT_COIN])).
Proof.
  cbv zeta. split; [|reflexivity].
  intros H.
  specialize (H (locked_row "a" 0 5000000 "S" DEFAULT_COIN)
                (row "a" 0 5 "S" "T")
                (or_introl eq_refl) (or_intror (or_introl eq_refl))
                eq_refl).
  discriminate.
Qed.

(** ** Amounts under a set of identities *)

Lemma dict_sum_ext (P Q : string -> bool) (m : dict Z) :
  (forall k, In k (dict_keys m) -> P k = Q k) -> dict_sum P m = dict_sum Q m.
Proof.
  induction m as [|[k v] m IH]; intros H; simpl; [reflexivity|].
  rewrite (H k) by now left. rewrite IH; [reflexivity|].
  intros k' Hk'. apply H. now right.
Qed.

Lemma dict_sum_mono (P Q : string -> bool) (m : dict Z) :
  (forall k v, In (k, v) m -> 0 <= v) ->
  (forall k, P k = true -> Q k = true) ->
  dict_sum P m <= dict_sum Q m.
Proof.
  intros Hpos HPQ. induction m as [|[k v] m IH]; simpl; [lia|].
  assert (0 <= v) by (apply (Hpos k); now left).
  assert (dict_sum P m <= dict_sum Q m)
    by (apply IH; intros k' v' H'; apply (Hpos k'); now right).
  destruct (P k) eqn:EP; [rewrite (HPQ k EP); lia|].
  destruct (Q k); lia.
Qed.

Lemma dict_sum_split (P Q : string -> bool) (m : dict Z) :
  dict_sum (fun k => P k || Q k) m
  = dict_sum P m + dict_sum (fun k => negb (P k) && Q k) m.
Proof.
  induction m as [|[k v] m IH]; simpl; [reflexivity|].
  rewrite IH. destruct (P k), (Q k); simpl; lia.
Qed.

Lemma dict_sum_filter (P Q : string -> bool) (m : dict Z) :
  dict_sum P (filter (fun kv => Q (fst kv)) m)
  = dict_sum (fun k => Q k && P k) m.
Proof.
  induction m as [|[k v] m IH]; simpl; [reflexivity|].
  destruct (Q k); simpl; rewrite IH; reflexivity.
Qed.

Lemma dict_sum_absent (P : string -> bool) (k : string) (m : dict Z) :
  ~ In k (dict_keys m) ->
  dict_sum (fun i => String.eqb i k || P i) m = dict_sum P m.
Proof.
  intros Hk. apply dict_sum_ext. intros i Hi.
  destruct (String.eqb_spec i k) as [->|_]; [contradiction|reflexivity].
Qed.

Lemma dict_sum_add (P : string -> bool) (k : string) (v : Z) (m : dict Z) :
  NoDup (dict_keys m) -> In (k, v) m -> P k = false ->
  dict_sum (fun i => String.eqb i k || P i) m = dict_sum P m + v.
Proof.
  induction m as [|[k' v'] m IH]; intros Hnd Hin HP; [destruct Hin|].
  simpl in Hnd. inversion Hnd as [|? ? Hn Hnd']; subst. simpl.
  destruct Hin as [Heq|Hin].
  - injection Heq as -> ->. rewrite String.eqb_refl, HP. simpl.
    rewrite dict_sum_absent by assumption. lia.
  - assert (Hne : k' <> k).
    { intros ->. apply Hn. now apply (in_map fst) in Hin. }
    apply String.eqb_neq in Hne. rewrite Hne. simpl.
    rewrite IH by assumption. lia.
Qed.

Lemma str_mem_cons (i k : string) (s : str_set) :
  str_mem i (k :: s) = String.eqb i k || str_mem i s.
Proof.
  unfold str_mem. simpl. destruct (string_dec i k) as [->|Hne].
  - now rewrite String.eqb_refl.
  - apply String.eqb_neq in Hne. now rewrite Hne.
Qed.

Lemma str_mem_add (i k : string) (s : str_set) :
  str_mem i (str_add k s) = String.eqb i k || str_mem i s.
Proof.
  apply eq_true_iff_eq. rewrite orb_true_iff, !str_mem_In, str_add_In.
  now rewrite String.eqb_eq.
Qed.

Lemma str_mem_update_nil (i : string) (xs : list string) :
  str_mem i (str_update [] xs) = str_mem i xs.
Proof.
  apply eq_true_iff_eq. rewrite !str_mem_In, str_update_In. simpl. tauto.
Qed.

Lemma dict_sum_set_le (P : string -> bool) (k : string) (v : Z) (m : dict Z) :
  (forall k' v', In (k', v') m -> 0 <= v') ->
  dict_sum P (dict_set k v m) <= dict_sum P m + (if P k then v else 0).
Proof.
  induction m as [|[k' v'] m IH]; intros Hpos; simpl; [lia|].
  assert (0 <= v') by (apply (Hpos k'); now left).
  destruct (String.eqb_spec k k') as [->|Hne]; simpl.
  - destruct (P k'); lia.
  - assert (dict_sum P (dict_set k v m)
            <= dict_sum P m + (if P k then v else 0))
      by (apply IH; intros k2 v2 H2; apply (Hpos k2); now right).
    lia.
Qed.

(** ** The accumulated amount of the reuse phase *)

Lemma pick_already_loop_bound (m : dict Z) (ids : list string)
    (target twc : Z) (picked : str_set) (acc : Z)
    (picked' : str_set) (acc' : Z) (met : bool) :
  NoDup ids -> NoDup (dict_keys m) ->
  (forall k v, In (k, v) m -> 0 <= v) ->
  pick_already_loop m ids target twc picked acc = (picked', acc', met) ->
  acc' <= acc + dict_sum (fun i => str_mem i ids) m
  /\ (met = true -> acc' = target \/ acc' >= twc).
Proof.
  intros Hids Hm Hpos. revert acc.
  induction ids as [|i ids IH]; intros acc Hloop; simpl in Hloop.
  - injection Hloop as _ <- <-. split; [|discriminate].
    assert (0 <= dict_sum (fun i => str_mem i []) m).
    { clear - Hpos. induction m as [|[k v] m IH]; simpl; [lia|].
      apply IH. intros k' v' H'. apply (Hpos k'). now right. }
    lia.
  - inversion Hids as [|? ? Hn Hids']; subst.
    assert (Hrest : 0 <= dict_sum (fun j => str_mem j ids) m).
    { clear - Hpos. induction m as [|[k v] m IH]; simpl.
      - lia.
      - assert (0 <= v) by (apply (Hpos k); now left).
        assert (0 <= dict_sum (fun j => str_mem j ids) m)
          by (apply IH; intros k' v' H'; apply (Hpos k'); now right).
        destruct (str_mem k ids); lia. }
    rewrite (dict_sum_ext (fun j => str_mem j (i :: ids))
               (fun j => String.eqb j i || str_mem j ids))
      by (intros; apply str_mem_cons).
    destruct (dict_get i m) as [a|] eqn:Eg.
    + apply dict_get_In in Eg.
      rewrite (dict_sum_add _ i a m Hm Eg)
        by (now apply str_mem_false).
      assert (0 <= a) by now apply (Hpos i).
      destruct (Z.eqb_spec (acc + a) target) as [E1|E1].
      * injection Hloop as _ <- <-. split; [lia|]. intros _. now left.
      * destruct (acc + a >=? twc) eqn:E2.
        -- injection Hloop as _ <- <-. split; [lia|]. intros _. right.
           apply Z.geb_le in E2. lia.
        -- destruct (IH Hids' _ Hloop) as [Ha Hb]. split; [lia|exact Hb].
    + rewrite dict_sum_absent by (now apply dict_get_None_keys).
      exact (IH Hids' _ Hloop).
Qed.

(** ** The defragmentation phase *)

Lemma enumerate_from_fst {A : Type} (n : nat) (l : list A) :
  map fst (enumerate_from n l) = seq n (length l).
Proof.
  revert n. induction l as [|x l IH]; intros n; simpl; [reflexivity|].
  now rewrite IH.
Qed.

Lemma enumerate_from_nth {A : Type} (n i : nat) (x d : A) (l : list A) :
  In (i, x) (enumerate_from n l) ->
  (n <= i < n + length l)%nat /\ nth (i - n) l d = x.
Proof.
  revert n. induction l as [|y l IH]; intros n; simpl; [intros []|].
  intros [H|H].
  - injection H as <- <-. rewrite Nat.sub_diag. split; [lia|reflexivity].
  - destruct (IH _ H) as [H1 H2]. split; [lia|].
    replace (i - n)%nat with (S (i - S n)) by lia. exact H2.
Qed.

Lemma insert_by_amount_perm (x : entry) (l : list entry) :
  Permutation (insert_by_amount x l) (x :: l).
Proof.
  induction l as [|y l IH]; simpl; [reflexivity|].
  destruct (entry_amount x <=? entry_amount y); [reflexivity|].
  rewrite IH. apply perm_swap.
Qed.

Lemma sorted_by_amount_perm (l : list entry) :
  Permutation (sorted_by_amount l) l.
Proof.
  induction l as [|x l IH]; simpl; [reflexivity|].
  rewrite insert_by_amount_perm. now apply perm_skip.
Qed.

Lemma sorted_entries_valid (utxos : list (string * Z)) (i : nat)
    (id : string) (a : Z) :
  In (i, (id, a)) (sorted_by_amount (enumerate utxos)) ->
  (i < length utxos)%nat /\ utxo_at utxos i = (id, a).
Proof.
  intros H. apply (Permutation_in _ (sorted_by_amount_perm _)) in H.
  apply (enumerate_from_nth 0 i (id, a) (EmptyString, 0)) in H.
  destruct H as [H1 H2]. rewrite Nat.sub_0_r in H2. split; [lia|exact H2].
Qed.

Lemma sorted_indices_NoDup (utxos : list (string * Z)) :
  NoDup (map fst (sorted_by_amount (enumerate utxos))).
Proof.
  apply (Permutation_NoDup
           (Permutation_map fst
              (Permutation_sym (sorted_by_amount_perm (enumerate utxos))))).
  unfold enumerate. rewrite enumerate_from_fst. apply seq_NoDup.
Qed.

Lemma firstn_In {A : Type} (k : nat) (l : list A) (x : A) :
  In x (firstn k l) -> In x l.
Proof.
  intros H. rewrite <- (firstn_skipn k l). apply in_app_iff. now left.
Qed.

Lemma firstn_NoDup {A : Type} (k : nat) (l : list A) :
  NoDup l -> NoDup (firstn k l).
Proof.
  intros H. rewrite <- (firstn_skipn k l) in H.
  now apply NoDup_app_remove_r in H.
Qed.

Lemma min_by_In {A : Type} (key : A -> Z) (l : list A) (x : A) :
  min_by key l = Some x -> In x l.
Proof.
  revert x. induction l as [|y l IH]; intros x; simpl; [discriminate|].
  destruct (min_by key l) as [z|].
  - destruct (key z <? key y); intros [= <-]; [right; now apply IH|now left].
  - intros [= <-]. now left.
Qed.

Lemma nat_mem_In (i : nat) (s : list nat) : nat_mem i s = true <-> In i s.
Proof.
  unfold nat_mem. rewrite existsb_exists. split.
  - intros (j & Hj & E). apply Nat.eqb_eq in E. now subst.
  - intros H. exists i. split; [exact H|apply Nat.eqb_refl].
Qed.

Section Defragmentation.
Variables (utxos : list (string * Z)) (acc0 target twc : Z).
Hypothesis utxos_NoDup : NoDup (dict_keys utxos).

Lemma utxo_at_In (i : nat) :
  (i < length utxos)%nat -> In (utxo_at utxos i) utxos.
Proof. intros H. now apply nth_In. Qed.

Lemma utxo_at_inj (i j : nat) :
  (i < length utxos)%nat -> (j < length utxos)%nat ->
  fst (utxo_at utxos i) = fst (utxo_at utxos j) -> i = j.
Proof.
  intros Hi Hj H. unfold utxo_at in H.
  change EmptyString with (fst (EmptyString, 0)) in H at 1.
  rewrite <- !(map_nth fst) in H. simpl in H.
  apply (proj1 (NoDup_nth (map fst utxos) EmptyString) utxos_NoDup);
    rewrite ?length_map; assumption.
Qed.

(** Selecting an index that is not selected yet keeps the invariant. *)
Lemma defrag_inv_select (selected_indices : list nat) (picked : str_set)
    (acc : Z) (i : nat) (id : string) (a : Z) :
  (i < length utxos)%nat -> ~ In i selected_indices ->
  utxo_at utxos i = (id, a) ->
  defrag_inv utxos acc0 (selected_indices, picked, acc) ->
  defrag_inv utxos acc0 (i :: selected_indices, str_add id picked, acc + a).
Proof.
  intros Hi Hsel Hat [Hacc Hfresh]. split.
  - rewrite (dict_sum_ext (fun k => str_mem k (str_add id picked))
               (fun k => String.eqb k id || str_mem k picked))
      by (intros; apply str_mem_add).
    rewrite (dict_sum_add _ id a utxos utxos_NoDup).
    + lia.
    + rewrite <- Hat. now apply utxo_at_In.
    + apply str_mem_false. specialize (Hfresh i Hi Hsel).
      now rewrite Hat in Hfresh.
  - intros j Hj Hnot Hin. apply str_add_In in Hin.
    destruct Hin as [Hin|Hin].
    + apply Hnot. left. apply utxo_at_inj; try assumption.
      now rewrite Hat.
    + apply (Hfresh j Hj); [|exact Hin]. intros H. apply Hnot. now right.
Qed.

Lemma defrag_smallest_inv (entries : list entry)
    (selected_indices : list nat) (picked : str_set) (acc : Z) :
  (forall i id a, In (i, (id, a)) entries ->
                  (i < length utxos)%nat /\ utxo_at utxos i = (id, a)) ->
  NoDup (map fst entries) ->
  (forall i, In i (map fst entries) -> ~ In i selected_indices) ->
  defrag_inv utxos acc0 (selected_indices, picked, acc) ->
  match defrag_smallest entries target twc selected_indices picked acc with
  | inl state => defrag_inv utxos acc0 state
  | inr (picked', acc', met) =>
      (exists selected', defrag_inv utxos acc0 (selected', picked', acc'))
      /\ met = true /\ (acc' = target \/ acc' >= twc)
  end.
Proof.
  revert selected_indices picked acc.
  induction entries as [|[i [id a]] entries IH];
    intros selidx picked acc Hvalid Hnd Hdisj Hinv; [exact Hinv|].
  cbn [defrag_smallest].
  destruct (Hvalid i id a (or_introl eq_refl)) as [Hi Hat].
  assert (Hinv' : defrag_inv utxos acc0
                    (i :: selidx, str_add id picked, acc + a)).
  { apply defrag_inv_select; try assumption. apply Hdisj. now left. }
  destruct (Z.eqb_spec (acc + a) target) as [E1|E1].
  { split; [now exists (i :: selidx)|split; [reflexivity|now left]]. }
  destruct (acc + a >=? twc) eqn:E2.
  { split; [now exists (i :: selidx)|split; [reflexivity|right]].
    apply Z.geb_le in E2. lia. }
  simpl in Hnd. inversion Hnd as [|? ? Hn Hnd']; subst.
  apply IH; try assumption.
  - intros j jd ja Hj. apply Hvalid. now right.
  - intros j Hj [<-|Hin]; [contradiction|].
    apply (Hdisj j); [now right|exact Hin].
Qed.

Lemma defrag_closest_inv (fuel : nat) (sorted_utxos : list entry)
    (selected_indices : list nat) (picked : str_set) (acc : Z) :
  (forall i, In i (map fst sorted_utxos) -> (i < length utxos)%nat) ->
  defrag_inv utxos acc0 (selected_indices, picked, acc) ->
  let '(picked', acc', met) :=
    defrag_closest fuel utxos sorted_utxos target twc selected_indices picked
      acc in
  (exists selected', defrag_inv utxos acc0 (selected', picked', acc'))
  /\ (met = true -> acc' = target \/ acc' >= twc).
Proof.
  intros Hvalid. revert selected_indices picked acc.
  induction fuel as [|fuel IH]; intros selidx picked acc Hinv;
    cbn [defrag_closest].
  - destruct (acc <? twc) eqn:E1.
    + destruct (Z.eqb_spec acc target) as [E2|E2].
      * split; [now exists selidx|intros _; now left].
      * destruct (min_by _ _);
          (split; [now exists selidx|discriminate]).
    + split; [now exists selidx|intros _; right].
      apply Z.ltb_ge in E1. lia.
  - destruct (acc <? twc) eqn:E1.
    + destruct (Z.eqb_spec acc target) as [E2|E2].
      * split; [now exists selidx|intros _; now left].
      * destruct (min_by _ _) as [i|] eqn:Emin;
          [|split; [now exists selidx|discriminate]].
        apply min_by_In in Emin. apply filter_In in Emin.
        destruct Emin as [Hin Hnot].
        destruct (utxo_at utxos i) as [id a] eqn:Hat.
        apply IH. apply defrag_inv_select; try assumption.
        -- now apply Hvalid.
        -- intros H. apply nat_mem_In in H. rewrite H in Hnot. discriminate.
    + split; [now exists selidx|intros _; right].
      apply Z.ltb_ge in E1. lia.
Qed.

(** The accumulated amount that the defragmentation phase returns is covered
    by the amounts of the identities it picked, and the flag is set only on
    an exact match or with the target with change reached. *)
Lemma defragmentation_bound (picked : str_set) (acc : Z) (met : bool) :
  _pick_utxos_with_defragmentation utxos target twc acc0 = (picked, acc, met) ->
  acc <= acc0 + dict_sum (fun i => str_mem i picked) utxos
  /\ (met = true -> acc = target \/ acc >= twc).
Proof.
  unfold _pick_utxos_with_defragmentation.
  set (sorted_utxos := sorted_by_amount (enumerate utxos)).
  assert (Hinit : defrag_inv utxos acc0 ([], [], acc0)).
  { split; [|intros j _ _ []].
    rewrite (dict_sum_ext (fun i => str_mem i []) (fun _ => false))
      by reflexivity.
    assert (dict_sum (fun _ => false) utxos = 0)
      by (clear; induction utxos as [|[k v] m IH]; simpl; lia).
    lia. }
  pose proof (defrag_smallest_inv (firstn 10 sorted_utxos) [] [] acc0) as H1.
  destruct (defrag_smallest (firstn 10 sorted_utxos) target twc [] [] acc0)
    as [[[selidx p1] a1]|[[p1 a1] m1]].
  - intros Hres.
    pose proof (defrag_closest_inv (length utxos) sorted_utxos selidx p1 a1)
      as H2.
    rewrite Hres in H2. destruct H2 as [[s' [Hs' _]] Hmet].
    + intros i Hi. apply in_map_iff in Hi.
      destruct Hi as ([i' [id a]] & <- & Hi).
      now apply (sorted_entries_valid utxos i' id a).
    + apply H1; try assumption.
      * intros i id a Hi. apply sorted_entries_valid.
        now apply firstn_In in Hi.
      * rewrite <- firstn_map. apply firstn_NoDup, sorted_indices_NoDup.
      * intros i _ [].
    + split; assumption.
  - intros [= <- <- <-].
    destruct H1 as [[s' [Hs' _]] [Hm Ht]]; try assumption.
    + intros i id a Hi. apply sorted_entries_valid.
      now apply firstn_In in Hi.
    + rewrite <- firstn_map. apply firstn_NoDup, sorted_indices_NoDup.
    + intros i _ [].
    + split; [assumption|now intros _].
Qed.
End Defragmentation.

Lemma nat_mem_cons (j i : nat) (s : list nat) :
  nat_mem j (i :: s) = Nat.eqb j i || nat_mem j s.
Proof. reflexivity. Qed.

Lemma candidates_le (l selected_indices : list nat) (i : nat) :
  (length (filter (fun j => negb (nat_mem j (i :: selected_indices))) l)
   <= length (filter (fun j => negb (nat_mem j selected_indices)) l))%nat.
Proof.
  induction l as [|y l IH]; [simpl; lia|]. cbn [filter].
  rewrite nat_mem_cons.
  destruct (Nat.eqb y i), (nat_mem y selected_indices);
    cbn [orb negb length]; lia.
Qed.

Lemma candidates_shrink (l selected_indices : list nat) (i : nat) :
  In i (filter (fun j => negb (nat_mem j selected_indices)) l) ->
  (length (filter (fun j => negb (nat_mem j (i :: selected_indices))) l)
   < length (filter (fun j => negb (nat_mem j selected_indices)) l))%nat.
Proof.
  induction l as [|x l IH]; [intros []|]. cbn [filter].
  rewrite nat_mem_cons.
  pose proof (candidates_le l selected_indices i) as Hle.
  destruct (nat_mem x selected_indices) eqn:Ex.
  - rewrite orb_true_r. cbn [negb]. exact IH.
  - rewrite orb_false_r. cbn [negb].
    destruct (Nat.eqb_spec x i) as [->|Hne]; cbn [negb length].
    + intros _. lia.
    + intros [H|H]; [contradiction|]. apply IH in H. lia.
Qed.

(** The branch of [defrag_closest] that runs out of fuel is never taken when
    the fuel covers the indices that are not selected yet: one more unit of
    fuel gives the same result. *)
Lemma defrag_closest_fuel (fuel : nat) (utxos : list (string * Z))
    (sorted_utxos : list entry) (target twc : Z)
    (selected_indices : list nat) (picked : str_set) (acc : Z) :
  (length (filter (fun i => negb (nat_mem i selected_indices))
             (map fst sorted_utxos)) <= fuel)%nat ->
  defrag_closest (S fuel) utxos sorted_utxos target twc selected_indices
    picked acc
  = defrag_closest fuel utxos sorted_utxos target twc selected_indices picked
      acc.
Proof.
  revert selected_indices picked acc.
  induction fuel as [|fuel IH]; intros selidx picked acc Hlen.
  - cbn [defrag_closest].
    destruct (filter _ (map fst sorted_utxos)) as [|i l] eqn:E;
      [reflexivity|simpl in Hlen; lia].
  - remember (S fuel) as n eqn:En. cbn [defrag_closest]. subst n.
    cbn [defrag_closest].
    destruct (acc <? twc); [|reflexivity].
    destruct (acc =? target); [reflexivity|].
    destruct (min_by _ _) as [i|] eqn:Emin; [|reflexivity].
    destruct (utxo_at utxos i) as [id a].
    apply IH. apply min_by_In in Emin.
    apply candidates_shrink in Emin. lia.
Qed.

Lemma defragmentation_fuel (utxos : list (string * Z)) (target twc : Z)
    (selected_indices : list nat) (picked : str_set) (acc : Z) :
  defrag_closest (S (length utxos)) utxos (sorted_by_amount (enumerate utxos))
    target twc selected_indices picked acc
  = defrag_closest (length utxos) utxos (sorted_by_amount (enumerate utxos))
      target twc selected_indices picked acc.
Proof.
  apply defrag_closest_fuel.
  etransitivity; [apply filter_length_le|].
  rewrite length_map, (Permutation_length (sorted_by_amount_perm _)).
  unfold enumerate. generalize 0%nat.
  induction utxos as [|x l IH]; intros n; simpl; [lia|].
  specialize (IH (S n)). lia.
Qed.

(** ** The selection for one coin *)

Lemma filter_keys_NoDup {V : Type} (f : string * V -> bool) (m : dict V) :
  NoDup (dict_keys m) -> NoDup (dict_keys (filter f m)).
Proof.
  induction m as [|[k v] m IH]; intros H; simpl; [constructor|].
  simpl in H. inversion H as [|? ? Hn Hnd]; subst.
  destruct (f (k, v)); simpl; [|now apply IH].
  constructor; [|now apply IH].
  intros Hin. apply Hn. unfold dict_keys in *. apply in_map_iff in Hin.
  destruct Hin as (kv & <- & Hkv). apply filter_In in Hkv.
  now apply in_map.
Qed.

Section PerCoin.
Variable set_iter : str_set -> list string.
Hypothesis set_iter_perm : forall s, Permutation (set_iter s) s.

(** The accumulated amount of the selection for one coin is covered by the
    amounts that the identities selected before and the identities it
    returns hold of that coin; the target counts as met only on an exact
    match or with the target with change reached. *)
Lemma select_per_coin_bound (m : dict Z) (target twc : Z)
    (already selected : str_set) (acc : Z) (met : bool) :
  NoDup already -> NoDup (dict_keys m) ->
  (forall k v, In (k, v) m -> 0 <= v) ->
  select_per_coin_outcome set_iter m target twc already
  = (selected, acc, met) ->
  acc <= dict_sum (fun i => str_mem i already || str_mem i selected) m
  /\ (met = true -> acc = target \/ acc >= twc).
Proof.
  intros Hal Hm Hpos. unfold select_per_coin_outcome,
    _pick_coins_from_already_selected_utxos.
  destruct (pick_already_loop m (set_iter already) target twc [] 0)
    as [[p1 a1] m1] eqn:E1.
  pose proof (pick_already_loop_picked m (set_iter already) target twc [] 0)
    as Hp. rewrite E1 in Hp. simpl in Hp. subst p1.
  apply pick_already_loop_bound in E1; try assumption.
  2:{ apply (Permutation_NoDup (Permutation_sym (set_iter_perm already))).
      exact Hal. }
  destruct E1 as [Ha1 Hm1].
  rewrite (dict_sum_ext (fun i => str_mem i (set_iter already))
             (fun i => str_mem i already)) in Ha1.
  2:{ intros k _. apply eq_true_iff_eq. rewrite !str_mem_In.
      split; apply Permutation_in;
        [apply set_iter_perm|apply Permutation_sym, set_iter_perm]. }
  destruct m1; simpl.
  - intros [= <- <- <-]. split; [|exact Hm1].
    rewrite dict_sum_split.
    assert (0 <= dict_sum (fun k => negb (str_mem k already)
                                    && str_mem k []) m).
    { rewrite (dict_sum_ext _ (fun _ => false))
        by (intros; apply andb_false_r).
      clear. induction m as [|[k v] m IH]; simpl; lia. }
    lia.
  - destruct (_pick_utxos_with_defragmentation _ target twc a1)
      as [[p2 a2] m2] eqn:E2.
    intros [= <- <- <-].
    apply defragmentation_bound in E2; [|now apply filter_keys_NoDup].
    destruct E2 as [Ha2 Hm2]. split; [|exact Hm2].
    rewrite (dict_sum_filter (fun i => str_mem i p2)
               (fun k => negb (str_mem k already)) m) in Ha2.
    rewrite dict_sum_split.
    rewrite (dict_sum_ext
               (fun k => negb (str_mem k already)
                         && str_mem k (str_update [] p2))
               (fun k => negb (str_mem k already) && str_mem k p2))
      by (intros; now rewrite str_mem_update_nil).
    lia.
Qed.
End PerCoin.

(** ** Amounts of the rows and amounts of the mapping by coin and identity *)

Lemma coin_and_id_step_inner (c : string) (db : dict (dict Z)) (r : UTXOData) :
  get_or_empty c (coin_and_id_step db r)
  = if String.eqb (utxo_coin r) c
    then dict_set (utxo_id r) (utxo_amount r) (get_or_empty c db)
    else get_or_empty c db.
Proof.
  unfold coin_and_id_step, get_or_empty.
  destruct (String.eqb_spec (utxo_coin r) c) as [<-|Hne].
  - destruct (dict_get (utxo_coin r) db) as [m|] eqn:Em;
      now rewrite dict_get_set_eq.
  - destruct (dict_get (utxo_coin r) db) as [m|] eqn:Em;
      now rewrite dict_get_set_neq by congruence.
Qed.

Lemma coin_and_id_values (c : string) (rows : list UTXOData) (i : string)
    (a : Z) :
  In (i, a) (get_or_empty c (_organize_utxos_by_coin_and_id rows)) ->
  exists r, In r rows /\ utxo_coin r = c /\ utxo_id r = i
            /\ utxo_amount r = a.
Proof.
  intros H. apply dict_get_NoDup_In in H; [|apply coin_and_id_inner_NoDup].
  rewrite coin_and_id_lookup in H. now apply last_amount_some.
Qed.

Lemma coin_and_id_sum_le (P : string -> bool) (c : string)
    (rows : list UTXOData) :
  (forall r, In r rows -> 0 <= utxo_amount r) ->
  dict_sum P (get_or_empty c (_organize_utxos_by_coin_and_id rows))
  <= total_amount
       (filter (fun r => String.eqb (utxo_coin r) c && P (utxo_id r)) rows).
Proof.
  induction rows as [|r rows IH] using rev_ind; intros Hpos.
  - cbn. lia.
  - assert (Hpos' : forall r', In r' rows -> 0 <= utxo_amount r').
    { intros r' Hr'. apply Hpos. apply in_app_iff. now left. }
    specialize (IH Hpos').
    unfold _organize_utxos_by_coin_and_id. rewrite fold_left_app. simpl.
    fold (_organize_utxos_by_coin_and_id rows).
    rewrite coin_and_id_step_inner, filter_app, total_amount_app. simpl.
    destruct (String.eqb (utxo_coin r) c); simpl.
    + pose proof (dict_sum_set_le P (utxo_id r) (utxo_amount r)
                    (get_or_empty c (_organize_utxos_by_coin_and_id rows)))
        as Hset.
      assert (Hvals : forall k v,
                 In (k, v) (get_or_empty c
                              (_organize_utxos_by_coin_and_id rows)) ->
                 0 <= v).
      { intros k v Hkv. apply coin_and_id_values in Hkv.
        destruct Hkv as (r' & Hr' & _ & _ & <-). now apply Hpos'. }
      specialize (Hset Hvals).
      destruct (P (utxo_id r)).
      * rewrite total_amount_cons, total_amount_nil.
        change (amount r) with (utxo_amount r). lia.
      * rewrite total_amount_nil. lia.
    + rewrite total_amount_nil. lia.
Qed.

(** ** The dust floor of the change of the base coin *)

Lemma total_amount_filter_perm {A : Type} `{CoinRecord A} (f : A -> bool)
    (l1 l2 : list A) :
  Permutation l1 l2 -> total_amount (filter f l1) = total_amount (filter f l2).
Proof.
  induction 1 as [|x l1 l2 Hp IH|x y l|l1 l2 l3 Hp1 IH1 Hp2 IH2].
  - reflexivity.
  - simpl. destruct (f x); rewrite ?total_amount_cons; lia.
  - simpl. destruct (f x), (f y); rewrite ?total_amount_cons; lia.
  - lia.
Qed.

Section DustFloor.
Variable set_iter : str_set -> list string.
Hypothesis set_iter_perm : forall s, Permutation (set_iter s) s.

Variables (txins_by_coin_and_id : dict (dict Z))
          (txouts_passed_db txouts_mint_db : dict (list TxOut))
          (fee : Z) (withdrawals : list TxOut)
          (min_change_value deposit treasury_donation : Z).

Lemma select_coin_NoDup (state : str_set * list LogRecord) (c : string) :
  NoDup (fst state) ->
  NoDup (fst (select_coin set_iter txins_by_coin_and_id txouts_passed_db
                txouts_mint_db fee withdrawals min_change_value deposit
                treasury_donation state c)).
Proof.
  destruct state as [ids logs]. simpl. intros Hnd. unfold select_coin.
  assert (Hsel : forall needed twc,
             NoDup (fst (if nonzero needed
                         then let '(selected, warnings) :=
                                _select_utxos_per_coin set_iter
                                  (get_or_empty c txins_by_coin_and_id) c
                                  needed twc ids in
                              (str_update ids selected, logs ++ warnings)
                         else (ids, logs)))).
  { intros needed twc. destruct (nonzero needed); [|exact Hnd].
    destruct (_select_utxos_per_coin _ _ _ _ _ _) as [sel warns]. simpl.
    now apply str_update_NoDup. }
  destruct (String.eqb c DEFAULT_COIN).
  - destruct (send_all_indices _); [apply Hsel|].
    simpl. now apply str_update_NoDup.
  - apply Hsel.
Qed.

Lemma select_loop_NoDup (coins : list string)
    (state : str_set * list LogRecord) :
  NoDup (fst state) ->
  NoDup (fst (select_loop set_iter txins_by_coin_and_id txouts_passed_db
                txouts_mint_db fee withdrawals min_change_value deposit
                treasury_donation coins state)).
Proof.
  unfold select_loop. revert state.
  induction coins as [|c coins IH]; intros state Hnd; simpl; [exact Hnd|].
  apply IH. now apply select_coin_NoDup.
Qed.

(** The round of the base coin without a send-all mark. *)
Lemma select_coin_base_plain (utxo_ids : str_set) (logs : list LogRecord) :
  send_all_indices (get_or_nil DEFAULT_COIN txouts_passed_db) = [] ->
  let target :=
    Z.max (total_amount (get_or_nil DEFAULT_COIN txouts_passed_db)
           + Z.max 1 fee + deposit + treasury_donation
           - total_amount withdrawals)
          (Z.max 1 fee) in
  fst (select_coin set_iter txins_by_coin_and_id txouts_passed_db
         txouts_mint_db fee withdrawals min_change_value deposit
         treasury_donation (utxo_ids, logs) DEFAULT_COIN)
  = str_update utxo_ids
      (fst (fst (select_per_coin_outcome set_iter
                   (get_or_empty DEFAULT_COIN txins_by_coin_and_id) target
                   (target + min_change_value) utxo_ids))).
Proof.
  intros Hno target. unfold select_coin. rewrite String.eqb_refl, Hno.
  fold target.
  assert (Hnz : nonzero target = true).
  { unfold nonzero. apply negb_true_iff, Z.eqb_neq. unfold target. lia. }
  rewrite Hnz. unfold _select_utxos_per_coin.
  now destruct (select_per_coin_outcome _ _ _ _ _) as [[sel acc] met].
Qed.
End DustFloor.

Section DustFloorClaim.
Variable set_iter : str_set -> list string.
Hypothesis set_iter_perm : forall s, Permutation (set_iter s) s.

(** C4 (as amended). The inputs are selected by the engine among candidate
    rows of non-negative amounts, and no requested output of the base coin
    carries the send-all mark. When the selection for the base coin, at its
    turn in the loop over the coins, ends with its target met and with an
    accumulated amount other than the target (no exact match), the change
    that the balancer computes for the base coin on the selected inputs is
    at least [min_change_value]. *)
Theorem base_change_clears_dust_floor :
  forall (candidates : list UTXOData)
         (txouts_passed_db txouts_mint_db : dict (list TxOut))
         (fee : Z) (withdrawals : list TxOut)
         (min_change_value deposit treasury_donation : Z)
         (pre post : list string) (picked : str_set) (accumulated : Z),
    let txins_by_coin_and_id := _organize_utxos_by_coin_and_id candidates in
    let target :=
      Z.max (total_amount (get_or_nil DEFAULT_COIN txouts_passed_db)
             + Z.max 1 fee + deposit + treasury_donation
             - total_amount withdrawals)
            (Z.max 1 fee) in
    let selected_before :=
      fst (select_loop set_iter txins_by_coin_and_id txouts_passed_db
             txouts_mint_db fee withdrawals min_change_value deposit
             treasury_donation pre ([], [])) in
    let selected_utxo_ids :=
      fst (_select_utxos set_iter txins_by_coin_and_id txouts_passed_db
             txouts_mint_db fee withdrawals min_change_value deposit
             treasury_donation) in
    let txins_filtered :=
      concat (map snd
                (filter (fun kv => str_mem (fst kv) selected_utxo_ids)
                        (_organize_utxos_by_id candidates))) in
    set_iter (coin_union (dict_keys txins_by_coin_and_id)
                (dict_keys txouts_passed_db) (dict_keys txouts_mint_db))
    = pre ++ DEFAULT_COIN :: post ->
    (forall r, In r candidates -> 0 <= utxo_amount r) ->
    (forall r, In r (get_or_nil DEFAULT_COIN txouts_passed_db) ->
               txout_amount r <> -1) ->
    select_per_coin_outcome set_iter
      (get_or_empty DEFAULT_COIN txins_by_coin_and_id) target
      (target + min_change_value) selected_before
    = (picked, accumulated, true) ->
    accumulated <> target ->
    exists change,
      snd (balance_coin (_organize_tx_ins_outs_by_coin txins_filtered)
             txouts_passed_db txouts_mint_db fee withdrawals deposit
             treasury_donation DEFAULT_COIN)
      = Return (None, change)
      /\ min_change_value <= change.
Proof.
  intros candidates passed mint fee w mcv dep don pre post picked acc
         db target ids0 selected txins_filtered Hcoins Hpos Hno Hout Hne.
  pose proof (proj2 (send_all_indices_nil _) Hno) as Hs.
  rewrite (balance_coin_base_plain _ _ _ _ _ _ _ Hs). cbn [snd].
  eexists. split; [reflexivity|].
  rewrite organize_by_coin_get.
  set (m := get_or_empty DEFAULT_COIN db) in *.
  (* the accumulated amount is covered by the selected identities *)
  assert (Hids0 : NoDup ids0).
  { apply select_loop_NoDup. constructor. }
  assert (Hvals : forall k v, In (k, v) m -> 0 <= v).
  { intros k v Hkv. apply coin_and_id_values in Hkv.
    destruct Hkv as (r & Hr & _ & _ & <-). now apply Hpos. }
  destruct (select_per_coin_bound set_iter set_iter_perm m target
              (target + mcv) ids0 picked acc true Hids0
              (coin_and_id_inner_NoDup _ _) Hvals Hout) as [Hacc Hmet].
  assert (Hsub : forall i, str_mem i ids0 || str_mem i picked = true ->
                           str_mem i selected = true).
  { intros i Hi. apply str_mem_In. unfold selected, _select_utxos.
    rewrite Hcoins.
    change (pre ++ DEFAULT_COIN :: post)
      with (pre ++ [DEFAULT_COIN] ++ post).
    rewrite !select_loop_app. apply select_loop_keeps.
    change (select_loop set_iter db passed mint fee w mcv dep don
              [DEFAULT_COIN]
              (select_loop set_iter db passed mint fee w mcv dep don pre
                 ([], [])))
      with (select_coin set_iter db passed mint fee w mcv dep don
              (select_loop set_iter db passed mint fee w mcv dep don pre
                 ([], [])) DEFAULT_COIN).
    rewrite (surjective_pairing
               (select_loop set_iter db passed mint fee w mcv dep don pre
                  ([], []))).
    fold ids0.
    rewrite (select_coin_base_plain set_iter db passed mint fee w mcv dep don
               ids0 _ Hs).
    fold target. fold m. rewrite Hout. cbn [fst].
    apply str_update_In. apply orb_true_iff in Hi.
    rewrite !str_mem_In in Hi. exact Hi. }
  pose proof (dict_sum_mono _ (fun i => str_mem i selected) m Hvals Hsub)
    as Hmono.
  pose proof (coin_and_id_sum_le (fun i => str_mem i selected) DEFAULT_COIN
                candidates Hpos) as Hrows.
  fold db in Hrows. fold m in Hrows.
  assert (Hin : total_amount
                  (filter (fun r => String.eqb (coin r) DEFAULT_COIN)
                          txins_filtered)
                = total_amount
                    (filter (fun r => String.eqb (utxo_coin r) DEFAULT_COIN
                                      && str_mem (utxo_id r) selected)
                            candidates)).
  { unfold txins_filtered.
    rewrite (total_amount_filter_perm _ _ _
               (organize_by_id_filter_perm (fun i => str_mem i selected)
                  candidates)).
    rewrite filter_comm. f_equal.
    symmetry. apply filter_andb. }
  rewrite Hin.
  destruct (Hmet eq_refl) as [Heq|Hge]; [contradiction|].
  unfold target in *. lia.
Qed.
End DustFloorClaim.

Lemma base_change_clears_dust_floor_witness :
  exists change,
    snd (balance_coin
           (_organize_tx_ins_outs_by_coin [row "a" 0 5000000 "S" DEFAULT_COIN])
           (_organize_tx_ins_outs_by_coin [mkTxOut "X" 1000000 DEFAULT_COIN])
           [] 200000 [] 0 0 DEFAULT_COIN)
    = Return (None, change)
    /\ 1000000 <= change.
Proof.
  refine (base_change_clears_dust_floor list_order
            (fun s => Permutation_refl s)
            [row "a" 0 5000000 "S" DEFAULT_COIN]
            (_organize_tx_ins_outs_by_coin [mkTxOut "X" 1000000 DEFAULT_COIN])
            [] 200000 [] 1000000 0 0 [] [] ["a#0"%string] 5000000
            _ _ _ _ _).
  - reflexivity.
  - intros r [<-|[]]. simpl. lia.
  - intros r H. vm_compute in H. destruct H as [<-|[]]. simpl. lia.
  - reflexivity.
  - vm_compute. discriminate.
Defined.

(** C4, the claim as stated fails: one candidate of 1500000 against an
    output of 1000000, a fee of 200000 and a dust floor of 1000000. The
    target is 1200000 and the target with change 2200000; the selection
    takes the only candidate and ends with its target not met (it logs the
    warning), on no exact match. The full build returns a change output of
    300000, positive and below the dust floor. *)
Lemma unmet_selection_leaves_dust_change :
  select_per_coin_outcome list_order
    (get_or_empty DEFAULT_COIN
       (_organize_utxos_by_coin_and_id
          [row "a" 0 1500000 "S" DEFAULT_COIN]))
    1200000 2200000 []
  = (["a#0"%string], 1500000, false)
  /\ _get_tx_ins_outs list_order
       (cluster [row "a" 0 1500000 "S" DEFAULT_COIN] 1000000) "S" []
       [mkTxOut "X" 1000000 DEFAULT_COIN] 200000 (Some 0) None [] [] None
       false
     = ([Warning_target_not_met 1200000 DEFAULT_COIN],
        Return ([row "a" 0 1500000 "S" DEFAULT_COIN],
                [mkTxOut "X" 1000000 DEFAULT_COIN;
                 mkTxOut "S" 300000 DEFAULT_COIN]))
  /\ 0 < 300000 < 1000000.
Proof. repeat split; try reflexivity; lia. Qed.

(** * Further properties *)

(** ** The usable candidates, in full *)

Lemma filter_disjoint_perm {A : Type} (f g : A -> bool) (l : list A) :
  (forall x, In x l -> f x = true -> g x = false) ->
  Permutation (filter (fun x => f x || g x) l) (filter f l ++ filter g l).
Proof.
  induction l as [|x l IH]; intros H; simpl; [reflexivity|].
  assert (IH' : Permutation (filter (fun x => f x || g x) l)
                  (filter f l ++ filter g l))
    by (apply IH; intros y Hy; apply H; now right).
  destruct (f x) eqn:Ef; simpl.
  - rewrite (H x (or_introl eq_refl) Ef). now apply perm_skip.
  - destruct (g x); [|exact IH'].
    rewrite IH'. apply Permutation_middle.
Qed.

Lemma rows_of_seen_perm (rows : list UTXOData) (seen_ids : str_set) :
  NoDup seen_ids ->
  Permutation
    (concat (map (fun i => filter (fun r => String.eqb (utxo_id r) i) rows)
                 seen_ids))
    (filter (fun r => str_mem (utxo_id r) seen_ids) rows).
Proof.
  induction seen_ids as [|i s IH]; intros Hnd.
  - simpl. rewrite filter_none; [reflexivity|]. intros r _. reflexivity.
  - inversion Hnd as [|? ? Hn Hnd']; subst. simpl concat.
    rewrite (IH Hnd').
    rewrite (filter_ext (fun r => str_mem (utxo_id r) (i :: s))
               (fun r => String.eqb (utxo_id r) i || str_mem (utxo_id r) s))
      by (intros; apply str_mem_cons).
    symmetry. apply filter_disjoint_perm.
    intros r _ E. apply String.eqb_eq in E. rewrite E.
    now apply str_mem_false.
Qed.

Lemma str_add_absent (x : string) (s : str_set) :
  ~ In x s -> str_add x s = s ++ [x].
Proof.
  unfold str_add. induction s as [|y s IH]; intros H; simpl; [reflexivity|].
  destruct (string_dec x y) as [->|Hne]; [exfalso; apply H; now left|].
  rewrite IH; [reflexivity|]. intros Hin. apply H. now right.
Qed.

Lemma usable_step_state (rows seen_rows : list UTXOData) (coins : str_set)
    (state : list UTXOData * str_set * bool) (rec : UTXOData) :
  usable_state rows seen_rows coins state ->
  usable_state rows (seen_rows ++ [rec]) coins
    (usable_step (_organize_utxos_by_id rows) coins state rec).
Proof.
  destruct state as [[txins seen] m].
  intros (Hnd & Hseen & Htx & Hm & Hflag). unfold usable_step.
  assert (Hold : forall i,
             (exists r0, In r0 seen_rows /\ utxo_id r0 = i
                         /\ opens_utxo coins r0 = true) ->
             exists r0, In r0 (seen_rows ++ [rec]) /\ utxo_id r0 = i
                        /\ opens_utxo coins r0 = true).
  { intros i (r0 & H1 & H2). exists r0. split; [|exact H2].
    apply in_app_iff. now left. }
  destruct (str_mem (utxo_coin rec) coins) eqn:Ec; cbn [andb].
  - destruct (str_mem (utxo_id rec) seen) eqn:Es; cbn [negb].
    + (* the identity was seen before *)
      repeat split; try assumption.
      * intros Hi. apply Hold. now apply Hseen.
      * intros (r0 & H1 & H2 & H3). apply in_app_iff in H1.
        destruct H1 as [H1|[<-|[]]].
        -- apply Hseen. now exists r0.
        -- rewrite <- H2. now apply str_mem_In.
      * intros Ht. destruct (Hm Ht) as (r & H1 & H2). exists r.
        split; [apply in_app_iff; now left|exact H2].
      * intros r Hr Hrc Hrd. apply in_app_iff in Hr.
        destruct Hr as [Hr|[<-|[]]]; [now apply Hflag|].
        right. now apply str_mem_In.
    + apply str_mem_false in Es. destruct (has_datum rec) eqn:Ed.
      * (* a row with a datum raises the flag *)
        repeat split; try assumption.
        -- intros Hi. apply Hold. now apply Hseen.
        -- intros (r0 & H1 & H2 & H3). apply in_app_iff in H1.
           destruct H1 as [H1|[<-|[]]].
           ++ apply Hseen. now exists r0.
           ++ unfold opens_utxo in H3. rewrite Ed, andb_false_r in H3.
              discriminate.
        -- intros _. exists rec. split; [|now split].
           apply in_app_iff. right. now left.
        -- intros r Hr Hrc Hrd. now left.
      * (* the row lets its identity in *)
        split; [|split; [|split; [|split]]].
        -- apply str_add_NoDup. exact Hnd.
        -- intros i. rewrite str_add_In. split.
           ++ intros [->|Hi].
              ** exists rec. split; [apply in_app_iff; right; now left|].
                 split; [reflexivity|]. unfold opens_utxo. now rewrite Ec, Ed.
              ** apply Hold. now apply Hseen.
           ++ intros (r0 & H1 & H2 & H3). apply in_app_iff in H1.
              destruct H1 as [H1|[<-|[]]].
              ** right. apply Hseen. now exists r0.
              ** now left.
        -- rewrite str_add_absent by exact Es.
           rewrite map_app, concat_app. simpl. rewrite app_nil_r.
           rewrite organize_by_id_get. now rewrite Htx.
        -- intros Ht. destruct (Hm Ht) as (r & H1 & H2). exists r.
           split; [apply in_app_iff; now left|exact H2].
        -- intros r Hr Hrc Hrd. apply in_app_iff in Hr.
           destruct Hr as [Hr|[<-|[]]]; [|congruence].
           destruct (Hflag r Hr Hrc Hrd) as [H|H]; [now left|right].
           apply str_add_In. now right.
  - (* the row holds no required coin *)
    repeat split; try assumption.
    + intros Hi. apply Hold. now apply Hseen.
    + intros (r0 & H1 & H2 & H3). apply in_app_iff in H1.
      destruct H1 as [H1|[<-|[]]].
      * apply Hseen. now exists r0.
      * unfold opens_utxo in H3. rewrite Ec in H3. discriminate.
    + intros Ht. destruct (Hm Ht) as (r & H1 & H2). exists r.
      split; [apply in_app_iff; now left|exact H2].
    + intros r Hr Hrc Hrd. apply in_app_iff in Hr.
      destruct Hr as [Hr|[<-|[]]]; [now apply Hflag|congruence].
Qed.

Lemma usable_fold_state (rows : list UTXOData) (coins : str_set)
    (todo seen_rows : list UTXOData)
    (state : list UTXOData * str_set * bool) :
  usable_state rows seen_rows coins state ->
  usable_state rows (seen_rows ++ todo) coins
    (fold_left (usable_step (_organize_utxos_by_id rows) coins) todo state).
Proof.
  revert seen_rows state.
  induction todo as [|rec todo IH]; intros seen_rows state Hst.
  - now rewrite app_nil_r.
  - simpl. replace (seen_rows ++ rec :: todo)
      with ((seen_rows ++ [rec]) ++ todo) by now rewrite <- app_assoc.
    apply IH. now apply usable_step_state.
Qed.

(** X1. [_get_usable_utxos] returns, up to the order, the rows of every
    unspent output that has a row without a datum holding a required coin,
    each row once, the other coins of those outputs included. It raises only
    when no output is let in while some row with a datum holds a required
    coin, and it returns the empty list only when no row holds a required
    coin. *)
Theorem get_usable_utxos_result :
  forall (address_utxos : list UTXOData) (coins : str_set),
    match _get_usable_utxos address_utxos coins with
    | Return txins =>
        Permutation txins
          (filter (fun r => utxo_is_usable address_utxos coins (utxo_id r))
                  address_utxos)
        /\ (txins = [] ->
            forall r, In r address_utxos ->
                      str_mem (utxo_coin r) coins = false)
    | Raise e =>
        e = CLIError Only_matching_utxos_have_datum
        /\ (forall r, In r address_utxos -> opens_utxo coins r = false)
        /\ exists r, In r address_utxos
                     /\ str_mem (utxo_coin r) coins = true
                     /\ has_datum r = true
    end.
Proof.
  intros rows coins. unfold _get_usable_utxos.
  assert (Hinit : usable_state rows [] coins ([], [], false)).
  { split; [constructor|].
    split; [intros i; split; [intros []|intros (r0 & [] & _)]|].
    split; [reflexivity|]. split; [discriminate|intros r []]. }
  pose proof (usable_fold_state rows coins rows [] ([], [], false) Hinit)
    as Hst.
  simpl app in Hst.
  destruct (fold_left (usable_step (_organize_utxos_by_id rows) coins) rows
              ([], [], false)) as [[txins seen] m].
  destruct Hst as (Hnd & Hseen & Htx & Hm & Hflag).
  assert (Hperm : Permutation txins
                    (filter (fun r => utxo_is_usable rows coins (utxo_id r))
                            rows)).
  { rewrite Htx, (rows_of_seen_perm rows seen Hnd).
    rewrite (filter_ext_in (fun r => str_mem (utxo_id r) seen)
               (fun r => utxo_is_usable rows coins (utxo_id r)));
      [reflexivity|].
    intros r _. apply eq_true_iff_eq. rewrite str_mem_In, Hseen.
    unfold utxo_is_usable. rewrite existsb_exists. split.
    - intros (r0 & H1 & H2 & H3). exists r0. split; [exact H1|].
      now rewrite H2, String.eqb_refl.
    - intros (r0 & H1 & H2). apply andb_true_iff in H2.
      destruct H2 as [H2 H3]. apply String.eqb_eq in H2. now exists r0. }
  assert (Hempty : txins = [] -> seen = []).
  { intros ->. destruct seen as [|i s]; [reflexivity|exfalso].
    destruct (proj1 (Hseen i) (or_introl eq_refl)) as (r0 & H1 & H2 & H3).
    simpl in Htx. rewrite <- H2 in Htx.
    assert (Hin : In r0 (filter (fun r => String.eqb (utxo_id r) (utxo_id r0))
                                rows)).
    { apply filter_In. split; [exact H1|apply String.eqb_refl]. }
    destruct (filter _ rows); [destruct Hin|discriminate]. }
  assert (Hnone : seen = [] ->
                  forall r, In r rows -> opens_utxo coins r = false).
  { intros -> r Hr. destruct (opens_utxo coins r) eqn:E; [|reflexivity].
    exfalso. apply (proj2 (Hseen (utxo_id r))). now exists r. }
  destruct txins as [|t ts].
  - destruct m.
    + split; [reflexivity|]. split; [now apply Hnone, Hempty|].
      now apply Hm.
    + split; [exact Hperm|]. intros _ r Hr.
      destruct (str_mem (utxo_coin r) coins) eqn:Ec; [exfalso|reflexivity].
      pose proof (Hnone (Hempty eq_refl) r Hr) as Ho.
      unfold opens_utxo in Ho. rewrite Ec in Ho. simpl in Ho.
      apply negb_false_iff in Ho.
      destruct (Hflag r Hr Ec Ho) as [H|H]; [discriminate|].
      rewrite (Hempty eq_refl) in H. destruct H.
  - split; [exact Hperm|]. discriminate.
Qed.

(** ** What the defragmentation phase returns *)

Lemma min_by_None {A : Type} (key : A -> Z) (l : list A) :
  min_by key l = None -> l = [].
Proof.
  destruct l as [|x l]; [reflexivity|]. simpl.
  destruct (min_by key l) as [y|]; [destruct (key y <? key x)|]; discriminate.
Qed.

Lemma dict_sum_perm (P : string -> bool) (m1 m2 : dict Z) :
  Permutation m1 m2 -> dict_sum P m1 = dict_sum P m2.
Proof.
  induction 1 as [|[k v] l1 l2 Hp IH|[k1 v1] [k2 v2] l|l1 l2 l3 H1 IH1 H2 IH2];
    simpl; lia.
Qed.

Lemma utxo_at_seq (utxos : list (string * Z)) :
  map (utxo_at utxos) (seq 0 (length utxos)) = utxos.
Proof.
  apply (nth_ext _ _ (EmptyString, 0) (EmptyString, 0)).
  - now rewrite length_map, length_seq.
  - intros i Hi. rewrite length_map, length_seq in Hi.
    rewrite (nth_indep _ (EmptyString, 0) (utxo_at utxos 0%nat))
      by now rewrite length_map, length_seq.
    rewrite (map_nth (utxo_at utxos)), seq_nth by assumption. reflexivity.
Qed.

Lemma enumerate_from_length {A : Type} (n : nat) (l : list A) :
  length (enumerate_from n l) = length l.
Proof.
  revert n. induction l as [|x l IH]; intros n; simpl; [reflexivity|].
  now rewrite IH.
Qed.

Section DefragTrace.
Variables (utxos : list (string * Z)) (acc0 target twc : Z).

Lemma defrag_trace_select (selected_indices : list nat) (picked : str_set)
    (acc : Z) (i : nat) (id : string) (a : Z) :
  (i < length utxos)%nat -> ~ In i selected_indices ->
  utxo_at utxos i = (id, a) ->
  defrag_trace utxos acc0 (selected_indices, picked, acc) ->
  defrag_trace utxos acc0 (i :: selected_indices, str_add id picked, acc + a).
Proof.
  intros Hi Hsel Hat (Hnd & Hlt & Hacc & Hpick).
  split; [now constructor|]. split; [|split].
  - intros j [<-|Hj]; [exact Hi|now apply Hlt].
  - simpl. rewrite Hat. simpl. lia.
  - intros k. rewrite str_add_In, Hpick. split.
    + intros [->|(j & Hj & Hk)].
      * exists i. split; [now left|now rewrite Hat].
      * exists j. split; [now right|exact Hk].
    + intros (j & [<-|Hj] & Hk).
      * left. now rewrite Hat in Hk.
      * right. now exists j.
Qed.

Lemma defrag_smallest_trace (entries : list entry)
    (selected_indices : list nat) (picked : str_set) (acc : Z) :
  (forall i id a, In (i, (id, a)) entries ->
                  (i < length utxos)%nat /\ utxo_at utxos i = (id, a)) ->
  NoDup (map fst entries) ->
  (forall i, In i (map fst entries) -> ~ In i selected_indices) ->
  defrag_trace utxos acc0 (selected_indices, picked, acc) ->
  match defrag_smallest entries target twc selected_indices picked acc with
  | inl state => defrag_trace utxos acc0 state
  | inr (picked', acc', met) =>
      (exists selected', defrag_trace utxos acc0 (selected', picked', acc'))
      /\ met = true /\ (acc' = target \/ acc' >= twc)
  end.
Proof.
  revert selected_indices picked acc.
  induction entries as [|[i [id a]] entries IH];
    intros selidx picked acc Hvalid Hnd Hdisj Htr; [exact Htr|].
  cbn [defrag_smallest].
  destruct (Hvalid i id a (or_introl eq_refl)) as [Hi Hat].
  assert (Htr' : defrag_trace utxos acc0
                   (i :: selidx, str_add id picked, acc + a)).
  { apply defrag_trace_select; try assumption. apply Hdisj. now left. }
  destruct (Z.eqb_spec (acc + a) target) as [E1|E1].
  { split; [now exists (i :: selidx)|split; [reflexivity|now left]]. }
  destruct (acc + a >=? twc) eqn:E2.
  { split; [now exists (i :: selidx)|split; [reflexivity|right]].
    apply Z.geb_le in E2. lia. }
  simpl in Hnd. inversion Hnd as [|? ? Hn Hnd']; subst.
  apply IH; try assumption.
  - intros j jd ja Hj. apply Hvalid. now right.
  - intros j Hj [<-|Hin]; [contradiction|].
    apply (Hdisj j); [now right|exact Hin].
Qed.

Lemma defrag_closest_trace (fuel : nat) (sorted_utxos : list entry)
    (selected_indices : list nat) (picked : str_set) (acc : Z) :
  (forall i, In i (map fst sorted_utxos) <-> (i < length utxos)%nat) ->
  (length (filter (fun i => negb (nat_mem i selected_indices))
             (map fst sorted_utxos)) <= fuel)%nat ->
  defrag_trace utxos acc0 (selected_indices, picked, acc) ->
  let '(picked', acc', met) :=
    defrag_closest fuel utxos sorted_utxos target twc selected_indices picked
      acc in
  exists selected',
    defrag_trace utxos acc0 (selected', picked', acc')
    /\ (met = true -> acc' = target \/ acc' >= twc)
    /\ (met = false ->
        (forall i, (i < length utxos)%nat -> In i selected')
        /\ acc' < twc /\ acc' <> target).
Proof.
  intros Hvalid. revert selected_indices picked acc.
  induction fuel as [|fuel IH]; intros selidx picked acc Hfuel Htr;
    cbn [defrag_closest].
  - destruct (acc <? twc) eqn:E1.
    + destruct (Z.eqb_spec acc target) as [E2|E2].
      * exists selidx. split; [exact Htr|]. split; [now left|discriminate].
      * destruct (filter _ (map fst sorted_utxos)) as [|i l] eqn:Ef;
          [|simpl in Hfuel; lia].
        simpl. exists selidx. split; [exact Htr|]. split; [discriminate|].
        intros _. apply Z.ltb_lt in E1. split; [|split; assumption].
        intros i Hi. apply Hvalid in Hi.
        destruct (nat_mem i selidx) eqn:Em; [now apply nat_mem_In|].
        exfalso.
        assert (Hin : In i (filter (fun i => negb (nat_mem i selidx))
                               (map fst sorted_utxos))).
        { apply filter_In. split; [exact Hi|now rewrite Em]. }
        rewrite Ef in Hin. destruct Hin.
    + exists selidx. split; [exact Htr|]. split; [|discriminate].
      intros _. right. apply Z.ltb_ge in E1. lia.
  - destruct (acc <? twc) eqn:E1.
    + destruct (Z.eqb_spec acc target) as [E2|E2].
      * exists selidx. split; [exact Htr|]. split; [now left|discriminate].
      * destruct (min_by _ _) as [i|] eqn:Emin.
        -- pose proof (min_by_In _ _ _ Emin) as Hin.
           pose proof (candidates_shrink _ _ _ Hin) as Hshrink.
           apply filter_In in Hin. destruct Hin as [Hin Hnot].
           destruct (utxo_at utxos i) as [id a] eqn:Hat.
           apply IH; [lia|].
           apply defrag_trace_select; try assumption.
           ++ now apply Hvalid.
           ++ intros H. apply nat_mem_In in H. rewrite H in Hnot.
              discriminate.
        -- apply min_by_None in Emin.
           exists selidx. split; [exact Htr|]. split; [discriminate|].
           intros _. apply Z.ltb_lt in E1. split; [|split; assumption].
           intros i Hi. apply Hvalid in Hi.
           destruct (nat_mem i selidx) eqn:Em; [now apply nat_mem_In|].
           exfalso.
           assert (Hin : In i (filter (fun i => negb (nat_mem i selidx))
                                  (map fst sorted_utxos))).
           { apply filter_In. split; [exact Hi|now rewrite Em]. }
           rewrite Emin in Hin. destruct Hin.
    + exists selidx. split; [exact Htr|]. split; [|discriminate].
      intros _. right. apply Z.ltb_ge in E1. lia.
Qed.

Lemma sorted_indices_cover (i : nat) :
  In i (map fst (sorted_by_amount (enumerate utxos)))
  <-> (i < length utxos)%nat.
Proof.
  pose proof (Permutation_map fst (sorted_by_amount_perm (enumerate utxos)))
    as Hp.
  assert (Hseq : In i (map fst (enumerate utxos)) <-> (i < length utxos)%nat).
  { unfold enumerate. rewrite enumerate_from_fst, in_seq. lia. }
  rewrite <- Hseq. split.
  - apply Permutation_in. exact Hp.
  - apply Permutation_in. now apply Permutation_sym.
Qed.

Lemma sorted_length :
  length (sorted_by_amount (enumerate utxos)) = length utxos.
Proof.
  rewrite (Permutation_length (sorted_by_amount_perm _)).
  apply enumerate_from_length.
Qed.

(** The phase as a whole. *)
Lemma defragmentation_trace (picked : str_set) (acc : Z) (met : bool) :
  _pick_utxos_with_defragmentation utxos target twc acc0 = (picked, acc, met) ->
  exists selected,
    defrag_trace utxos acc0 (selected, picked, acc)
    /\ (met = true -> acc = target \/ acc >= twc)
    /\ (met = false ->
        (forall i, (i < length utxos)%nat -> In i selected)
        /\ acc < twc /\ acc <> target).
Proof.
  unfold _pick_utxos_with_defragmentation.
  set (sorted_utxos := sorted_by_amount (enumerate utxos)).
  assert (Hinit : defrag_trace utxos acc0 ([], [], acc0)).
  { split; [constructor|]. split; [intros i []|]. split; [simpl; lia|].
    intros id. split; [intros []|intros (i & [] & _)]. }
  pose proof (defrag_smallest_trace (firstn 10 sorted_utxos) [] [] acc0) as H1.
  destruct (defrag_smallest (firstn 10 sorted_utxos) target twc [] [] acc0)
    as [[[selidx p1] a1]|[[p1 a1] m1]].
  - intros Hres.
    pose proof (defrag_closest_trace (length utxos) sorted_utxos selidx p1 a1)
      as H2.
    rewrite Hres in H2. apply H2.
    + apply sorted_indices_cover.
    + etransitivity; [apply filter_length_le|].
      rewrite length_map. exact (Nat.eq_le_incl _ _ sorted_length).
    + apply H1; try assumption.
      * intros i id a Hi. apply sorted_entries_valid.
        now apply firstn_In in Hi.
      * rewrite <- firstn_map. apply firstn_NoDup, sorted_indices_NoDup.
      * intros i _ [].
  - intros [= <- <- <-].
    destruct H1 as [[s' Hs'] [Hm Ht]]; try assumption.
    + intros i id a Hi. apply sorted_entries_valid.
      now apply firstn_In in Hi.
    + rewrite <- firstn_map. apply firstn_NoDup, sorted_indices_NoDup.
    + intros i _ [].
    + exists s'. split; [exact Hs'|]. split; [now intros _|].
      rewrite Hm. discriminate.
Qed.
End DefragTrace.

(** X2. The defragmentation phase picks identities of its candidates only.
    When it reports the target as met, the accumulated amount is the target
    exactly or has reached the target with change. When it reports the
    target as not met, every candidate has been picked: the accumulated
    amount is the starting amount plus the amounts of all the candidates,
    still below the target with change and different from the target. *)
Theorem defragmentation_outcome :
  forall (utxos : list (string * Z))
         (target_amount target_with_change accumulated_amount : Z),
    let '(picked_utxos, accumulated, target_met) :=
      _pick_utxos_with_defragmentation utxos target_amount
        target_with_change accumulated_amount in
    (forall id, In id picked_utxos -> In id (map fst utxos))
    /\ (target_met = true ->
        accumulated = target_amount \/ accumulated >= target_with_change)
    /\ (target_met = false ->
        (forall ia, In ia utxos -> In (fst ia) picked_utxos)
        /\ accumulated
           = accumulated_amount + dict_sum (fun _ => true) utxos
        /\ accumulated < target_with_change
        /\ accumulated <> target_amount).
Proof.
  intros utxos target twc acc0.
  destruct (_pick_utxos_with_defragmentation utxos target twc acc0)
    as [[picked acc] met] eqn:E.
  destruct (defragmentation_trace utxos acc0 target twc picked acc met E)
    as (selected & (Hnd & Hlt & Hacc & Hpick) & Hmet & Hunmet).
  split; [|split; [exact Hmet|]].
  - intros id Hid. apply Hpick in Hid. destruct Hid as (i & Hi & <-).
    apply in_map. apply nth_In. now apply Hlt.
  - intros Hf. destruct (Hunmet Hf) as (Hall & Hlt' & Hne).
    split; [|split; [|split; assumption]].
    + intros ia Hia. apply (In_nth _ _ (EmptyString, 0)) in Hia.
      destruct Hia as (i & Hi & <-). apply Hpick. exists i.
      split; [now apply Hall|reflexivity].
    + rewrite Hacc. f_equal.
      rewrite <- (utxo_at_seq utxos) at 2.
      apply dict_sum_perm, Permutation_map.
      apply NoDup_Permutation; [exact Hnd|apply seq_NoDup|].
      intros i. rewrite in_seq. split.
      * intros Hi. apply Hlt in Hi. lia.
      * intros Hi. apply Hall. lia.
Qed.

(** ** The identities that the selection returns *)

Lemma defragmentation_picks_candidates (utxos : list (string * Z))
    (target twc acc0 : Z) (id : string) :
  In id (fst (fst (_pick_utxos_with_defragmentation utxos target twc acc0))) ->
  In id (map fst utxos).
Proof.
  destruct (_pick_utxos_with_defragmentation utxos target twc acc0)
    as [[picked acc] met] eqn:E.
  destruct (defragmentation_trace utxos acc0 target twc picked acc met E)
    as (selected & (_ & Hlt & _ & Hpick) & _).
  simpl. intros Hid. apply Hpick in Hid. destruct Hid as (i & Hi & <-).
  apply in_map, nth_In. now apply Hlt.
Qed.

Lemma select_per_coin_picks_candidates (set_iter : str_set -> list string)
    (m : dict Z) (target twc : Z) (already : str_set) (id : string) :
  In id (fst (fst (select_per_coin_outcome set_iter m target twc already))) ->
  In id (dict_keys m) /\ ~ In id already.
Proof.
  unfold select_per_coin_outcome, _pick_coins_from_already_selected_utxos.
  pose proof (pick_already_loop_picked m (set_iter already) target twc [] 0)
    as Hp.
  destruct (pick_already_loop m (set_iter already) target twc [] 0)
    as [[p1 a1] m1]. simpl in Hp. subst p1.
  destruct m1; simpl; [intros []|].
  pose proof (defragmentation_picks_candidates
                (filter (fun ia => negb (str_mem (fst ia) already)) m)
                target twc a1 id) as Hd.
  destruct (_pick_utxos_with_defragmentation _ target twc a1)
    as [[p2 a2] m2]. simpl in *.
  intros Hid. apply str_update_In in Hid. destruct Hid as [[]|Hid].
  apply Hd in Hid. apply in_map_iff in Hid.
  destruct Hid as ([k v] & <- & Hkv). apply filter_In in Hkv.
  destruct Hkv as [Hkv Hnot]. simpl in *. split.
  - now apply (in_map fst) in Hkv.
  - apply negb_true_iff in Hnot. now apply str_mem_false.
Qed.

Lemma select_coin_adds_candidates (set_iter : str_set -> list string)
    (txins_by_coin_and_id : dict (dict Z))
    (txouts_passed_db txouts_mint_db : dict (list TxOut))
    (fee : Z) (withdrawals : list TxOut)
    (min_change_value deposit treasury_donation : Z)
    (state : str_set * list LogRecord) (c id : string) :
  In id (fst (select_coin set_iter txins_by_coin_and_id txouts_passed_db
                txouts_mint_db fee withdrawals min_change_value deposit
                treasury_donation state c)) ->
  In id (fst state)
  \/ In id (dict_keys (get_or_empty c txins_by_coin_and_id)).
Proof.
  destruct state as [ids logs]. unfold select_coin.
  assert (Hsel : forall needed twc,
             In id (fst (if nonzero needed
                         then let '(selected, warnings) :=
                                _select_utxos_per_coin set_iter
                                  (get_or_empty c txins_by_coin_and_id) c
                                  needed twc ids in
                              (str_update ids selected, logs ++ warnings)
                         else (ids, logs))) ->
             In id ids
             \/ In id (dict_keys (get_or_empty c txins_by_coin_and_id))).
  { intros needed twc. destruct (nonzero needed); [|now left].
    unfold _select_utxos_per_coin.
    pose proof (select_per_coin_picks_candidates set_iter
                  (get_or_empty c txins_by_coin_and_id) needed twc ids id)
      as Hc.
    destruct (select_per_coin_outcome _ _ _ _ _) as [[sel acc] met].
    simpl in *. intros Hid. apply str_update_In in Hid.
    destruct Hid as [Hid|Hid]; [now left|right]. now apply Hc. }
  destruct (String.eqb c DEFAULT_COIN).
  - destruct (send_all_indices _); [apply Hsel|].
    simpl. intros Hid. now apply str_update_In in Hid.
  - apply Hsel.
Qed.

Lemma select_loop_adds_candidates (set_iter : str_set -> list string)
    (candidates : list UTXOData)
    (txouts_passed_db txouts_mint_db : dict (list TxOut))
    (fee : Z) (withdrawals : list TxOut)
    (min_change_value deposit treasury_donation : Z) (coins : list string) :
  forall (state : str_set * list LogRecord) (id : string),
    In id (fst (select_loop set_iter
                  (_organize_utxos_by_coin_and_id candidates)
                  txouts_passed_db txouts_mint_db fee withdrawals
                  min_change_value deposit treasury_donation coins state)) ->
    In id (fst state) \/ exists r, In r candidates /\ utxo_id r = id.
Proof.
  unfold select_loop.
  induction coins as [|c coins IH]; intros state id Hid; [now left|].
  simpl in Hid. apply IH in Hid. destruct Hid as [Hid|Hid]; [|now right].
  apply select_coin_adds_candidates in Hid.
  destruct Hid as [Hid|Hid]; [now left|right].
  apply in_map_iff in Hid. destruct Hid as ([k a] & <- & Hka).
  apply coin_and_id_values in Hka.
  destruct Hka as (r & Hr & _ & Hid & _). now exists r.
Qed.

(** X3. The selection engine returns identities of the candidate rows only:
    every identity it selects is the identity of a row it was given. *)
Theorem selected_utxos_are_candidates :
  forall (set_iter : str_set -> list string) (candidates : list UTXOData)
         (txouts_passed_db txouts_mint_db : dict (list TxOut))
         (fee : Z) (withdrawals : list TxOut)
         (min_change_value deposit treasury_donation : Z),
    Forall (fun id => exists r, In r candidates /\ utxo_id r = id)
      (fst (_select_utxos set_iter
              (_organize_utxos_by_coin_and_id candidates) txouts_passed_db
              txouts_mint_db fee withdrawals min_change_value deposit
              treasury_donation)).
Proof.
  intros set_iter candidates passed mint fee w mcv dep don.
  apply Forall_forall. intros id Hid. unfold _select_utxos in Hid.
  apply select_loop_adds_candidates in Hid.
  destruct Hid as [[]|Hid]. exact Hid.
Qed.

(** ** The outcomes of the balancer *)

Section BalancerOutcome.
Variables (change_address : string) (txins_db : dict (list UTXOData))
          (txouts_passed_db txouts_mint_db : dict (list TxOut))
          (fee : Z) (withdrawals : list TxOut)
          (deposit treasury_donation : Z).

Let round := balance_coin txins_db txouts_passed_db txouts_mint_db fee
               withdrawals deposit treasury_donation.
Let step := balance_step change_address txins_db txouts_passed_db
              txouts_mint_db fee withdrawals deposit treasury_donation.
Let change_outs :=
  coin_change_outs change_address txins_db txouts_passed_db txouts_mint_db
    fee withdrawals deposit treasury_donation.
Let marks :=
  length (send_all_indices (get_or_nil DEFAULT_COIN txouts_passed_db)).

Lemma balance_coin_raises :
  (1 < marks)%nat ->
  round DEFAULT_COIN
  = ([], Raise (AssertionError Send_all_to_more_than_one_address)).
Proof.
  intros Hm. unfold round, balance_coin. rewrite String.eqb_refl.
  apply Nat.ltb_lt in Hm. unfold marks in Hm. now rewrite Hm.
Qed.

Lemma balance_coin_cases (c : string) :
  (exists max_address change, snd (round c) = Return (max_address, change))
  \/ (c = DEFAULT_COIN /\ (1 < marks)%nat).
Proof.
  destruct (Nat.leb_spec marks 1) as [Hm|Hm].
  - left. now apply balance_coin_returns.
  - destruct (String.eqb_spec c DEFAULT_COIN) as [Hc|Hc]; [now right|left].
    unfold round. rewrite (balance_coin_token txins_db txouts_passed_db txouts_mint_db fee withdrawals deposit treasury_donation c Hc).
    simpl. eauto.
Qed.

Lemma balance_step_raises (txouts_result : list TxOut) :
  (1 < marks)%nat ->
  step txouts_result DEFAULT_COIN
  = ([], Raise (AssertionError Send_all_to_more_than_one_address)).
Proof.
  intros Hm. unfold step, balance_step. fold round.
  now rewrite (balance_coin_raises Hm).
Qed.

Lemma balance_loop_outcome (coins : list string) :
  forall txouts_result,
    match snd (for_each step coins txouts_result) with
    | Return outs => outs = txouts_result ++ flat_map change_outs coins
    | Raise e =>
        e = AssertionError Send_all_to_more_than_one_address
        /\ In DEFAULT_COIN coins /\ (1 < marks)%nat
    end.
Proof.
  induction coins as [|c coins IH]; intros txouts_result.
  - simpl. now rewrite app_nil_r.
  - cbn [for_each].
    destruct (balance_coin_cases c) as [(ma & ch & Hr)|[-> Hm]].
    + unfold step at 1.
      rewrite (balance_step_returns _ _ _ _ _ _ _ _ _ _ _ _ Hr).
      fold round step change_outs. unfold bind.
      specialize (IH (txouts_result ++ change_outs c)).
      destruct (for_each step coins (txouts_result ++ change_outs c))
        as [lg [outs|e]]; simpl in *.
      * now rewrite IH, <- app_assoc.
      * destruct IH as (He & Hin & Hm). auto.
    + rewrite (balance_step_raises _ Hm). simpl. auto.
Qed.

Lemma balance_loop_raises (coins : list string) :
  In DEFAULT_COIN coins -> (1 < marks)%nat ->
  forall txouts_result,
    snd (for_each step coins txouts_result)
    = Raise (AssertionError Send_all_to_more_than_one_address).
Proof.
  intros Hin Hm. induction coins as [|c coins IH]; [contradiction|].
  intros txouts_result. cbn [for_each].
  destruct (String.eqb_spec c DEFAULT_COIN) as [->|Hc].
  - now rewrite (balance_step_raises _ Hm).
  - destruct Hin as [Hin|Hin]; [congruence|].
    destruct (balance_coin_cases c) as [(ma & ch & Hr)|[Hc' _]];
      [|contradiction].
    unfold step at 1.
    rewrite (balance_step_returns _ _ _ _ _ _ _ _ _ _ _ _ Hr).
    fold round step change_outs. unfold bind.
    specialize (IH Hin (txouts_result ++ change_outs c)).
    destruct (for_each step coins (txouts_result ++ change_outs c)).
    exact IH.
Qed.

Lemma marked_base_coin_is_a_key :
  (0 < marks)%nat -> In DEFAULT_COIN (dict_keys txouts_passed_db).
Proof.
  unfold marks, get_or_nil. intros Hm. apply dict_mem_keys. unfold dict_mem.
  destruct (dict_get DEFAULT_COIN txouts_passed_db); [reflexivity|].
  simpl in Hm. lia.
Qed.

Lemma change_outs_shape (c : string) (o : TxOut) :
  In o (change_outs c) ->
  change_outs c = [o] /\ txout_coin o = c /\ 0 < txout_amount o
  /\ (c <> DEFAULT_COIN -> txout_address o = change_address).
Proof.
  unfold change_outs, coin_change_outs. intros Ho.
  destruct (String.eqb_spec c DEFAULT_COIN) as [Hc|Hc].
  - destruct (snd _) as [[ma ch]|e]; [|destruct Ho].
    destruct (Z.gtb_spec ch 0); [|destruct Ho].
    destruct Ho as [<-|[]]. simpl. repeat split; [lia|congruence].
  - rewrite (balance_coin_token txins_db txouts_passed_db txouts_mint_db fee withdrawals deposit treasury_donation c Hc) in *. simpl in *.
    match type of Ho with
    | context [?x >? 0] => destruct (Z.gtb_spec x 0); [|destruct Ho]
    end.
    destruct Ho as [<-|[]]. simpl. repeat split; lia.
Qed.
End BalancerOutcome.

(** X4. The balancer raises in two cases only, and always in them: when a
    requested output of a coin other than the base coin has a negative amount
    (token burning), whether balancing is skipped or not; and, when balancing
    is not skipped, when more than one requested output of the base coin
    carries the send-all mark. In every other case it returns. *)
Theorem balance_txouts_raises_exactly :
  forall (set_iter : str_set -> list string),
    (forall s, Permutation (set_iter s) s) ->
    forall (change_address : string) (txouts : list TxOut)
           (txins_db : dict (list UTXOData))
           (txouts_passed_db txouts_mint_db : dict (list TxOut))
           (fee : Z) (withdrawals : list TxOut)
           (deposit treasury_donation : Z) (skip_asset_balancing : bool),
      match
        snd (_balance_txouts set_iter change_address txouts txins_db
               txouts_passed_db txouts_mint_db fee withdrawals deposit
               treasury_donation skip_asset_balancing)
      with
      | Raise e =>
          (burning_txouts txouts <> []
           /\ e = AssertionError
                    (Token_burning_not_allowed (burning_txouts txouts)))
          \/ (burning_txouts txouts = [] /\ skip_asset_balancing = false
              /\ (1 < length (send_all_indices
                                (get_or_nil DEFAULT_COIN txouts_passed_db)))%nat
              /\ e = AssertionError Send_all_to_more_than_one_address)
      | Return _ =>
          burning_txouts txouts = []
          /\ (skip_asset_balancing = true
              \/ (length (send_all_indices
                            (get_or_nil DEFAULT_COIN txouts_passed_db))
                  <= 1)%nat)
      end.
Proof.
  intros set_iter Hperm ca txouts txins_db passed mint fee w dep don skip.
  unfold _balance_txouts.
  destruct (burning_txouts txouts) as [|b bs] eqn:Hb.
  - destruct skip; [simpl; auto|].
    set (coins := set_iter _).
    set (init := filter _ txouts).
    pose proof (balance_loop_outcome ca txins_db passed mint fee w dep don
                  coins init) as Hout.
    destruct (Nat.leb_spec
                (length (send_all_indices (get_or_nil DEFAULT_COIN passed)))
                1) as [Hm|Hm].
    + destruct (snd (for_each _ coins init)) as [outs|e]; [auto|].
      destruct Hout as (_ & _ & Hm'). lia.
    + rewrite balance_loop_raises; [right; auto| |exact Hm].
      apply (set_iter_In set_iter Hperm), coin_union_In. right; left.
      apply marked_base_coin_is_a_key. lia.
  - simpl. left. split; [discriminate|reflexivity].
Qed.

Lemma balance_txouts_raises_exactly_witness :
  snd (_balance_txouts list_order "S"
         [mkTxOut "A" (-1) DEFAULT_COIN; mkTxOut "B" (-1) DEFAULT_COIN]
         (_organize_tx_ins_outs_by_coin [row "h" 0 10 "S" DEFAULT_COIN])
         (_organize_tx_ins_outs_by_coin
            [mkTxOut "A" (-1) DEFAULT_COIN; mkTxOut "B" (-1) DEFAULT_COIN])
         [] 0 [] 0 0 false)
  = Raise (AssertionError Send_all_to_more_than_one_address).
Proof.
  pose proof (balance_txouts_raises_exactly list_order
                (fun s => Permutation_refl s) "S"
                [mkTxOut "A" (-1) DEFAULT_COIN; mkTxOut "B" (-1) DEFAULT_COIN]
                (_organize_tx_ins_outs_by_coin [row "h" 0 10 "S" DEFAULT_COIN])
                (_organize_tx_ins_outs_by_coin
                   [mkTxOut "A" (-1) DEFAULT_COIN;
                    mkTxOut "B" (-1) DEFAULT_COIN])
                [] 0 [] 0 0 false) as H.
  destruct (snd _) as [outs|e].
  - destruct H as [_ [H|H]]; [discriminate|]. vm_compute in H.
    exfalso. lia.
  - destruct H as [[H _]|(_ & _ & _ & ->)]; [|reflexivity].
    exfalso. apply H. reflexivity.
Defined.

(** X5. Whenever the balancer returns, its result is the requested outputs
    of a positive amount, in their order, followed by change outputs; every
    output of the result has a positive amount; there is at most one change
    output per coin; a change output of a coin other than the base coin goes
    to the change address; and with balancing skipped there is no change
    output at all. *)
Theorem balance_txouts_result_shape :
  forall (set_iter : str_set -> list string),
    (forall s, Permutation (set_iter s) s) ->
    forall (change_address : string) (txouts : list TxOut)
           (txins_db : dict (list UTXOData))
           (txouts_passed_db txouts_mint_db : dict (list TxOut))
           (fee : Z) (withdrawals : list TxOut)
           (deposit treasury_donation : Z) (skip_asset_balancing : bool)
           (logs : list LogRecord) (outs : list TxOut),
      _balance_txouts set_iter change_address txouts txins_db
        txouts_passed_db txouts_mint_db fee withdrawals deposit
        treasury_donation skip_asset_balancing
      = (logs, Return outs) ->
      exists changes,
        outs = positive_txouts txouts ++ changes
        /\ (forall o, In o outs -> 0 < txout_amount o)
        /\ (forall c, (length (of_coin c changes) <= 1)%nat)
        /\ (forall o, In o changes -> txout_coin o <> DEFAULT_COIN ->
                      txout_address o = change_address)
        /\ (skip_asset_balancing = true -> changes = []).
Proof.
  intros set_iter Hperm ca txouts txins_db passed mint fee w dep don skip
         logs outs Hres.
  assert (Hpos : forall o, In o (positive_txouts txouts) ->
                           0 < txout_amount o).
  { intros o Ho. apply filter_In in Ho. destruct Ho as [_ Ho].
    destruct (Z.gtb_spec (txout_amount o) 0); [lia|discriminate]. }
  unfold _balance_txouts in Hres.
  destruct (burning_txouts txouts); [|discriminate].
  destruct skip.
  - injection Hres as _ <-. exists []. rewrite app_nil_r.
    repeat split; auto; try (intros; simpl; lia). intros _ [].
  - set (coins := set_iter _) in Hres.
    pose proof (balance_loop_outcome ca txins_db passed mint fee w dep don
                  coins (filter (fun r => txout_amount r >? 0) txouts))
      as Hout.
    rewrite Hres in Hout. simpl in Hout. subst outs.
    set (change_outs := coin_change_outs ca txins_db passed mint fee w dep
                          don) in *.
    exists (flat_map change_outs coins).
    assert (Hshape : forall c o, In o (change_outs c) ->
               change_outs c = [o] /\ txout_coin o = c /\ 0 < txout_amount o
               /\ (c <> DEFAULT_COIN -> txout_address o = ca))
      by (intros c o; apply change_outs_shape).
    split; [reflexivity|]. split; [|split; [|split]].
    + intros o Ho. apply in_app_or in Ho. destruct Ho as [Ho|Ho].
      * now apply Hpos.
      * apply in_flat_map in Ho. destruct Ho as (c & _ & Ho).
        now apply Hshape in Ho.
    + intros c.
      assert (Hnd : NoDup coins)
        by apply (set_iter_NoDup set_iter Hperm), coin_union_NoDup.
      assert (Hcoin : forall c' o, In o (change_outs c') -> coin o = c')
        by (intros c' o Ho; now apply Hshape in Ho).
      destruct (in_dec string_dec c coins) as [Hin|Hin].
      * rewrite (of_coin_flat_map_in change_outs Hcoin c coins Hnd Hin).
        destruct (change_outs c) as [|o l] eqn:E; [simpl; lia|].
        destruct (Hshape c o) as [Hl _]; [rewrite E; now left|].
        rewrite E in Hl. injection Hl as ->. simpl. lia.
      * rewrite (of_coin_flat_map_out change_outs Hcoin c coins Hin).
        simpl. lia.
    + intros o Ho Hc. apply in_flat_map in Ho. destruct Ho as (c & _ & Ho).
      apply Hshape in Ho. destruct Ho as (_ & <- & _ & Ha). now apply Ha.
    + discriminate.
Qed.

Lemma balance_txouts_result_shape_witness :
  exists changes,
    [mkTxOut "A" 4 DEFAULT_COIN; mkTxOut "S" 3 DEFAULT_COIN;
     mkTxOut "S" 5 "T"]
    = positive_txouts [mkTxOut "A" 4 DEFAULT_COIN; mkTxOut "B" 0 "T"]
      ++ changes
    /\ (forall o,
          In o [mkTxOut "A" 4 DEFAULT_COIN; mkTxOut "S" 3 DEFAULT_COIN;
                mkTxOut "S" 5 "T"] -> 0 < txout_amount o)
    /\ (forall c, (length (of_coin c changes) <= 1)%nat)
    /\ (forall o, In o changes -> txout_coin o <> DEFAULT_COIN ->
                  txout_address o = "S"%string)
    /\ (false = true -> changes = []).
Proof.
  refine (balance_txouts_result_shape list_order
            (fun s => Permutation_refl s) "S"
            [mkTxOut "A" 4 DEFAULT_COIN; mkTxOut "B" 0 "T"]
            (_organize_tx_ins_outs_by_coin
               [row "h" 0 10 "S" DEFAULT_COIN; row "h" 0 5 "S" "T"])
            (_organize_tx_ins_outs_by_coin
               [mkTxOut "A" 4 DEFAULT_COIN; mkTxOut "B" 0 "T"])
            [] 3 [] 0 0 false [] _ _).
  reflexivity.
Defined.

(** ** The inputs that the orchestrator selects *)

Lemma usable_utxos_perm (rows : list UTXOData) (coins : str_set)
    (usable : list UTXOData) :
  _get_usable_utxos rows coins = Return usable ->
  Permutation usable
    (filter (fun r => utxo_is_usable rows coins (utxo_id r)) rows).
Proof.
  unfold _get_usable_utxos.
  assert (Hinit : usable_state rows [] coins ([], [], false)).
  { split; [constructor|].
    split; [intros i; split; [intros []|intros (r0 & [] & _)]|].
    split; [reflexivity|]. split; [discriminate|intros r []]. }
  pose proof (usable_fold_state rows coins rows [] ([], [], false) Hinit)
    as Hst.
  simpl app in Hst.
  destruct (fold_left (usable_step (_organize_utxos_by_id rows) coins) rows
              ([], [], false)) as [[txins seen] m].
  destruct Hst as (Hnd & Hseen & Htx & _ & _).
  intros Hres.
  assert (Hu : usable = txins)
    by (destruct txins; [destruct m|]; congruence).
  subst usable. rewrite Htx, (rows_of_seen_perm rows seen Hnd).
  rewrite (filter_ext_in (fun r => str_mem (utxo_id r) seen)
             (fun r => utxo_is_usable rows coins (utxo_id r)));
    [reflexivity|].
  intros r _. apply eq_true_iff_eq. rewrite str_mem_In, Hseen.
  unfold utxo_is_usable. rewrite existsb_exists. split.
  - intros (r0 & H1 & H2 & H3). exists r0. split; [exact H1|].
    now rewrite H2, String.eqb_refl.
  - intros (r0 & H1 & H2). apply andb_true_iff in H2.
    destruct H2 as [H2 H3]. apply String.eqb_eq in H2. now exists r0.
Qed.

Lemma filter_perm {A : Type} (f : A -> bool) (l l' : list A) :
  Permutation l l' -> Permutation (filter f l) (filter f l').
Proof.
  induction 1 as [|x l1 l2 Hp IH|x y l|l1 l2 l3 H1 IH1 H2 IH2]; simpl.
  - constructor.
  - destruct (f x); [now constructor|assumption].
  - destruct (f x), (f y); try reflexivity. apply perm_swap.
  - now transitivity (filter f l2).
Qed.

Section AutoRun.
Variable set_iter : str_set -> list string.
Variables (clusterlib_obj : ClusterLib) (src_address : string)
          (txouts : list TxOut) (fee : Z)
          (deposit treasury_donation : option Z)
          (withdrawals mint_txouts : list TxOut)
          (src_addr_utxos : option (list UTXOData))
          (skip_asset_balancing : bool).

Let rows := candidate_utxos clusterlib_obj src_address src_addr_utxos.
Let outcoins_all : str_set :=
  str_update []
    (DEFAULT_COIN :: dict_keys (_organize_tx_ins_outs_by_coin mint_txouts)
       ++ dict_keys (_organize_tx_ins_outs_by_coin txouts)).
Let present (usable : list UTXOData) : bool :=
  forallb (fun c => dict_mem c (_organize_tx_ins_outs_by_coin mint_txouts)
                    || dict_mem c (_organize_utxos_by_coin_and_id usable))
          (DEFAULT_COIN :: dict_keys (_organize_tx_ins_outs_by_coin txouts)).
Let tx_deposit :=
  match deposit with
  | None => g_transaction_get_tx_deposit clusterlib_obj
  | Some d => d
  end.
Let tx_treasury_donation :=
  match treasury_donation with Some d => d | None => 0 end.
Let selection (usable : list UTXOData) :=
  _select_utxos set_iter (_organize_utxos_by_coin_and_id usable)
    (_organize_tx_ins_outs_by_coin txouts)
    (_organize_tx_ins_outs_by_coin mint_txouts) fee withdrawals
    (_min_change_value clusterlib_obj) tx_deposit tx_treasury_donation.
Let selected_rows (usable : list UTXOData) :=
  concat (map snd
            (filter (fun kv => str_mem (fst kv) (fst (selection usable)))
                    (_organize_utxos_by_id usable))).
Let result :=
  _get_tx_ins_outs set_iter clusterlib_obj src_address [] txouts fee deposit
    treasury_donation withdrawals mint_txouts src_addr_utxos
    skip_asset_balancing.

(** The run of the orchestrator once the usable rows are found and hold
    the coins of the outputs. *)
Lemma auto_select_run (usable : list UTXOData) :
  rows <> [] ->
  _get_usable_utxos rows outcoins_all = Return usable ->
  usable <> [] -> present usable = true ->
  (selected_rows usable = [] ->
   result = (snd (selection usable), Raise (CLIError Empty_txins)))
  /\ (selected_rows usable <> [] ->
      snd result
      = match
          snd (_balance_txouts set_iter src_address txouts
                 (_organize_tx_ins_outs_by_coin (selected_rows usable))
                 (_organize_tx_ins_outs_by_coin txouts)
                 (_organize_tx_ins_outs_by_coin mint_txouts) fee withdrawals
                 tx_deposit tx_treasury_donation skip_asset_balancing)
        with
        | Return outs => Return (selected_rows usable, outs)
        | Raise e => Raise e
        end).
Proof.
  intros Hrows Hu Hne Hp.
  unfold result, _get_tx_ins_outs.
  fold (candidate_utxos clusterlib_obj src_address src_addr_utxos).
  fold rows. fold outcoins_all. fold tx_deposit tx_treasury_donation.
  clearbody rows outcoins_all.
  destruct rows as [|r0 rs] eqn:Erows; [contradiction|].
  cbv beta iota. rewrite <- Erows. rewrite <- Erows in Hu.
  rewrite Hu, bind_nil_return.
  destruct usable as [|u us] eqn:Eus; [contradiction|].
  change (forallb _ (DEFAULT_COIN :: _)) with (present (u :: us)).
  rewrite Hp. cbn [negb].
  fold (selection (u :: us)).
  rewrite (surjective_pairing (selection (u :: us))).
  fold (selected_rows (u :: us)).
  destruct (selected_rows (u :: us)) as [|f fs] eqn:Ef.
  - split; [|intros H; now contradiction H].
    intros _. unfold bind, raise. now rewrite app_nil_r.
  - split; [discriminate|]. intros _.
    rewrite bind_return. cbv beta iota.
    match goal with
    | |- context [_balance_txouts ?a1 ?a2 ?a3 ?a4 ?a5 ?a6 ?a7 ?a8 ?a9 ?a10
                    ?a11] =>
        destruct (_balance_txouts a1 a2 a3 a4 a5 a6 a7 a8 a9 a10 a11)
          as [logs [outs|exn]]
    end; reflexivity.
Qed.

(** The ways in which the orchestrator returns when it selects the inputs
    itself. *)
Lemma auto_select_returns (logs : list LogRecord) (ins : list UTXOData)
    (outs : list TxOut) :
  result = (logs, Return (ins, outs)) ->
  exists usable,
    _get_usable_utxos rows outcoins_all = Return usable
    /\ ins = selected_rows usable /\ ins <> [].
Proof.
  intros Hres.
  pose proof (auto_select_cases set_iter clusterlib_obj src_address txouts
                fee deposit treasury_donation withdrawals mint_txouts
                src_addr_utxos skip_asset_balancing) as Hcases.
  fold rows outcoins_all result in Hcases.
  destruct Hcases as [[_ H]|[(e & _ & H)|[[_ H]|[(u & _ & _ & H)|H]]]];
    try (rewrite H in Hres; discriminate).
  destruct H as (usable & _ & _ & _ & Hu & Hp & _ & _).
  assert (Hrows : rows <> []).
  { intros E. unfold result, _get_tx_ins_outs in Hres.
    fold (candidate_utxos clusterlib_obj src_address src_addr_utxos) in Hres.
    fold rows in Hres. rewrite E in Hres. discriminate. }
  assert (Hne : usable <> []).
  { intros E. unfold result, _get_tx_ins_outs in Hres.
    fold (candidate_utxos clusterlib_obj src_address src_addr_utxos) in Hres.
    fold rows outcoins_all in Hres.
    destruct rows; [contradiction|]. cbv beta iota in Hres.
    rewrite Hu, E in Hres. discriminate. }
  destruct (auto_select_run usable Hrows Hu Hne Hp) as [Hempty Hrun].
  exists usable. split; [exact Hu|].
  destruct (selected_rows usable) as [|f fs] eqn:Ef.
  - rewrite (Hempty eq_refl) in Hres. discriminate.
  - assert (Hs : (f :: fs) <> []) by discriminate.
    specialize (Hrun Hs). rewrite Hres in Hrun. simpl in Hrun.
    destruct (snd (_balance_txouts _ _ _ _ _ _ _ _ _ _ _)); [|discriminate].
    injection Hrun as -> _. split; [reflexivity|exact Hs].
Qed.

Lemma selected_rows_perm (usable : list UTXOData) :
  Permutation usable
    (filter (fun r => utxo_is_usable rows outcoins_all (utxo_id r)) rows) ->
  Permutation (selected_rows usable)
    (filter (fun r => str_mem (utxo_id r) (fst (selection usable))) rows).
Proof.
  intros Hperm. unfold selected_rows.
  rewrite (organize_by_id_filter_perm
             (fun i => str_mem i (fst (selection usable))) usable).
  rewrite (filter_perm (fun r => str_mem (utxo_id r) (fst (selection usable)))
             _ _ Hperm).
  rewrite <- filter_andb.
  rewrite (filter_ext_in
             (fun r => utxo_is_usable rows outcoins_all (utxo_id r)
                       && str_mem (utxo_id r) (fst (selection usable)))
             (fun r => str_mem (utxo_id r) (fst (selection usable))));
    [reflexivity|].
  intros r Hr. destruct (str_mem _ (fst (selection usable))) eqn:Es;
    [|apply andb_false_r].
  rewrite andb_true_r. apply str_mem_In in Es.
  unfold selection, _select_utxos in Es.
  apply select_loop_adds_candidates in Es.
  destruct Es as [[]|(r' & Hr' & Hid)].
  apply (Permutation_in _ Hperm) in Hr'. apply filter_In in Hr'.
  now rewrite <- Hid.
Qed.
End AutoRun.

(** X6. When the caller supplies no inputs and the orchestrator returns, the
    inputs it returns are not empty and are, up to their order, all the rows
    of the candidates whose identity is selected: an unspent output is taken
    with all its rows or not at all. Every selected identity has a candidate
    row that holds a required coin and carries no datum. *)
Theorem auto_selected_inputs_are_whole_utxos :
  forall (set_iter : str_set -> list string) (clusterlib_obj : ClusterLib)
         (src_address : string) (txouts : list TxOut) (fee : Z)
         (deposit treasury_donation : option Z)
         (withdrawals mint_txouts : list TxOut)
         (src_addr_utxos : option (list UTXOData))
         (skip_asset_balancing : bool)
         (logs : list LogRecord) (ins : list UTXOData) (outs : list TxOut),
    _get_tx_ins_outs set_iter clusterlib_obj src_address [] txouts fee
      deposit treasury_donation withdrawals mint_txouts src_addr_utxos
      skip_asset_balancing
    = (logs, Return (ins, outs)) ->
    ins <> []
    /\ exists selected : str_set,
         Permutation ins
           (filter (fun r => str_mem (utxo_id r) selected)
                   (candidate_utxos clusterlib_obj src_address
                      src_addr_utxos))
         /\ forall id, In id selected ->
              exists r,
                In r (candidate_utxos clusterlib_obj src_address
                        src_addr_utxos)
                /\ utxo_id r = id
                /\ In (utxo_coin r) (required_coins txouts mint_txouts)
                /\ has_datum r = false.
Proof.
  intros set_iter cl src txouts fee dep don w mint sau skip logs ins outs
         Hres.
  destruct (auto_select_returns set_iter cl src txouts fee dep don w mint
              sau skip logs ins outs Hres) as (usable & Hu & -> & Hne).
  split; [exact Hne|].
  pose proof (usable_utxos_perm _ _ _ Hu) as Hperm.
  eexists. split.
  - exact (selected_rows_perm set_iter cl src txouts fee dep don w mint sau
             usable Hperm).
  - intros id Hid. unfold _select_utxos in Hid.
    apply select_loop_adds_candidates in Hid.
    destruct Hid as [[]|(r & Hr & Hrid)].
    apply (Permutation_in _ Hperm) in Hr. apply filter_In in Hr.
    destruct Hr as [_ Hr]. rewrite Hrid in Hr.
    unfold utxo_is_usable in Hr. apply existsb_exists in Hr.
    destruct Hr as (r0 & Hr0 & Hopen).
    apply andb_true_iff in Hopen. destruct Hopen as [Hid0 Hopen].
    apply String.eqb_eq in Hid0. unfold opens_utxo in Hopen.
    apply andb_true_iff in Hopen. destruct Hopen as [Hc Hd].
    exists r0. split; [exact Hr0|]. split; [exact Hid0|].
    split; [now apply outcoins_all_In|now apply negb_true_iff].
Qed.

Lemma auto_selected_inputs_are_whole_utxos_witness :
  let rows := [row "a" 0 10 "S" DEFAULT_COIN; row "a" 0 7 "S" "T";
               row "b" 0 20 "S" DEFAULT_COIN] in
  [row "a" 0 10 "S" DEFAULT_COIN; row "a" 0 7 "S" "T"] <> []
  /\ exists selected : str_set,
       Permutation [row "a" 0 10 "S" DEFAULT_COIN; row "a" 0 7 "S" "T"]
         (filter (fun r => str_mem (utxo_id r) selected)
                 (candidate_utxos (cluster rows 0) "S" None))
       /\ forall id, In id selected ->
            exists r,
              In r (candidate_utxos (cluster rows 0) "S" None)
              /\ utxo_id r = id
              /\ In (utxo_coin r)
                    (required_coins [mkTxOut "X" 5 DEFAULT_COIN] [])
              /\ has_datum r = false.
Proof.
  cbv zeta.
  refine (auto_selected_inputs_are_whole_utxos list_order
            (cluster [row "a" 0 10 "S" DEFAULT_COIN; row "a" 0 7 "S" "T";
                      row "b" 0 20 "S" DEFAULT_COIN] 0)
            "S" [mkTxOut "X" 5 DEFAULT_COIN] 1 (Some 0) None [] [] None false
            _ _ _ _).
  vm_compute. reflexivity.
Defined.

(** ** The error for an empty selection *)

Lemma defrag_smallest_grows (entries : list entry) (target twc : Z) :
  forall (selected : list nat) (picked : str_set) (acc : Z) (x : string),
    In x picked ->
    match defrag_smallest entries target twc selected picked acc with
    | inl (_, picked', _) => In x picked'
    | inr (picked', _, _) => In x picked'
    end.
Proof.
  induction entries as [|[i [id amt]] rest IH]; intros selected picked acc x Hx.
  - exact Hx.
  - cbn [defrag_smallest].
    assert (Hx' : In x (str_add id picked)) by (apply str_add_In; now right).
    destruct (acc + amt =? target); [exact Hx'|].
    destruct (acc + amt >=? twc); [exact Hx'|].
    now apply IH.
Qed.

Lemma defrag_closest_grows (utxos : list (string * Z)) (sorted : list entry)
    (target twc : Z) (fuel : nat) :
  forall (selected : list nat) (picked : str_set) (acc : Z) (x : string),
    In x picked ->
    In x (fst (fst (defrag_closest fuel utxos sorted target twc selected
                      picked acc))).
Proof.
  induction fuel as [|fuel IH]; intros selected picked acc x Hx;
    cbn [defrag_closest];
    destruct (acc <? twc); [|exact Hx| |exact Hx];
    (destruct (acc =? target); [exact Hx|]);
    destruct (min_by _ _) as [j|]; try exact Hx.
  destruct (utxo_at utxos j) as [id amt]. apply IH.
  apply str_add_In. now right.
Qed.

Lemma defragmentation_picks_some (utxos : list (string * Z))
    (target twc acc0 : Z) :
  utxos <> [] ->
  fst (fst (_pick_utxos_with_defragmentation utxos target twc acc0)) <> [].
Proof.
  intros Hne. unfold _pick_utxos_with_defragmentation.
  pose proof (sorted_length utxos) as Hlen.
  destruct (sorted_by_amount (enumerate utxos)) as [|[i [id amt]] rest] eqn:Es.
  - destruct utxos; [contradiction|discriminate].
  - cbn [firstn defrag_smallest].
    assert (Hid : In id (str_add id [])) by (apply str_add_In; now left).
    assert (Hin : forall l : str_set, In id l -> l <> [])
      by (intros l H ->; destruct H).
    destruct (acc0 + amt =? target); [now apply Hin|].
    destruct (acc0 + amt >=? twc); [now apply Hin|].
    pose proof (defrag_smallest_grows (firstn 9 rest) target twc [i]
                  (str_add id []) (acc0 + amt) id Hid) as Hs.
    destruct (defrag_smallest _ _ _ _ _ _) as [[[sel p] a]|[[p a] m]].
    + apply (Hin _). now apply defrag_closest_grows.
    + now apply Hin.
Qed.

Section EmptySelection.
Variable set_iter : str_set -> list string.
Hypothesis set_iter_perm : forall s, Permutation (set_iter s) s.
Variables (txins_by_coin_and_id : dict (dict Z))
          (txouts_passed_db txouts_mint_db : dict (list TxOut))
          (fee : Z) (withdrawals : list TxOut)
          (min_change_value deposit treasury_donation : Z).

Let step := select_coin set_iter txins_by_coin_and_id txouts_passed_db
              txouts_mint_db fee withdrawals min_change_value deposit
              treasury_donation.

Lemma set_iter_nil : set_iter [] = [].
Proof. apply Permutation_nil, Permutation_sym, set_iter_perm. Qed.

Lemma select_coin_base_picks_some (state : str_set * list LogRecord) :
  get_or_empty DEFAULT_COIN txins_by_coin_and_id <> [] ->
  fst (step state DEFAULT_COIN) <> [].
Proof.
  intros Hm.
  assert (Hin : forall (l : str_set) (x : string), In x l -> l <> [])
    by (intros l x H ->; destruct H).
  destruct state as [[|i0 ids] logs].
  2:{ apply (Hin _ i0). apply select_coin_keeps. now left. }
  destruct (get_or_empty DEFAULT_COIN txins_by_coin_and_id)
    as [|[k v] m] eqn:Em; [contradiction|].
  destruct (send_all_indices (get_or_nil DEFAULT_COIN txouts_passed_db))
    as [|j js] eqn:Es.
  - unfold step. rewrite (select_coin_base_plain _ _ _ _ _ _ _ _ _ _ _ Es).
    rewrite Em. unfold select_per_coin_outcome,
      _pick_coins_from_already_selected_utxos.
    rewrite set_iter_nil. cbn [pick_already_loop negb].
    rewrite (filter_all (fun ia => negb (str_mem (fst ia) [])) ((k, v) :: m))
      by reflexivity.
    match goal with
    | |- context [_pick_utxos_with_defragmentation ?u ?t ?c ?a] =>
        pose proof (defragmentation_picks_some u t c a) as Hp;
        destruct (_pick_utxos_with_defragmentation u t c a) as [[p a'] met']
    end.
    simpl in Hp |- *.
    destruct p as [|x p]; [now contradiction Hp|].
    apply (Hin _ x), str_update_In. right.
    apply str_update_In. right. now left.
  - apply (Hin _ k). apply select_coin_sweeps.
    + rewrite Es. discriminate.
    + rewrite Em. now left.
Qed.

Lemma select_utxos_picks_some :
  In DEFAULT_COIN (dict_keys txins_by_coin_and_id) ->
  get_or_empty DEFAULT_COIN txins_by_coin_and_id <> [] ->
  fst (_select_utxos set_iter txins_by_coin_and_id txouts_passed_db
         txouts_mint_db fee withdrawals min_change_value deposit
         treasury_donation) <> [].
Proof.
  intros Hkey Hm. unfold _select_utxos.
  assert (Hc : In DEFAULT_COIN
                 (set_iter (coin_union (dict_keys txins_by_coin_and_id)
                              (dict_keys txouts_passed_db)
                              (dict_keys txouts_mint_db)))).
  { apply (set_iter_In set_iter set_iter_perm), coin_union_In. now left. }
  apply in_split in Hc. destruct Hc as (l1 & l2 & ->).
  rewrite select_loop_app. cbn [select_loop fold_left]. fold step.
  set (st := select_loop _ _ _ _ _ _ _ _ _ l1 _).
  pose proof (select_coin_base_picks_some st Hm) as Hs.
  destruct (fst (step st DEFAULT_COIN)) as [|x xs] eqn:E;
    [now contradiction Hs|].
  intros Hnil.
  pose proof (select_loop_keeps set_iter txins_by_coin_and_id
                txouts_passed_db txouts_mint_db fee withdrawals
                min_change_value deposit treasury_donation l2
                (step st DEFAULT_COIN) x) as Hk.
  rewrite E in Hk. specialize (Hk (or_introl eq_refl)).
  unfold select_loop in Hk. fold step in Hk. fold step in Hnil.
  rewrite Hnil in Hk. destruct Hk.
Qed.
End EmptySelection.

Section BalancerLogs.
Variables (set_iter : str_set -> list string)
          (change_address : string) (txins_db : dict (list UTXOData))
          (txouts_passed_db txouts_mint_db : dict (list TxOut))
          (fee : Z) (withdrawals : list TxOut)
          (deposit treasury_donation : Z).

Let round := balance_coin txins_db txouts_passed_db txouts_mint_db fee
               withdrawals deposit treasury_donation.
Let step := balance_step change_address txins_db txouts_passed_db
              txouts_mint_db fee withdrawals deposit treasury_donation.




Lemma balance_txouts_raises_assertion (txouts : list TxOut)
    (skip_asset_balancing : bool) (e : Exception) :
  snd (_balance_txouts set_iter change_address txouts txins_db
         txouts_passed_db txouts_mint_db fee withdrawals deposit
         treasury_donation skip_asset_balancing) = Raise e ->
  exists msg, e = AssertionError msg.
Proof.
  unfold _balance_txouts. destruct (burning_txouts txouts).
  - destruct skip_asset_balancing; [discriminate|].
    match goal with
    | |- context [for_each ?b ?cs ?s] =>
        pose proof (balance_loop_outcome change_address txins_db
                      txouts_passed_db txouts_mint_db fee withdrawals
                      deposit treasury_donation cs s) as Hout
    end.
    intros He. rewrite He in Hout. destruct Hout as [-> _]. eauto.
  - simpl. intros [= <-]. eauto.
Qed.
End BalancerLogs.

Section ExplicitInputs.
Variable set_iter : str_set -> list string.
Variables (clusterlib_obj : ClusterLib) (src_address : string)
          (txins : list UTXOData) (txouts : list TxOut) (fee : Z)
          (deposit treasury_donation : option Z)
          (withdrawals mint_txouts : list TxOut)
          (src_addr_utxos : option (list UTXOData))
          (skip_asset_balancing : bool).

Let present : bool :=
  forallb (fun c => dict_mem c (_organize_tx_ins_outs_by_coin mint_txouts)
                    || dict_mem c (_organize_utxos_by_coin_and_id txins))
          (DEFAULT_COIN :: dict_keys (_organize_tx_ins_outs_by_coin txouts)).
Let tx_deposit :=
  match deposit with
  | None => g_transaction_get_tx_deposit clusterlib_obj
  | Some d => d
  end.
Let tx_treasury_donation :=
  match treasury_donation with Some d => d | None => 0 end.
Let balanced :=
  _balance_txouts set_iter src_address txouts
    (_organize_tx_ins_outs_by_coin txins)
    (_organize_tx_ins_outs_by_coin txouts)
    (_organize_tx_ins_outs_by_coin mint_txouts) fee withdrawals tx_deposit
    tx_treasury_donation skip_asset_balancing.

(** The run of the orchestrator on inputs supplied by the caller. *)
Lemma explicit_txins_run :
  txins <> [] ->
  _get_tx_ins_outs set_iter clusterlib_obj src_address txins txouts fee
    deposit treasury_donation withdrawals mint_txouts src_addr_utxos
    skip_asset_balancing
  = if present
    then (fst balanced,
          match snd balanced with
          | Return outs => Return (txins, outs)
          | Raise e => Raise e
          end)
    else ([], Raise (CLIError Not_all_output_coins_present)).
Proof.
  intros Hne. unfold _get_tx_ins_outs.
  fold tx_deposit tx_treasury_donation.
  destruct txins as [|t ts] eqn:Etx; [contradiction|].
  cbv beta iota. unfold ret. rewrite bind_nil_return. cbv beta iota.
  change (forallb _ (DEFAULT_COIN :: _)) with present.
  destruct present; [|reflexivity]. cbn [negb].
  rewrite bind_nil_return. cbv beta iota. fold balanced.
  destruct balanced as [lg [outs|e]]; unfold bind; simpl;
    now rewrite ?app_nil_r.
Qed.
End ExplicitInputs.

Section AutoEarly.
Variable set_iter : str_set -> list string.
Variables (clusterlib_obj : ClusterLib) (src_address : string)
          (txouts : list TxOut) (fee : Z)
          (deposit treasury_donation : option Z)
          (withdrawals mint_txouts : list TxOut)
          (src_addr_utxos : option (list UTXOData))
          (skip_asset_balancing : bool).

Let rows := candidate_utxos clusterlib_obj src_address src_addr_utxos.
Let outcoins_all : str_set :=
  str_update []
    (DEFAULT_COIN :: dict_keys (_organize_tx_ins_outs_by_coin mint_txouts)
       ++ dict_keys (_organize_tx_ins_outs_by_coin txouts)).
Let result :=
  _get_tx_ins_outs set_iter clusterlib_obj src_address [] txouts fee deposit
    treasury_donation withdrawals mint_txouts src_addr_utxos
    skip_asset_balancing.

Lemma auto_select_no_rows :
  rows = [] ->
  result = ([], Raise (CLIError (No_utxo_returned src_address))).
Proof.
  intros E. unfold result, _get_tx_ins_outs.
  fold (candidate_utxos clusterlib_obj src_address src_addr_utxos).
  fold rows. now rewrite E.
Qed.

Lemma auto_select_no_usable :
  rows <> [] -> _get_usable_utxos rows outcoins_all = Return [] ->
  result = ([], Raise (CLIError No_input_utxo)).
Proof.
  intros Hne Hu. unfold result, _get_tx_ins_outs.
  fold (candidate_utxos clusterlib_obj src_address src_addr_utxos).
  fold rows. fold outcoins_all. clearbody rows outcoins_all.
  destruct rows as [|r0 rs] eqn:Erows; [contradiction|].
  cbv beta iota. rewrite <- Erows. rewrite <- Erows in Hu. now rewrite Hu.
Qed.
End AutoEarly.

(** X7. When the transaction does not mint the base coin, the orchestrator
    never raises the error for empty inputs: whenever the candidates pass
    the earlier checks, the selection picks at least one unspent output that
    holds the base coin. *)
Theorem empty_txins_error_is_unreachable :
  forall (set_iter : str_set -> list string),
    (forall s, Permutation (set_iter s) s) ->
    forall (clusterlib_obj : ClusterLib) (src_address : string)
           (txins : list UTXOData) (txouts : list TxOut) (fee : Z)
           (deposit treasury_donation : option Z)
           (withdrawals mint_txouts : list TxOut)
           (src_addr_utxos : option (list UTXOData))
           (skip_asset_balancing : bool) (logs : list LogRecord),
      ~ In DEFAULT_COIN (map txout_coin mint_txouts) ->
      _get_tx_ins_outs set_iter clusterlib_obj src_address txins txouts fee
        deposit treasury_donation withdrawals mint_txouts src_addr_utxos
        skip_asset_balancing
      <> (logs, Raise (CLIError Empty_txins)).
Proof.
  intros set_iter Hperm cl src txins txouts fee dep don w mint sau skip logs
         Hmint Hres.
  destruct txins as [|t ts].
  2:{ rewrite explicit_txins_run in Hres by discriminate.
      destruct (forallb _ _); [|discriminate].
      injection Hres as _ Hres.
      destruct (snd (_balance_txouts _ _ _ _ _ _ _ _ _ _ _)) as [outs|e] eqn:E;
        [discriminate|].
      apply balance_txouts_raises_assertion in E. destruct E as (m & ->).
      discriminate. }
  pose proof (auto_select_cases set_iter cl src txouts fee dep don w mint sau
                skip) as Hcases.
  destruct Hcases as [[_ H]|[(e & He & H)|[[_ H]|[(u & _ & _ & H)|H]]]];
    try (rewrite H in Hres; discriminate).
  { apply usable_raise_message in He. subst e. rewrite H in Hres.
    discriminate. }
  destruct H as (usable & _ & _ & _ & Hu & Hp & _ & _).
  assert (Hrows : candidate_utxos cl src sau <> []).
  { intros E.
    rewrite (auto_select_no_rows set_iter cl src txouts fee dep don w mint
               sau skip E) in Hres. discriminate. }
  assert (Hne : usable <> []).
  { intros E. rewrite E in Hu.
    rewrite (auto_select_no_usable set_iter cl src txouts fee dep don w mint
               sau skip Hrows Hu) in Hres. discriminate. }
  destruct (auto_select_run set_iter cl src txouts fee dep don w mint sau
              skip usable Hrows Hu Hne Hp) as [_ Hrun].
  assert (Hbase : In DEFAULT_COIN
                    (dict_keys (_organize_utxos_by_coin_and_id usable))).
  { pose proof (proj1 (forallb_forall _ _) Hp DEFAULT_COIN
                  (or_introl eq_refl)) as Hb.
    apply orb_true_iff in Hb. destruct Hb as [Hb|Hb].
    - apply dict_mem_keys, organize_by_coin_keys_map in Hb.
      now contradiction Hmint.
    - now apply dict_mem_keys. }
  assert (Hm : get_or_empty DEFAULT_COIN
                 (_organize_utxos_by_coin_and_id usable) <> []).
  { apply coin_and_id_keys in Hbase. destruct Hbase as (r & Hr & Hc).
    pose proof (coin_and_id_row_key DEFAULT_COIN usable r Hr Hc) as Hk.
    intros E. rewrite E in Hk. destruct Hk. }
  match type of Hrun with
  | ?rows <> [] -> _ => assert (Hsel : rows <> [])
  end.
  { match goal with
    | |- context [str_mem _ (fst ?sel)] =>
        pose proof (select_utxos_picks_some set_iter Hperm
                      (_organize_utxos_by_coin_and_id usable)
                      (_organize_tx_ins_outs_by_coin txouts)
                      (_organize_tx_ins_outs_by_coin mint) fee w
                      (_min_change_value cl)
                      match dep with
                      | Some d => d
                      | None => g_transaction_get_tx_deposit cl
                      end
                      match don with Some d => d | None => 0 end
                      Hbase Hm) as Hs;
        destruct (fst sel) as [|id ids] eqn:Esel; [now contradiction Hs|];
        assert (Hid : In id (fst sel)) by (rewrite Esel; now left)
    end.
    unfold _select_utxos in Hid.
    apply select_loop_adds_candidates in Hid.
    destruct Hid as [[]|(r & Hr & Hrid)].
    intros E.
    pose proof (organize_by_id_filter_perm
                  (fun i => str_mem i (id :: ids)) usable) as Hp'.
    cbv beta in Hp'. rewrite E in Hp'. apply Permutation_nil in Hp'.
    assert (Hin : In r (filter (fun r => str_mem (utxo_id r) (id :: ids))
                               usable)).
    { apply filter_In. split; [exact Hr|]. apply str_mem_In. now left. }
    rewrite Hp' in Hin. destruct Hin. }
  specialize (Hrun Hsel). rewrite Hres in Hrun. cbn [snd] in Hrun.
  destruct (snd (_balance_txouts _ _ _ _ _ _ _ _ _ _ _)) as [outs|e] eqn:E;
    [discriminate|].
  apply balance_txouts_raises_assertion in E. destruct E as (m & ->).
  discriminate.
Qed.

Lemma empty_txins_error_is_unreachable_witness :
  ~ In DEFAULT_COIN (map txout_coin [mkTxOut "S" 3 "T"])
  /\ _get_tx_ins_outs list_order
       (cluster [row "a" 0 10 "S" DEFAULT_COIN] 0) "S" []
       [mkTxOut "X" 50 DEFAULT_COIN] 1 (Some 0) None []
       [mkTxOut "S" 3 "T"] None false
     <> ([Warning_target_not_met 51 DEFAULT_COIN;
          Error_not_enough_funds 10 51],
         Raise (CLIError Empty_txins)).
Proof.
  assert (H : ~ In DEFAULT_COIN (map txout_coin [mkTxOut "S" 3 "T"]))
    by (simpl; intros [H|[]]; discriminate).
  split; [exact H|].
  exact (empty_txins_error_is_unreachable list_order
           (fun s => Permutation_refl s)
           (cluster [row "a" 0 10 "S" DEFAULT_COIN] 0) "S" []
           [mkTxOut "X" 50 DEFAULT_COIN] 1 (Some 0) None []
           [mkTxOut "S" 3 "T"] None false _ H).
Defined.

(** The hypothesis of X7 is needed: when the base coin is among the minted
    amounts, the candidates may hold none of it, and the selection may then
    be empty. *)
Example empty_txins_error_with_minted_base_coin :
  _get_tx_ins_outs list_order
    (cluster [row "a" 0 5 "S" "T"] 0) "S" []
    [mkTxOut "X" 0 "T"] 0 (Some 0) None [] [mkTxOut "S" 1 DEFAULT_COIN] None
    false
  = ([Warning_target_not_met 1 DEFAULT_COIN], Raise (CLIError Empty_txins)).
Proof. vm_compute. reflexivity. Qed.



(** ** Balances and filters of UTxO lists *)

Lemma calculate_utxos_balance_total {A : Type} `{CoinRecord A}
    (utxos : list A) (c : string) :
  calculate_utxos_balance utxos c = total_amount (of_coin c utxos).
Proof. reflexivity. Qed.

(** X9. The balance that [calculate_utxos_balance] gives for a coin is the
    total that the balancer and the selection read from the by-coin index
    of the same rows; it is additive over concatenation and does not depend
    on the order of the rows. *)
Theorem calculate_utxos_balance_of_index :
  forall (A : Type) (R : CoinRecord A) (utxos utxos' : list A) (c : string),
    calculate_utxos_balance utxos c
    = total_amount (get_or_nil c (_organize_tx_ins_outs_by_coin utxos))
    /\ calculate_utxos_balance (utxos ++ utxos') c
       = calculate_utxos_balance utxos c + calculate_utxos_balance utxos' c
    /\ (Permutation utxos utxos' ->
        calculate_utxos_balance utxos c = calculate_utxos_balance utxos' c).
Proof.
  intros A R utxos utxos' c. rewrite !calculate_utxos_balance_total.
  split; [|split].
  - now rewrite organize_by_coin_get.
  - now rewrite of_coin_app, total_amount_app.
  - intros Hp. now apply total_amount_filter_perm.
Qed.

Lemma max_fold_spec {A : Type} (key : A -> Z) (xs : list A) :
  forall (l1 : list A) (best : A) (mid : list A),
    (forall u, In u l1 -> key u < key best) ->
    (forall u, In u mid -> key u <= key best) ->
    let r := fold_left (fun best y => if key y >? key best then y else best)
                       xs best in
    exists l1' l2',
      l1 ++ best :: mid ++ xs = l1' ++ r :: l2'
      /\ (forall u, In u l1' -> key u < key r)
      /\ (forall u, In u l2' -> key u <= key r).
Proof.
  induction xs as [|y ys IH]; intros l1 best mid H1 H2; cbv zeta.
  - exists l1, mid. rewrite app_nil_r. auto.
  - cbn [fold_left]. destruct (Z.gtb_spec (key y) (key best)) as [Hy|Hy].
    + destruct (IH (l1 ++ best :: mid) y []) as (l1' & l2' & E & Ha & Hb).
      * intros u Hu. apply in_app_or in Hu.
        destruct Hu as [Hu|[<-|Hu]];
          [specialize (H1 u Hu)|exact Hy|specialize (H2 u Hu)]; lia.
      * intros u [].
      * exists l1', l2'. split; [|auto].
        rewrite <- E. now rewrite <- app_assoc.
    + destruct (IH l1 best (mid ++ [y])) as (l1' & l2' & E & Ha & Hb).
      * exact H1.
      * intros u Hu. apply in_app_or in Hu.
        destruct Hu as [Hu|[<-|[]]]; [now apply H2|lia].
      * exists l1', l2'. split; [|auto].
        rewrite <- E. now rewrite <- app_assoc.
Qed.

Lemma max_by_spec {A : Type} (key : A -> Z) (l : list A) (r : A) :
  max_by key l = Some r ->
  exists l1 l2,
    l = l1 ++ r :: l2
    /\ (forall u, In u l1 -> key u < key r)
    /\ (forall u, In u l2 -> key u <= key r).
Proof.
  destruct l as [|x xs]; [discriminate|]. intros [= <-].
  destruct (max_fold_spec key xs [] x []) as (l1 & l2 & E & Ha & Hb);
    [intros u []|intros u []|].
  now exists l1, l2.
Qed.

Lemma filter_split {A : Type} (f : A -> bool) (l a b : list A) (r : A) :
  filter f l = a ++ r :: b ->
  exists l1 l2,
    l = l1 ++ r :: l2 /\ filter f l1 = a /\ filter f l2 = b /\ f r = true.
Proof.
  revert a. induction l as [|x l IH]; intros a E.
  - destruct a; discriminate.
  - cbn [filter] in E. destruct (f x) eqn:Ex.
    + destruct a as [|y a].
      * injection E as -> E. exists [], l. auto.
      * injection E as -> E. destruct (IH a E) as (l1 & l2 & -> & <- & <- & Hr).
        exists (y :: l1), l2. simpl. rewrite Ex. auto.
    + destruct (IH a E) as (l1 & l2 & -> & <- & <- & Hr).
      exists (x :: l1), l2. simpl. rewrite Ex. auto.
Qed.

(** X10. [filter_utxo_with_highest_amount] returns a row of the list that
    holds the coin and whose amount is the highest among the rows of that
    coin; among rows of the same highest amount it returns the first one.
    It fails (the [ValueError] of [max]) exactly when no row holds the
    coin. *)
Theorem highest_amount_is_first_maximum :
  forall (utxos : list UTXOData) (c : string),
    match filter_utxo_with_highest_amount utxos c with
    | Some r =>
        utxo_coin r = c
        /\ (forall u, In u utxos -> utxo_coin u = c ->
                      utxo_amount u <= utxo_amount r)
        /\ exists l1 l2,
             utxos = l1 ++ r :: l2
             /\ forall u, In u l1 -> utxo_coin u = c ->
                          utxo_amount u < utxo_amount r
    | None => forall u, In u utxos -> utxo_coin u <> c
    end.
Proof.
  intros utxos c. unfold filter_utxo_with_highest_amount.
  destruct (max_by utxo_amount _) as [r|] eqn:E.
  - apply max_by_spec in E. destruct E as (a & b & E & Ha & Hb).
    destruct (filter_split _ _ _ _ _ E) as (l1 & l2 & -> & <- & <- & Hr).
    apply String.eqb_eq in Hr. split; [exact Hr|]. split.
    + intros u Hu Hc. apply in_app_or in Hu.
      destruct Hu as [Hu|[<-|Hu]].
      * apply Z.lt_le_incl, Ha, filter_In. split; [exact Hu|].
        now apply String.eqb_eq.
      * lia.
      * apply Hb, filter_In. split; [exact Hu|]. now apply String.eqb_eq.
    + exists l1, l2. split; [reflexivity|]. intros u Hu Hc.
      apply Ha, filter_In. split; [exact Hu|]. now apply String.eqb_eq.
  - intros u Hu Hc.
    destruct (filter _ utxos) as [|x xs] eqn:Ef; [|discriminate].
    assert (Hin : In u (filter (fun u => String.eqb (utxo_coin u) c) utxos)).
    { apply filter_In. split; [exact Hu|]. now apply String.eqb_eq. }
    rewrite Ef in Hin. destruct Hin.
Qed.

Lemma fold_left_keep {A : Type} (f : A -> bool) (l : list A) (init : list A) :
  fold_left (fun acc u => if f u then acc ++ [u] else acc) l init
  = init ++ filter f l.
Proof.
  revert init. induction l as [|x l IH]; intros init; simpl.
  - now rewrite app_nil_r.
  - rewrite IH. destruct (f x); [now rewrite <- app_assoc|reflexivity].
Qed.

Lemma fold_left_same {A B : Type} (f g : A -> B -> A) (l : list B) :
  (forall a x, f a x = g a x) ->
  forall init, fold_left f l init = fold_left g l init.
Proof.
  intros Hfg. induction l as [|x l IH]; intros init; simpl; [reflexivity|].
  now rewrite Hfg, IH.
Qed.

Lemma filter_utxos_filter (utxos : list UTXOData) (hash : string)
    (ix amount_wanted : option Z)
    (address coin_name datum inline_datum : string) :
  filter_utxos utxos hash ix amount_wanted address coin_name datum
    inline_datum
  = filter (utxo_matches hash ix amount_wanted address coin_name datum
              inline_datum) utxos.
Proof.
  unfold filter_utxos.
  rewrite <- (app_nil_l (filter _ utxos)), <- fold_left_keep.
  apply fold_left_same. intros acc u. unfold utxo_matches.
  destruct (truthy hash), (String.eqb (utxo_hash u) hash); simpl;
    try reflexivity;
    (destruct ix as [i|]; [destruct (i =? utxo_ix u)|]; simpl;
     try reflexivity);
    (destruct amount_wanted as [a|]; [destruct (a =? utxo_amount u)|]; simpl;
     try reflexivity);
    (destruct (truthy address), (String.eqb (utxo_address u) address); simpl;
     try reflexivity);
    (destruct (truthy coin_name), (String.eqb (utxo_coin u) coin_name); simpl;
     try reflexivity);
    (destruct (truthy datum), (String.eqb (datum_hash u) datum); simpl;
     try reflexivity);
    (destruct (truthy inline_datum),
       (String.eqb (inline_datum_hash u) inline_datum); simpl; reflexivity).
Qed.

Lemma truthy_true (s : string) : truthy s = true <-> s <> EmptyString.
Proof. destruct s; simpl; split; congruence. Qed.

Lemma given_string_matches (wanted actual : string) :
  negb (truthy wanted) || String.eqb actual wanted = true
  <-> (wanted <> EmptyString -> actual = wanted).
Proof.
  rewrite orb_true_iff, negb_true_iff, String.eqb_eq.
  destruct wanted; simpl; split; try tauto; try congruence.
  - intros [H|H] _; [discriminate|exact H].
  - intros H. right. apply H. discriminate.
Qed.

Lemma given_int_matches (wanted : option Z) (actual : Z) :
  match wanted with Some i => i =? actual | None => true end = true
  <-> (forall i, wanted = Some i -> actual = i).
Proof.
  destruct wanted as [i|].
  - rewrite Z.eqb_eq. split; [intros <- j [= <-]; reflexivity|].
    intros H. symmetry. now apply H.
  - split; [discriminate|reflexivity].
Qed.

(** X11. [filter_utxos] returns, in their order and with their
    multiplicity, exactly the rows of the list that satisfy every criterion
    that is given; a criterion that is the empty string or [None] is not
    applied, so without criteria the list is returned as it is. *)
Theorem filter_utxos_keeps_matching_rows :
  forall (utxos : list UTXOData) (hash : string)
         (ix amount_wanted : option Z)
         (address coin_name datum inline_datum : string),
    filter_utxos utxos hash ix amount_wanted address coin_name datum
      inline_datum
    = filter (utxo_matches hash ix amount_wanted address coin_name datum
                inline_datum) utxos
    /\ (forall u,
          utxo_matches hash ix amount_wanted address coin_name datum
            inline_datum u = true
          <-> (hash <> EmptyString -> utxo_hash u = hash)
              /\ (forall i, ix = Some i -> utxo_ix u = i)
              /\ (forall a, amount_wanted = Some a -> utxo_amount u = a)
              /\ (address <> EmptyString -> utxo_address u = address)
              /\ (coin_name <> EmptyString -> utxo_coin u = coin_name)
              /\ (datum <> EmptyString -> datum_hash u = datum)
              /\ (inline_datum <> EmptyString ->
                  inline_datum_hash u = inline_datum))
    /\ filter_utxos utxos EmptyString None None EmptyString EmptyString
         EmptyString EmptyString
       = utxos.
Proof.
  intros. split; [apply filter_utxos_filter|]. split.
  - intros u. unfold utxo_matches.
    rewrite !andb_true_iff, !given_string_matches, !given_int_matches.
    tauto.
  - rewrite filter_utxos_filter. now apply filter_all.
Qed.

(** X12. Filters compose: filtering the result of [filter_utxos] by other
    criteria gives the same rows in whichever order the two filters are
    applied; filtering again by the same criteria changes nothing; and the
    filter of a concatenation is the concatenation of the filters. *)
Theorem filter_utxos_compose :
  forall (utxos utxos' : list UTXOData) (hash hash' : string)
         (ix ix' amount_wanted amount_wanted' : option Z)
         (address address' coin_name coin_name' : string)
         (datum datum' inline_datum inline_datum' : string),
    filter_utxos
      (filter_utxos utxos hash ix amount_wanted address coin_name datum
         inline_datum)
      hash' ix' amount_wanted' address' coin_name' datum' inline_datum'
    = filter_utxos
        (filter_utxos utxos hash' ix' amount_wanted' address' coin_name'
           datum' inline_datum')
        hash ix amount_wanted address coin_name datum inline_datum
    /\ filter_utxos
         (filter_utxos utxos hash ix amount_wanted address coin_name datum
            inline_datum)
         hash ix amount_wanted address coin_name datum inline_datum
       = filter_utxos utxos hash ix amount_wanted address coin_name datum
           inline_datum
    /\ filter_utxos (utxos ++ utxos') hash ix amount_wanted address
         coin_name datum inline_datum
       = filter_utxos utxos hash ix amount_wanted address coin_name datum
           inline_datum
         ++ filter_utxos utxos' hash ix amount_wanted address coin_name
              datum inline_datum.
Proof.
  intros. rewrite !filter_utxos_filter. split; [apply filter_comm|].
  split; [|apply filter_app].
  apply filter_all. intros u Hu. now apply filter_In in Hu.
Qed.

(** ** Inputs of scripts and withdrawals *)

Lemma first_script_ids_In (script_inputs : list ScriptTxIn) (id : string) :
  In id (flat_map (fun x => match script_txins x with
                            | r :: _ => [utxo_id r]
                            | [] => []
                            end) script_inputs)
  <-> exists s r rest,
        In s script_inputs /\ script_txins s = r :: rest /\ utxo_id r = id.
Proof.
  rewrite in_flat_map. split.
  - intros (s & Hs & Hid). destruct (script_txins s) as [|r rest] eqn:E;
      [destruct Hid|]. destruct Hid as [<-|[]]. now exists s, r, rest.
  - intros (s & r & rest & Hs & E & <-). exists s. rewrite E.
    split; [exact Hs|now left].
Qed.

(** X13. An identity is among the strings of [_get_txin_strings] exactly
    when it is the identity of a plain input and not the identity of the
    first row of a script input; no identity is listed twice. When the rows
    of every script input belong to one unspent output, as the code assumes,
    no row of a script input is listed. *)
Theorem txin_strings_leave_out_script_inputs :
  forall (txins : list UTXOData) (script_inputs : list ScriptTxIn),
    (forall id,
        In id (_get_txin_strings txins script_inputs)
        <-> (exists x, In x txins /\ utxo_id x = id)
            /\ ~ exists s r rest,
                   In s script_inputs /\ script_txins s = r :: rest
                   /\ utxo_id r = id)
    /\ NoDup (_get_txin_strings txins script_inputs)
    /\ ((forall s r r', In s script_inputs -> In r (script_txins s) ->
                        In r' (script_txins s) -> utxo_id r = utxo_id r') ->
        forall s r, In s script_inputs -> In r (script_txins s) ->
                    ~ In (utxo_id r) (_get_txin_strings txins script_inputs)).
Proof.
  intros txins script_inputs.
  assert (Hmem : forall id,
             In id (_get_txin_strings txins script_inputs)
             <-> (exists x, In x txins /\ utxo_id x = id)
                 /\ ~ exists s r rest,
                        In s script_inputs /\ script_txins s = r :: rest
                        /\ utxo_id r = id).
  { intros id. unfold _get_txin_strings.
    rewrite filter_In, negb_true_iff, str_mem_false, !str_update_In.
    rewrite first_script_ids_In, in_map_iff. simpl.
    split.
    - intros [[[]|(x & Hid & Hx)] Hn]. split; [now exists x|].
      intros H. apply Hn. now right.
    - intros [(x & Hx & Hid) Hn]. split; [right; now exists x|].
      intros [[]|H]. now apply Hn. }
  split; [exact Hmem|]. split.
  - unfold _get_txin_strings. apply NoDup_filter, str_update_NoDup.
    constructor.
  - intros Hone s r Hs Hr Hin. apply Hmem in Hin. destruct Hin as [_ Hin].
    apply Hin. destruct (script_txins s) as [|r0 rest] eqn:E; [destruct Hr|].
    exists s, r0, rest. split; [exact Hs|]. split; [exact E|].
    apply (Hone s); [exact Hs|rewrite E; now left|now rewrite E].
Qed.

Lemma resolve_withdrawals_map (reward_account_balance : string -> Z)
    (withdrawals : list TxOut) :
  _resolve_withdrawals reward_account_balance withdrawals
  = map (resolve_withdrawal reward_account_balance) withdrawals.
Proof.
  unfold _resolve_withdrawals.
  assert (H : forall init,
             fold_left
               (fun resolved rec =>
                  if txout_amount rec =? -1
                  then resolved
                       ++ [mkTxOut (txout_address rec)
                             (reward_account_balance (txout_address rec))
                             DEFAULT_COIN]
                  else resolved ++ [rec]) withdrawals init
             = init ++ map (resolve_withdrawal reward_account_balance)
                         withdrawals).
  { induction withdrawals as [|x l IH]; intros init; simpl.
    - now rewrite app_nil_r.
    - rewrite IH. unfold resolve_withdrawal.
      destruct (txout_amount x =? -1); now rewrite <- app_assoc. }
  apply H.
Qed.

Lemma resolve_withdrawal_address (reward_account_balance : string -> Z)
    (rec : TxOut) :
  txout_address (resolve_withdrawal reward_account_balance rec)
  = txout_address rec.
Proof. unfold resolve_withdrawal. now destruct (txout_amount rec =? -1). Qed.

Lemma resolve_withdrawal_unmarked (reward_account_balance : string -> Z)
    (rec : TxOut) :
  txout_amount rec <> -1 ->
  resolve_withdrawal reward_account_balance rec = rec.
Proof.
  intros H. unfold resolve_withdrawal.
  destruct (Z.eqb_spec (txout_amount rec) (-1)); [contradiction|reflexivity].
Qed.

(** X14. [_resolve_withdrawals] keeps the number, the order and the
    addresses of the withdrawals and leaves a withdrawal without the mark
    -1 as it is; a marked withdrawal becomes a withdrawal of the reward
    balance of its address, in the base coin. When no reward balance is -1,
    no mark is left in the result and resolving again changes nothing. *)
Theorem resolve_withdrawals_replaces_marks :
  forall (reward_account_balance : string -> Z) (withdrawals : list TxOut),
    map txout_address
        (_resolve_withdrawals reward_account_balance withdrawals)
    = map txout_address withdrawals
    /\ (forall i rec, nth_error withdrawals i = Some rec ->
          nth_error (_resolve_withdrawals reward_account_balance withdrawals)
                    i
          = Some (if txout_amount rec =? -1
                  then mkTxOut (txout_address rec)
                         (reward_account_balance (txout_address rec))
                         DEFAULT_COIN
                  else rec))
    /\ ((forall a, reward_account_balance a <> -1) ->
        (forall rec,
            In rec (_resolve_withdrawals reward_account_balance withdrawals)
            -> txout_amount rec <> -1)
        /\ _resolve_withdrawals reward_account_balance
             (_resolve_withdrawals reward_account_balance withdrawals)
           = _resolve_withdrawals reward_account_balance withdrawals).
Proof.
  intros q w. rewrite !resolve_withdrawals_map. split; [|split].
  - rewrite map_map. apply map_ext. apply resolve_withdrawal_address.
  - intros i rec Hi. rewrite nth_error_map, Hi. reflexivity.
  - intros Hq.
    assert (Hno : forall rec, In rec (map (resolve_withdrawal q) w) ->
                              txout_amount rec <> -1).
    { intros rec Hrec. apply in_map_iff in Hrec.
      destruct Hrec as (r0 & <- & _). unfold resolve_withdrawal.
      destruct (Z.eqb_spec (txout_amount r0) (-1)); [apply Hq|assumption]. }
    split; [exact Hno|].
    rewrite <- (map_id (map (resolve_withdrawal q) w)) at 2.
    apply map_ext_in. intros rec Hrec.
    now apply resolve_withdrawal_unmarked, Hno.
Qed.

(** X15. [_get_withdrawals] resolves the plain and the script withdrawals
    alike: the plain withdrawals it returns are the resolved plain
    withdrawals, the script withdrawals it returns carry the resolved
    withdrawals of the script records, one for one, and the combined list is
    the resolution of the plain withdrawals followed by those of the script
    records. *)
Theorem get_withdrawals_resolves_all :
  forall (reward_account_balance : string -> Z)
         (withdrawals : list TxOut)
         (script_withdrawals : list ScriptWithdrawal),
    let '(resolved, script_resolved, withdrawals_txouts) :=
      _get_withdrawals reward_account_balance withdrawals
        script_withdrawals in
    resolved = _resolve_withdrawals reward_account_balance withdrawals
    /\ map script_withdrawal_txout script_resolved
       = _resolve_withdrawals reward_account_balance
           (map script_withdrawal_txout script_withdrawals)
    /\ withdrawals_txouts
       = _resolve_withdrawals reward_account_balance
           (withdrawals ++ map script_withdrawal_txout script_withdrawals).
Proof.
  intros q w sw. unfold _get_withdrawals.
  assert (Hw : match w with
               | [] => w
               | _ :: _ => _resolve_withdrawals q w
               end = _resolve_withdrawals q w) by now destruct w.
  rewrite Hw.
  assert (Hs : map script_withdrawal_txout
                 (map (fun s =>
                         mkScriptWithdrawal
                           (hd (script_withdrawal_txout s)
                               (_resolve_withdrawals q
                                  [script_withdrawal_txout s]))) sw)
               = _resolve_withdrawals q (map script_withdrawal_txout sw)).
  { rewrite resolve_withdrawals_map, !map_map. apply map_ext.
    intros s. now rewrite resolve_withdrawals_map. }
  split; [reflexivity|]. split; [exact Hs|].
  rewrite Hs, !resolve_withdrawals_map. now rewrite map_app.
Qed.

(** ** Joined outputs *)

Lemma of_coin_snoc (k : string) (g : list TxOut) (ar : TxOut) :
  total_amount (of_coin k (g ++ [ar]))
  = total_amount (of_coin k g)
    + (if String.eqb (txout_coin ar) k then txout_amount ar else 0).
Proof.
  rewrite of_coin_app, total_amount_app. f_equal.
  unfold of_coin. cbn [filter]. change (coin ar) with (txout_coin ar).
  destruct (String.eqb (txout_coin ar) k); [|reflexivity].
  rewrite total_amount_cons, total_amount_nil. apply Z.add_0_r.
Qed.

Lemma sum_snoc (amounts : list Z) (a : Z) :
  fold_left Z.add (amounts ++ [a]) 0 = fold_left Z.add amounts 0 + a.
Proof. now rewrite fold_left_app. Qed.

Lemma join_step_inv (d : dict (TxOut * list Z)) (g : list TxOut)
    (ar : TxOut) :
  join_inv d g -> join_inv (join_coin_step d ar) (g ++ [ar]).
Proof.
  intros (Hnd & Hkeys & Hent). unfold join_coin_step.
  assert (Hin : forall k, (exists r, In r (g ++ [ar]) /\ txout_coin r = k)
                          <-> In k (dict_keys d) \/ k = txout_coin ar).
  { intros k. rewrite Hkeys. split.
    - intros (r & Hr & Hc). apply in_app_or in Hr.
      destruct Hr as [Hr|[<-|[]]]; [left; now exists r|now right].
    - intros [(r & Hr & Hc)| ->].
      + exists r. split; [apply in_or_app; now left|exact Hc].
      + exists ar. split; [apply in_or_app; right; now left|reflexivity]. }
  destruct (dict_get (txout_coin ar) d) as [[r amounts]|] eqn:E.
  - assert (Hmem : In (txout_coin ar) (dict_keys d)).
    { apply dict_mem_keys. unfold dict_mem. now rewrite E. }
    split; [now apply dict_keys_set_NoDup|]. split.
    + intros k. rewrite Hin, dict_keys_set.
      replace (dict_mem (txout_coin ar) d) with true
        by (symmetry; now apply dict_mem_keys).
      split; [tauto|]. intros [H| ->]; assumption.
    + intros k r' amounts' Hget.
      destruct (string_dec k (txout_coin ar)) as [->|Hk].
      * rewrite dict_get_set_eq in Hget. injection Hget as <- <-.
        destruct (Hent _ _ _ E) as (Hc & Hr & Hsum).
        split; [exact Hc|]. split; [apply in_or_app; now left|].
        rewrite sum_snoc, of_coin_snoc, String.eqb_refl. lia.
      * rewrite dict_get_set_neq in Hget by exact Hk.
        destruct (Hent _ _ _ Hget) as (Hc & Hr & Hsum).
        split; [exact Hc|]. split; [apply in_or_app; now left|].
        rewrite of_coin_snoc.
        replace (String.eqb (txout_coin ar) k) with false; [lia|].
        symmetry. apply String.eqb_neq. congruence.
  - assert (Hmem : ~ In (txout_coin ar) (dict_keys d))
      by now apply dict_get_None_keys.
    split; [now apply dict_keys_set_NoDup|]. split.
    + intros k. rewrite Hin, dict_keys_set.
      replace (dict_mem (txout_coin ar) d) with false.
      * rewrite in_app_iff. simpl. intuition congruence.
      * symmetry. unfold dict_mem. now rewrite E.
    + intros k r' amounts' Hget.
      destruct (string_dec k (txout_coin ar)) as [->|Hk].
      * rewrite dict_get_set_eq in Hget. injection Hget as <- <-.
        split; [reflexivity|]. split; [apply in_or_app; right; now left|].
        rewrite of_coin_snoc, String.eqb_refl.
        rewrite (of_coin_none (txout_coin ar) g); [reflexivity|].
        intros o Ho Hc. apply Hmem, Hkeys. now exists o.
      * rewrite dict_get_set_neq in Hget by exact Hk.
        destruct (Hent _ _ _ Hget) as (Hc & Hr & Hsum).
        split; [exact Hc|]. split; [apply in_or_app; now left|].
        rewrite of_coin_snoc.
        replace (String.eqb (txout_coin ar) k) with false; [lia|].
        symmetry. apply String.eqb_neq. congruence.
Qed.

Lemma join_fold_inv (l : list TxOut) :
  forall (d : dict (TxOut * list Z)) (g : list TxOut),
    join_inv d g -> join_inv (fold_left join_coin_step l d) (g ++ l).
Proof.
  induction l as [|ar l IH]; intros d g Hinv; simpl.
  - now rewrite app_nil_r.
  - replace (g ++ ar :: l) with ((g ++ [ar]) ++ l)
      by now rewrite <- app_assoc.
    apply IH. now apply join_step_inv.
Qed.

Lemma join_inv_all (g : list TxOut) :
  join_inv (fold_left join_coin_step g []) g.
Proof.
  apply (join_fold_inv g [] []). split; [constructor|]. split.
  - intros k. split; [intros []|intros (r & [] & _)].
  - intros k r amounts H. discriminate.
Qed.

(** The outputs that [sum_txouts] builds from a group. *)
Lemma sum_txouts_spec (g : list TxOut) :
  NoDup (map txout_coin (sum_txouts g))
  /\ (forall o, In o (sum_txouts g) ->
        txout_amount o = calculate_utxos_balance g (txout_coin o)
        /\ exists r, In r g /\ txout_address o = txout_address r
                     /\ txout_coin o = txout_coin r)
  /\ forall r, In r g ->
       exists o, In o (sum_txouts g) /\ txout_coin o = txout_coin r.
Proof.
  destruct (join_inv_all g) as (Hnd & Hkeys & Hent). unfold sum_txouts.
  set (d := fold_left join_coin_step g []) in *.
  assert (Hentry : forall k r amounts, In (k, (r, amounts)) d ->
             txout_coin r = k /\ In r g
             /\ fold_left Z.add amounts 0 = total_amount (of_coin k g)).
  { intros k r amounts H. apply Hent. now apply dict_get_NoDup_In. }
  split; [|split].
  - unfold dict_values. rewrite !map_map.
    rewrite (map_ext_in _ fst); [exact Hnd|].
    intros [k [r amounts]] H. simpl. now apply Hentry in H.
  - intros o Ho. unfold dict_values in Ho. rewrite map_map in Ho.
    apply in_map_iff in Ho. destruct Ho as ([k [r amounts]] & <- & H).
    apply Hentry in H. destruct H as (Hc & Hr & Hsum). simpl.
    split; [now rewrite Hsum, Hc|]. now exists r.
  - intros r Hr.
    assert (Hk : In (txout_coin r) (dict_keys d))
      by (apply Hkeys; now exists r).
    apply in_map_iff in Hk. destruct Hk as ([k [r0 amounts]] & Hk & H).
    simpl in Hk. subst k.
    exists (mkTxOut (txout_address r0) (fold_left Z.add amounts 0)
                    (txout_coin r0)).
    split.
    + unfold dict_values. rewrite map_map. apply in_map_iff.
      now exists (txout_coin r, (r0, amounts)).
    + simpl. now apply Hentry in H.
Qed.

Lemma nodup_coin_total (l : list TxOut) (o : TxOut) :
  NoDup (map txout_coin l) -> In o l ->
  total_amount (of_coin (txout_coin o) l) = txout_amount o.
Proof.
  induction l as [|x l IH]; intros Hnd Hin; [destruct Hin|].
  inversion Hnd as [|? ? Hx Hnd']; subst.
  unfold of_coin. cbn [filter]. change (coin x) with (txout_coin x).
  destruct Hin as [->|Hin].
  - rewrite String.eqb_refl, total_amount_cons.
    fold (of_coin (txout_coin o) l).
    rewrite (of_coin_none (txout_coin o) l); [apply Z.add_0_r|].
    intros o' Ho' Hc. apply Hx. rewrite <- Hc. now apply in_map.
  - destruct (String.eqb_spec (txout_coin x) (txout_coin o)) as [E|E].
    + exfalso. apply Hx. rewrite E. now apply in_map.
    + now apply IH.
Qed.

Lemma sum_txouts_balance (g : list TxOut) (c : string) :
  calculate_utxos_balance (sum_txouts g) c = calculate_utxos_balance g c.
Proof.
  destruct (sum_txouts_spec g) as (Hnd & Hout & Hin).
  rewrite !calculate_utxos_balance_total.
  destruct (in_dec string_dec c (map txout_coin g)) as [Hc|Hc].
  - apply in_map_iff in Hc. destruct Hc as (r & <- & Hr).
    destruct (Hin r Hr) as (o & Ho & Hco). rewrite <- Hco.
    rewrite (nodup_coin_total _ o Hnd Ho).
    now destruct (Hout o Ho) as [-> _].
  - rewrite (of_coin_none c g).
    + rewrite (of_coin_none c (sum_txouts g)); [reflexivity|].
      intros o Ho Hco. destruct (Hout o Ho) as (_ & r & Hr & _ & Hcr).
      apply Hc. apply in_map_iff. exists r. split; [|exact Hr].
      change (coin o) with (txout_coin o) in Hco. congruence.
    + intros r Hr Hcr. apply Hc. apply in_map_iff. now exists r.
Qed.

Lemma balance_concat_map (f : list TxOut -> list TxOut)
    (groups : list (list TxOut)) (c : string) :
  (forall g, calculate_utxos_balance (f g) c = calculate_utxos_balance g c) ->
  calculate_utxos_balance (concat (map f groups)) c
  = calculate_utxos_balance (concat groups) c.
Proof.
  intros Hf. induction groups as [|g groups IH]; [reflexivity|].
  simpl. rewrite !calculate_utxos_balance_total in *.
  rewrite !of_coin_app, !total_amount_app, IH.
  f_equal. rewrite <- !calculate_utxos_balance_total. apply Hf.
Qed.

Lemma group_fold_NoDup {A : Type} (key_of : A -> string) (l : list A) :
  forall db : dict (list A),
    NoDup (dict_keys db) ->
    NoDup (dict_keys (fold_left (group_step key_of) l db)).
Proof.
  induction l as [|r l IH]; intros db Hdb; [exact Hdb|].
  simpl. apply IH. unfold group_step. rewrite group_append_keys.
  destruct (dict_mem (key_of r) db) eqn:E; [exact Hdb|].
  apply Permutation_NoDup with (l := key_of r :: dict_keys db).
  - apply Permutation_cons_append.
  - constructor; [|exact Hdb]. intros H. apply dict_mem_keys in H.
    congruence.
Qed.

Section JoinedGroups.
Variable eutxo_attrs : TxOut -> string.
Variable txouts : list TxOut.

Let groups := fold_left (group_step eutxo_attrs) txouts [].

Lemma joined_txouts_groups :
  get_joined_txouts eutxo_attrs txouts = map sum_txouts (dict_values groups).
Proof. reflexivity. Qed.

Lemma groups_perm : Permutation (concat (dict_values groups)) txouts.
Proof.
  pose proof (group_fold_filter_perm eutxo_attrs (fun _ => true) txouts [])
    as H.
  rewrite !filter_true in H. exact H.
Qed.

Lemma groups_NoDup : NoDup (dict_keys groups).
Proof. apply group_fold_NoDup. constructor. Qed.

Lemma groups_entry (k : string) (g : list TxOut) :
  In (k, g) groups ->
  g = filter (fun r => String.eqb (eutxo_attrs r) k) txouts /\ g <> [].
Proof.
  intros H.
  assert (Hg : g = filter (fun r => String.eqb (eutxo_attrs r) k) txouts).
  { pose proof (group_fold_get eutxo_attrs k txouts []) as Hget.
    fold groups in Hget. unfold get_or_nil in Hget.
    rewrite (dict_get_NoDup_In _ _ _ groups_NoDup H) in Hget. exact Hget. }
  split; [exact Hg|].
  assert (Hk : In k (dict_keys groups)) by now apply (in_map fst) in H.
  apply (group_fold_keys eutxo_attrs) in Hk.
  destruct Hk as [[]|(r & Hr & Hkr)].
  intros E. rewrite E in Hg.
  assert (Hin : In r (filter (fun r => String.eqb (eutxo_attrs r) k) txouts)).
  { apply filter_In. split; [exact Hr|]. now apply String.eqb_eq. }
  rewrite <- Hg in Hin. destruct Hin.
Qed.
End JoinedGroups.

Lemma Forall2_entries {K V W : Type} (R : K -> W -> Prop) (f : V -> W)
    (d : list (K * V)) :
  (forall k v, In (k, v) d -> R k (f v)) ->
  Forall2 R (map fst d) (map f (map snd d)).
Proof.
  induction d as [|[k v] d IH]; intros H; simpl; constructor.
  - apply H. now left.
  - apply IH. intros k' v' H'. apply H. now right.
Qed.

(** X16. Joining the outputs conserves value: for every coin, the balance
    of the joined outputs is the balance of the outputs that were given. *)
Theorem joined_txouts_conserve_balance :
  forall (eutxo_attrs : TxOut -> string) (txouts : list TxOut) (c : string),
    calculate_utxos_balance (concat (get_joined_txouts eutxo_attrs txouts)) c
    = calculate_utxos_balance txouts c.
Proof.
  intros key txouts c. rewrite joined_txouts_groups.
  rewrite (balance_concat_map sum_txouts _ c)
    by (intros g; apply sum_txouts_balance).
  rewrite !calculate_utxos_balance_total.
  apply total_amount_filter_perm, groups_perm.
Qed.

(** X17. [get_joined_txouts] returns one group per key of the outputs:
    the group of a key is not
    empty and holds, for every coin of the outputs of that key, exactly one
    output, whose amount is the total of that coin over the outputs of the
    key and whose address is the address of one of them. *)
Theorem joined_txouts_one_group_per_key :
  forall (eutxo_attrs : TxOut -> string) (txouts : list TxOut),
    exists keys : list string,
      NoDup keys
      /\ (forall k, In k keys <-> exists r, In r txouts /\ eutxo_attrs r = k)
      /\ Forall2 (joined_group eutxo_attrs txouts) keys
           (get_joined_txouts eutxo_attrs txouts).
Proof.
  intros key txouts.
  exists (dict_keys (fold_left (group_step key) txouts [])).
  split; [apply groups_NoDup|]. split.
  - intros k. rewrite (group_fold_keys key). split.
    + intros [[]|H]. exact H.
    + intros H. now right.
  - rewrite joined_txouts_groups. apply Forall2_entries.
    intros k g Hkg. apply groups_entry in Hkg. destruct Hkg as [Hg Hne].
    unfold joined_group. cbv zeta. rewrite <- Hg.
    destruct (sum_txouts_spec g) as (Hnd & Hout & Hin).
    split; [|split; [exact Hnd|split; [exact Hout|exact Hin]]].
    destruct g as [|r g']; [now contradiction Hne|].
    destruct (Hin r (or_introl eq_refl)) as (o & Ho & _).
    intros E. rewrite E in Ho. destruct Ho.
Qed.

(** ** Data for the build commands *)

Lemma get_withdrawals_eq (reward_account_balance : string -> Z)
    (withdrawals : list TxOut) (script_withdrawals : list ScriptWithdrawal) :
  _get_withdrawals reward_account_balance withdrawals script_withdrawals
  = (_resolve_withdrawals reward_account_balance withdrawals,
     map (fun s =>
            mkScriptWithdrawal
              (resolve_withdrawal reward_account_balance
                 (script_withdrawal_txout s))) script_withdrawals,
     _resolve_withdrawals reward_account_balance
       (withdrawals ++ map script_withdrawal_txout script_withdrawals)).
Proof.
  unfold _get_withdrawals.
  assert (Hw : match withdrawals with
               | [] => withdrawals
               | _ :: _ => _resolve_withdrawals reward_account_balance
                             withdrawals
               end
               = _resolve_withdrawals reward_account_balance withdrawals)
    by now destruct withdrawals.
  rewrite Hw.
  assert (Hs : map (fun s =>
                      mkScriptWithdrawal
                        (hd (script_withdrawal_txout s)
                            (_resolve_withdrawals reward_account_balance
                               [script_withdrawal_txout s])))
                   script_withdrawals
               = map (fun s =>
                        mkScriptWithdrawal
                          (resolve_withdrawal reward_account_balance
                             (script_withdrawal_txout s)))
                     script_withdrawals).
  { apply map_ext. intros s. now rewrite resolve_withdrawals_map. }
  rewrite Hs. f_equal.
  rewrite !resolve_withdrawals_map, map_app, !map_map. reflexivity.
Qed.

Lemma script_address_In (src_address : string)
    (script_inputs : list ScriptTxIn) :
  str_mem src_address
    (str_update [] (map utxo_address (flat_map script_txins script_inputs)))
  = true
  <-> exists s r, In s script_inputs /\ In r (script_txins s)
                  /\ utxo_address r = src_address.
Proof.
  rewrite str_mem_In, str_update_In, in_map_iff. split.
  - intros [[]|(r & Ha & Hr)]. apply in_flat_map in Hr.
    destruct Hr as (s & Hs & Hr). now exists s, r.
  - intros (s & r & Hs & Hr & Ha). right. exists r. split; [exact Ha|].
    apply in_flat_map. now exists s.
Qed.

Lemma auto_selected_inputs_are_candidates
    (set_iter : str_set -> list string) (clusterlib_obj : ClusterLib)
    (src_address : string) (txouts : list TxOut) (fee : Z)
    (deposit treasury_donation : option Z)
    (withdrawals mint_txouts : list TxOut)
    (src_addr_utxos : option (list UTXOData)) (skip_asset_balancing : bool)
    (logs : list LogRecord) (ins : list UTXOData) (outs : list TxOut) :
  _get_tx_ins_outs set_iter clusterlib_obj src_address [] txouts fee deposit
    treasury_donation withdrawals mint_txouts src_addr_utxos
    skip_asset_balancing
  = (logs, Return (ins, outs)) ->
  ins <> []
  /\ forall r, In r ins ->
       In r (candidate_utxos clusterlib_obj src_address src_addr_utxos).
Proof.
  intros Hres.
  destruct (auto_select_returns set_iter clusterlib_obj src_address txouts
              fee deposit treasury_donation withdrawals mint_txouts
              src_addr_utxos skip_asset_balancing logs ins outs Hres)
    as (usable & Hu & -> & Hne).
  split; [exact Hne|]. intros r Hr.
  pose proof (usable_utxos_perm _ _ _ Hu) as Hperm.
  apply (Permutation_in _
           (selected_rows_perm set_iter clusterlib_obj src_address txouts
              fee deposit treasury_donation withdrawals mint_txouts
              src_addr_utxos usable Hperm)) in Hr.
  now apply filter_In in Hr.
Qed.

(** X18. [collect_data_for_build] raises its own error exactly when a row
    of a script input sits at the source address. When it returns, the
    withdrawals are the resolved ones; the payment inputs are the inputs of
    the caller whenever the caller gave inputs or script inputs (the rows of
    the script inputs are never added to them), and only when neither was
    given are they the inputs selected among the candidates of the source
    address. *)
Theorem collect_data_payment_inputs :
  forall (set_iter : str_set -> list string) (clusterlib_obj : ClusterLib)
         (reward_account_balance : string -> Z) (src_address : string)
         (txins : list UTXOData) (txouts : list TxOut)
         (script_inputs : list ScriptTxIn) (mint : list Mint) (fee : Z)
         (withdrawals : list TxOut)
         (script_withdrawals : list ScriptWithdrawal)
         (deposit treasury_donation : option Z)
         (src_addr_utxos : option (list UTXOData))
         (skip_asset_balancing : bool),
    match
      snd (collect_data_for_build set_iter clusterlib_obj
             reward_account_balance src_address txins txouts script_inputs
             mint fee withdrawals script_withdrawals deposit
             treasury_donation src_addr_utxos skip_asset_balancing)
    with
    | Build_source_is_script_address =>
        exists s r, In s script_inputs /\ In r (script_txins s)
                    /\ utxo_address r = src_address
    | Build_raise _ =>
        forall s r, In s script_inputs -> In r (script_txins s) ->
                    utxo_address r <> src_address
    | Build_return data =>
        (forall s r, In s script_inputs -> In r (script_txins s) ->
                     utxo_address r <> src_address)
        /\ build_withdrawals data
           = _resolve_withdrawals reward_account_balance withdrawals
        /\ map script_withdrawal_txout (build_script_withdrawals data)
           = _resolve_withdrawals reward_account_balance
               (map script_withdrawal_txout script_withdrawals)
        /\ (txins <> [] \/ flat_map script_txins script_inputs <> [] ->
            build_txins data = txins)
        /\ (txins = [] -> flat_map script_txins script_inputs = [] ->
            build_txins data <> []
            /\ forall r, In r (build_txins data) ->
                 In r (candidate_utxos clusterlib_obj src_address
                         src_addr_utxos))
    end.
Proof.
  intros set_iter cl q src txins txouts script_inputs mint fee w sw dep don
         sau skip.
  unfold collect_data_for_build. rewrite get_withdrawals_eq.
  destruct (str_mem src _) eqn:Es.
  - simpl. now apply script_address_In.
  - assert (Hno : forall s r, In s script_inputs -> In r (script_txins s) ->
                              utxo_address r <> src).
    { intros s r Hs Hr Ha.
      assert (H : str_mem src
                    (str_update []
                       (map utxo_address
                          (flat_map script_txins script_inputs))) = true)
        by (apply script_address_In; now exists s, r).
      congruence. }
    destruct (_get_tx_ins_outs _ _ _ _ _ _ _ _ _ _ _ _)
      as [logs [[ins outs]|e]] eqn:Eres; [|exact Hno].
    cbn [snd build_txins build_withdrawals build_script_withdrawals].
    split; [exact Hno|]. split; [reflexivity|]. split.
    { rewrite resolve_withdrawals_map, !map_map. reflexivity. }
    split.
    + intros [Ht|Hs].
      * destruct txins as [|t ts]; [contradiction|].
        now destruct (flat_map script_txins script_inputs).
      * destruct (flat_map script_txins script_inputs); [contradiction|].
        now destruct txins.
    + intros -> Hs. rewrite Hs in *. simpl in Eres.
      exact (auto_selected_inputs_are_candidates _ _ _ _ _ _ _ _ _ _ _ _ _ _
               Eres).
Qed.

(** ** The balancer and the iteration order of the set of coins *)

(** X19. The result of the balancer does not depend on the order in which
    the set of coins is visited: for two iteration orders it raises the same
    exception, or it returns twice, with the same requested outputs followed
    by the same change outputs up to their order, and with the same log
    records up to their order. *)
Theorem balance_txouts_any_iteration_order :
  forall (set_iter set_iter' : str_set -> list string),
    (forall s, Permutation (set_iter s) s) ->
    (forall s, Permutation (set_iter' s) s) ->
    forall (change_address : string) (txouts : list TxOut)
           (txins_db : dict (list UTXOData))
           (txouts_passed_db txouts_mint_db : dict (list TxOut))
           (fee : Z) (withdrawals : list TxOut)
           (deposit treasury_donation : Z) (skip_asset_balancing : bool),
      match
        _balance_txouts set_iter change_address txouts txins_db
          txouts_passed_db txouts_mint_db fee withdrawals deposit
          treasury_donation skip_asset_balancing,
        _balance_txouts set_iter' change_address txouts txins_db
          txouts_passed_db txouts_mint_db fee withdrawals deposit
          treasury_donation skip_asset_balancing
      with
      | (logs, Return outs), (logs', Return outs') =>
          Permutation logs logs'
          /\ exists changes changes',
               outs = positive_txouts txouts ++ changes
               /\ outs' = positive_txouts txouts ++ changes'
               /\ Permutation changes changes'
      | (_, Raise e), (_, Raise e') => e = e'
      | _, _ => False
      end.
Proof.
  intros it it' Hperm Hperm' ca txouts txins_db passed mint fee w dep don
         skip.
  destruct (burning_txouts txouts) as [|b bs] eqn:Hb.
  2:{ unfold _balance_txouts. rewrite Hb. reflexivity. }
  destruct skip.
  { unfold _balance_txouts. rewrite Hb. simpl. split; [constructor|].
    exists [], []. rewrite app_nil_r. repeat split. constructor. }
  assert (Hcoins : Permutation
                     (it (coin_union (dict_keys txins_db) (dict_keys passed)
                            (dict_keys mint)))
                     (it' (coin_union (dict_keys txins_db)
                             (dict_keys passed) (dict_keys mint)))).
  { rewrite Hperm, Hperm'. reflexivity. }
  destruct (Nat.leb_spec
              (length (send_all_indices (get_or_nil DEFAULT_COIN passed))) 1)
    as [Hm|Hm].
  - rewrite (balance_txouts_returns it ca txouts txins_db passed mint
               fee w dep don Hb Hm).
    rewrite (balance_txouts_returns it' ca txouts txins_db passed mint
               fee w dep don Hb Hm).
    split; [now apply Permutation_flat_map|].
    eexists. eexists. split; [reflexivity|]. split; [reflexivity|].
    now apply Permutation_flat_map.
  - assert (Hbase : forall i : str_set -> list string,
               (forall s, Permutation (i s) s) ->
               In DEFAULT_COIN
                  (i (coin_union (dict_keys txins_db) (dict_keys passed)
                        (dict_keys mint)))).
    { intros i Hi. apply (set_iter_In i Hi), coin_union_In. right; left.
      apply marked_base_coin_is_a_key. lia. }
    unfold _balance_txouts. rewrite Hb.
    pose proof (balance_loop_raises ca txins_db passed mint fee w dep don _
                  (Hbase it Hperm) Hm
                  (filter (fun r => txout_amount r >? 0) txouts)) as H1.
    pose proof (balance_loop_raises ca txins_db passed mint fee w dep don _
                  (Hbase it' Hperm') Hm
                  (filter (fun r => txout_amount r >? 0) txouts)) as H2.
    destruct (for_each _ (it _) _) as [l1 r1].
    destruct (for_each _ (it' _) _) as [l2 r2].
    simpl in H1, H2. subst r1 r2. reflexivity.
Qed.

Lemma balance_txouts_any_iteration_order_witness :
  Permutation
    [Error_coin_not_sufficient "T" 0 2]
    [Error_coin_not_sufficient "T" 0 2]
  /\ exists changes changes',
       [mkTxOut "A" 4 DEFAULT_COIN; mkTxOut "A" 2 "T";
        mkTxOut "S" 3 DEFAULT_COIN; mkTxOut "S" 5 "U"]
       = positive_txouts [mkTxOut "A" 4 DEFAULT_COIN; mkTxOut "A" 2 "T"]
         ++ changes
       /\ [mkTxOut "A" 4 DEFAULT_COIN; mkTxOut "A" 2 "T";
           mkTxOut "S" 5 "U"; mkTxOut "S" 3 DEFAULT_COIN]
          = positive_txouts [mkTxOut "A" 4 DEFAULT_COIN; mkTxOut "A" 2 "T"]
            ++ changes'
       /\ Permutation changes changes'.
Proof.
  exact (balance_txouts_any_iteration_order list_order (@rev string)
           (fun s => Permutation_refl s)
           (fun s => Permutation_sym (Permutation_rev s)) "S"
           [mkTxOut "A" 4 DEFAULT_COIN; mkTxOut "A" 2 "T"]
           (_organize_tx_ins_outs_by_coin
              [row "h" 0 10 "S" DEFAULT_COIN; row "h" 0 5 "S" "U"])
           (_organize_tx_ins_outs_by_coin
              [mkTxOut "A" 4 DEFAULT_COIN; mkTxOut "A" 2 "T"])
           [] 3 [] 0 0 false).
Defined.

(** ** Token burning among the requested outputs *)

Lemma burning_txouts_In (txouts : list TxOut) (o : TxOut) :
  In o txouts -> txout_amount o < 0 -> txout_coin o <> DEFAULT_COIN ->
  burning_txouts txouts <> [].
Proof.
  intros Ho Ha Hc E.
  assert (H : In o (burning_txouts txouts)).
  { apply filter_In. split; [exact Ho|]. apply andb_true_iff. split.
    - now apply Z.ltb_lt.
    - apply negb_true_iff. now apply String.eqb_neq. }
  rewrite E in H. destruct H.
Qed.

Lemma balance_txouts_burning (set_iter : str_set -> list string)
    (change_address : string) (txouts : list TxOut)
    (txins_db : dict (list UTXOData))
    (txouts_passed_db txouts_mint_db : dict (list TxOut))
    (fee : Z) (withdrawals : list TxOut) (deposit treasury_donation : Z)
    (skip_asset_balancing : bool) :
  burning_txouts txouts <> [] ->
  snd (_balance_txouts set_iter change_address txouts txins_db
         txouts_passed_db txouts_mint_db fee withdrawals deposit
         treasury_donation skip_asset_balancing)
  = Raise (AssertionError (Token_burning_not_allowed (burning_txouts txouts))).
Proof.
  intros Hb. unfold _balance_txouts.
  destruct (burning_txouts txouts); [contradiction|reflexivity].
Qed.

(** X20. Token burning cannot be requested through the outputs: when some
    requested output of a coin other than the base coin has a negative
    amount, the orchestrator never returns; whatever the inputs, supplied or
    selected, it raises. *)
Theorem token_burning_output_never_builds :
  forall (set_iter : str_set -> list string) (clusterlib_obj : ClusterLib)
         (src_address : string) (txins : list UTXOData)
         (txouts : list TxOut) (fee : Z)
         (deposit treasury_donation : option Z)
         (withdrawals mint_txouts : list TxOut)
         (src_addr_utxos : option (list UTXOData))
         (skip_asset_balancing : bool) (o : TxOut),
    In o txouts -> txout_amount o < 0 -> txout_coin o <> DEFAULT_COIN ->
    exists e,
      snd (_get_tx_ins_outs set_iter clusterlib_obj src_address txins txouts
             fee deposit treasury_donation withdrawals mint_txouts
             src_addr_utxos skip_asset_balancing)
      = Raise e.
Proof.
  intros set_iter cl src txins txouts fee dep don w mint sau skip o Ho Ha Hc.
  pose proof (burning_txouts_In txouts o Ho Ha Hc) as Hb.
  destruct txins as [|t ts].
  2:{ rewrite explicit_txins_run by discriminate.
      destruct (forallb _ _); [|simpl; eauto]. cbn [snd].
      rewrite balance_txouts_burning by exact Hb. eauto. }
  pose proof (auto_select_cases set_iter cl src txouts fee dep don w mint sau
                skip) as Hcases.
  destruct Hcases as [[_ H]|[(e & He & H)|[[_ H]|[(u & _ & _ & H)|H]]]];
    try (rewrite H; simpl; eauto; fail).
  destruct H as (usable & _ & _ & _ & Hu & Hp & _ & _).
  destruct (candidate_utxos cl src sau) as [|r0 rs] eqn:Erows.
  { rewrite (auto_select_no_rows set_iter cl src txouts fee dep don w mint
               sau skip Erows). simpl. eauto. }
  assert (Hrows : candidate_utxos cl src sau <> [])
    by (rewrite Erows; discriminate).
  rewrite <- Erows in Hu.
  destruct usable as [|u us] eqn:Eus.
  { rewrite (auto_select_no_usable set_iter cl src txouts fee dep don w mint
               sau skip Hrows Hu). simpl. eauto. }
  assert (Hne : u :: us <> []) by discriminate.
  destruct (auto_select_run set_iter cl src txouts fee dep don w mint sau
              skip (u :: us) Hrows Hu Hne Hp) as [Hempty Hrun].
  match type of Hrun with
  | ?rows <> [] -> _ => destruct rows as [|f fs] eqn:Ef
  end.
  - rewrite (Hempty eq_refl). simpl. eauto.
  - rewrite Hrun by discriminate.
    rewrite balance_txouts_burning by exact Hb. eauto.
Qed.

Lemma token_burning_output_never_builds_witness :
  exists e,
    snd (_get_tx_ins_outs list_order
           (cluster [row "a" 0 10 "S" DEFAULT_COIN; row "a" 0 9 "S" "T"] 0)
           "S" [] [mkTxOut "X" 5 DEFAULT_COIN; mkTxOut "X" (-4) "T"] 1
           (Some 0) None [] [] None false)
    = Raise e.
Proof.
  apply (token_burning_output_never_builds list_order
           (cluster [row "a" 0 10 "S" DEFAULT_COIN; row "a" 0 9 "S" "T"] 0)
           "S" [] [mkTxOut "X" 5 DEFAULT_COIN; mkTxOut "X" (-4) "T"] 1
           (Some 0) None [] [] None false (mkTxOut "X" (-4) "T")).
  - right. left. reflexivity.
  - simpl. lia.
  - discriminate.
Defined.

(** ** The change address of the build commands *)

Lemma orchestrator_returns_balanced (set_iter : str_set -> list string)
    (clusterlib_obj : ClusterLib) (src_address : string)
    (txins : list UTXOData) (txouts : list TxOut) (fee : Z)
    (deposit treasury_donation : option Z)
    (withdrawals mint_txouts : list TxOut)
    (src_addr_utxos : option (list UTXOData)) (skip_asset_balancing : bool)
    (logs : list LogRecord) (ins : list UTXOData) (outs : list TxOut) :
  _get_tx_ins_outs set_iter clusterlib_obj src_address txins txouts fee
    deposit treasury_donation withdrawals mint_txouts src_addr_utxos
    skip_asset_balancing
  = (logs, Return (ins, outs)) ->
  snd (_balance_txouts set_iter src_address txouts
         (_organize_tx_ins_outs_by_coin ins)
         (_organize_tx_ins_outs_by_coin txouts)
         (_organize_tx_ins_outs_by_coin mint_txouts) fee withdrawals
         match deposit with
         | Some d => d
         | None => g_transaction_get_tx_deposit clusterlib_obj
         end
         match treasury_donation with Some d => d | None => 0 end
         skip_asset_balancing)
  = Return outs.
Proof.
  intros Hres. destruct txins as [|t ts].
  2:{ rewrite explicit_txins_run in Hres by discriminate.
      destruct (forallb _ _); [|discriminate].
      injection Hres as _ Hres.
      destruct (snd (_balance_txouts _ _ _ _ _ _ _ _ _ _ _)) as [o|e] eqn:E;
        [|discriminate].
      injection Hres as <- <-. exact E. }
  pose proof (auto_select_cases set_iter clusterlib_obj src_address txouts
                fee deposit treasury_donation withdrawals mint_txouts
                src_addr_utxos skip_asset_balancing) as Hcases.
  destruct Hcases as [[_ H]|[(e & He & H)|[[_ H]|[(u & _ & _ & H)|H]]]];
    try (rewrite H in Hres; discriminate).
  destruct H as (usable & _ & _ & _ & Hu & Hp & _ & _).
  assert (Hrows : candidate_utxos clusterlib_obj src_address src_addr_utxos
                  <> []).
  { intros E.
    rewrite (auto_select_no_rows set_iter clusterlib_obj src_address txouts
               fee deposit treasury_donation withdrawals mint_txouts
               src_addr_utxos skip_asset_balancing E) in Hres.
    discriminate. }
  assert (Hne : usable <> []).
  { intros E. rewrite E in Hu.
    rewrite (auto_select_no_usable set_iter clusterlib_obj src_address
               txouts fee deposit treasury_donation withdrawals mint_txouts
               src_addr_utxos skip_asset_balancing Hrows Hu) in Hres.
    discriminate. }
  destruct (auto_select_run set_iter clusterlib_obj src_address txouts fee
              deposit treasury_donation withdrawals mint_txouts
              src_addr_utxos skip_asset_balancing usable Hrows Hu Hne Hp)
    as [Hempty Hrun].
  match type of Hrun with
  | ?rows <> [] -> _ => destruct rows as [|f fs] eqn:Ef
  end.
  - rewrite (Hempty eq_refl) in Hres. discriminate.
  - specialize (Hrun ltac:(discriminate)). rewrite Hres in Hrun.
    cbn [snd] in Hrun.
    destruct (snd (_balance_txouts _ _ _ _ _ _ _ _ _ _ _)) as [o|e] eqn:E;
      [|discriminate].
    injection Hrun as -> ->. exact E.
Qed.

(** X21. The two places that read the send-all mark agree. When the
    requested outputs hold an output of the base coin with amount -1, no
    output names the empty coin, and the orchestrator returns, then no
    change address was given, the change address that [build_tx] settles is
    the address of the first marked output, and every change output of the
    base coin that the balancer appends goes to that address, provided the
    address is not empty. *)
Theorem change_address_agrees_with_balancer :
  forall (set_iter : str_set -> list string) (clusterlib_obj : ClusterLib)
         (src_address change_address : string) (txins : list UTXOData)
         (txouts : list TxOut) (fee : Z)
         (deposit treasury_donation : option Z)
         (withdrawals mint_txouts : list TxOut)
         (src_addr_utxos : option (list UTXOData))
         (skip_asset_balancing : bool)
         (logs : list LogRecord) (ins : list UTXOData) (outs : list TxOut)
         (a : string),
    (forall o, In o txouts -> txout_coin o <> EmptyString) ->
    send_all_txouts txouts <> [] ->
    build_tx_change_address src_address change_address txouts = Some a ->
    a <> EmptyString ->
    _get_tx_ins_outs set_iter clusterlib_obj src_address txins txouts fee
      deposit treasury_donation withdrawals mint_txouts src_addr_utxos
      skip_asset_balancing
    = (logs, Return (ins, outs)) ->
    change_address = EmptyString
    /\ (exists x rest,
          send_all_txouts txouts = x :: rest /\ txout_address x = a)
    /\ exists changes,
         outs = positive_txouts txouts ++ changes
         /\ forall o, In o changes -> txout_coin o = DEFAULT_COIN ->
              txout_address o = a.
Proof.
  intros set_iter cl src ca txins txouts fee dep don w mint sau skip logs ins
         outs a Hcoin Hmark Hbuild Ha Hres.
  apply orchestrator_returns_balanced in Hres.
  assert (Hmax : filter (fun o => (txout_amount o =? -1)
                                  && (String.eqb (txout_coin o) EmptyString
                                      || String.eqb (txout_coin o)
                                           DEFAULT_COIN)) txouts
                 = send_all_txouts txouts).
  { unfold send_all_txouts. apply filter_ext_in. intros o Ho.
    replace (String.eqb (txout_coin o) EmptyString) with false
      by (symmetry; apply String.eqb_neq; now apply Hcoin).
    simpl. apply andb_comm. }
  unfold build_tx_change_address in Hbuild. rewrite Hmax in Hbuild.
  destruct (send_all_txouts txouts) as [|x rest] eqn:Esa;
    [now contradiction Hmark|].
  destruct (truthy ca) eqn:Eca; [discriminate|]. injection Hbuild as Hax.
  split; [destruct ca; [reflexivity|discriminate]|].
  split; [now exists x, rest|].
  unfold _balance_txouts in Hres.
  destruct (burning_txouts txouts); [|discriminate].
  destruct skip.
  { injection Hres as <-. exists []. rewrite app_nil_r.
    split; [reflexivity|intros o []]. }
  match type of Hres with
  | snd (for_each _ ?cs ?s) = _ =>
      pose proof (balance_loop_outcome src
                    (_organize_tx_ins_outs_by_coin ins)
                    (_organize_tx_ins_outs_by_coin txouts)
                    (_organize_tx_ins_outs_by_coin mint) fee w
                    match dep with
                    | Some d => d
                    | None => g_transaction_get_tx_deposit cl
                    end
                    match don with Some d => d | None => 0 end cs s) as Hout
  end.
  rewrite Hres in Hout. eexists. split; [exact Hout|].
  intros o Ho Hc. apply in_flat_map in Ho. destruct Ho as (c & _ & Ho).
  pose proof (coin_change_outs_coin _ _ _ _ _ _ _ _ _ _ Ho) as Hco.
  rewrite Hc in Hco. subst c. unfold coin_change_outs in Ho.
  pose proof (send_all_indices_length
                (get_or_nil DEFAULT_COIN
                   (_organize_tx_ins_outs_by_coin txouts))) as Hlen.
  destruct (send_all_indices
              (get_or_nil DEFAULT_COIN (_organize_tx_ins_outs_by_coin txouts)))
    as [|i [|j more]] eqn:Em.
  - exfalso. rewrite organize_by_coin_get in Hlen.
    change (filter (fun r : TxOut => String.eqb (coin r) DEFAULT_COIN) txouts)
      with (of_coin DEFAULT_COIN txouts) in Hlen.
    rewrite <- send_all_txouts_of_coin, Esa in Hlen. discriminate.
  - destruct (send_all_indices_one _ _ Em)
      as (l1 & x' & l2 & Hl & -> & Hx & Hrest).
    rewrite Hl in Em.
    rewrite (balance_coin_base_send_all _ _ _ _ _ _ _ _ _ _ Hl Em) in Ho.
    cbn [snd] in Ho.
    assert (Hxx : x' = x).
    { rewrite send_all_txouts_of_coin in Esa. unfold of_coin in Esa.
      change (fun r : TxOut => String.eqb (coin r) DEFAULT_COIN)
        with (fun r : TxOut => String.eqb (txout_coin r) DEFAULT_COIN)
        in Esa.
      rewrite organize_by_coin_get in Hl.
      change (fun r : TxOut => String.eqb (coin r) DEFAULT_COIN)
        with (fun r : TxOut => String.eqb (txout_coin r) DEFAULT_COIN)
        in Hl.
      rewrite Hl, filter_app in Esa. cbn [filter] in Esa.
      rewrite Hx in Esa. cbn in Esa.
      rewrite (filter_none (fun r => txout_amount r =? -1) l1) in Esa.
      - now injection Esa as -> _.
      - intros r Hr. apply Z.eqb_neq, Hrest, in_or_app. now left. }
    subst x'.
    match type of Ho with
    | context [?ch >? 0] => destruct (ch >? 0); [|destruct Ho]
    end.
    destruct Ho as [<-|[]]. cbn [txout_address address_or].
    rewrite Hax. destruct a; [now contradiction Ha|reflexivity].
  - rewrite balance_coin_raises in Ho by (rewrite Em; simpl; lia).
    destruct Ho.
Qed.

Lemma change_address_agrees_with_balancer_witness :
  EmptyString = EmptyString
  /\ (exists x rest,
        send_all_txouts [mkTxOut "X" 5 DEFAULT_COIN;
                         mkTxOut "Y" (-1) DEFAULT_COIN]
        = x :: rest /\ txout_address x = "Y"%string)
  /\ exists changes,
       [mkTxOut "X" 5 DEFAULT_COIN; mkTxOut "Y" 4 DEFAULT_COIN]
       = positive_txouts [mkTxOut "X" 5 DEFAULT_COIN;
                          mkTxOut "Y" (-1) DEFAULT_COIN] ++ changes
       /\ forall o, In o changes -> txout_coin o = DEFAULT_COIN ->
            txout_address o = "Y"%string.
Proof.
  apply (change_address_agrees_with_balancer list_order
           (cluster [row "a" 0 10 "S" DEFAULT_COIN] 0) "S" EmptyString []
           [mkTxOut "X" 5 DEFAULT_COIN; mkTxOut "Y" (-1) DEFAULT_COIN] 1
           (Some 0) None [] [] None false [] 
           [row "a" 0 10 "S" DEFAULT_COIN]).
  - intros o [<-|[<-|[]]]; discriminate.
  - discriminate.
  - reflexivity.
  - discriminate.
  - vm_compute. reflexivity.
Defined.

(** ** Errors of the balancer and warnings of the selection *)

Lemma total_amount_nonneg_rows {A : Type} `{CoinRecord A} (l : list A) :
  (forall r, In r l -> 0 <= amount r) -> 0 <= total_amount l.
Proof.
  induction l as [|x l IH]; intros Hl; [cbn; lia|].
  rewrite total_amount_cons.
  assert (0 <= amount x) by (apply Hl; now left).
  assert (0 <= total_amount l) by (apply IH; intros; apply Hl; now right).
  lia.
Qed.

Section SelectionCovers.
Variable set_iter : str_set -> list string.
Hypothesis set_iter_perm : forall s, Permutation (set_iter s) s.
Variables (candidates : list UTXOData)
          (txouts_passed_db txouts_mint_db : dict (list TxOut))
          (fee : Z) (withdrawals : list TxOut)
          (min_change_value deposit treasury_donation : Z).
Hypothesis candidates_nonneg :
  forall r, In r candidates -> 0 <= utxo_amount r.
Hypothesis min_change_nonneg : 0 <= min_change_value.
Hypothesis no_send_all :
  forall r, In r (get_or_nil DEFAULT_COIN txouts_passed_db) ->
            txout_amount r <> -1.

Let db := _organize_utxos_by_coin_and_id candidates.
Let step := select_coin set_iter db txouts_passed_db txouts_mint_db fee
              withdrawals min_change_value deposit treasury_donation.
Let loop := select_loop set_iter db txouts_passed_db txouts_mint_db fee
              withdrawals min_change_value deposit treasury_donation.
Let coins :=
  set_iter (coin_union (dict_keys db) (dict_keys txouts_passed_db)
              (dict_keys txouts_mint_db)).
Let selection :=
  _select_utxos set_iter db txouts_passed_db txouts_mint_db fee withdrawals
    min_change_value deposit treasury_donation.
Let txins_filtered :=
  concat (map snd
            (filter (fun kv => str_mem (fst kv) (fst selection))
                    (_organize_utxos_by_id candidates))).
Let target (c : string) : Z :=
  if String.eqb c DEFAULT_COIN
  then Z.max (total_amount (get_or_nil DEFAULT_COIN txouts_passed_db)
              + Z.max 1 fee + deposit + treasury_donation
              - total_amount withdrawals)
             (Z.max 1 fee)
  else total_amount (get_or_nil c txouts_passed_db)
       - total_amount (get_or_nil c txouts_mint_db).
Let target_with_change (c : string) : Z :=
  if String.eqb c DEFAULT_COIN then target c + min_change_value
  else target c.

(** One round of the selection when no output carries the send-all mark. *)
Lemma select_round (ids0 : str_set) (logs0 : list LogRecord) (c : string) :
  step (ids0, logs0) c
  = if nonzero (target c)
    then let '(selected, _, target_met) :=
           select_per_coin_outcome set_iter (get_or_empty c db) (target c)
             (target_with_change c) ids0 in
         (str_update ids0 selected,
          logs0 ++ (if negb target_met
                    then [Warning_target_not_met (target c) c] else []))
    else (ids0, logs0).
Proof.
  unfold step, select_coin, target, target_with_change, target.
  destruct (String.eqb c DEFAULT_COIN) eqn:Ec.
  - apply String.eqb_eq in Ec. subst c.
    rewrite (proj2 (send_all_indices_nil _) no_send_all).
    cbv zeta. unfold _select_utxos_per_coin.
    destruct (nonzero _); [|reflexivity].
    now destruct (select_per_coin_outcome _ _ _ _ _) as [[sel a] met].
  - cbv zeta. unfold _select_utxos_per_coin.
    destruct (nonzero _); [|reflexivity].
    now destruct (select_per_coin_outcome _ _ _ _ _) as [[sel a] met].
Qed.

Lemma select_round_logs_keep (state : str_set * list LogRecord) (c : string)
    (l : LogRecord) :
  In l (snd state) -> In l (snd (step state c)).
Proof.
  destruct state as [ids0 logs0]. rewrite select_round. simpl. intros Hl.
  destruct (nonzero _); [|exact Hl].
  destruct (select_per_coin_outcome _ _ _ _ _) as [[sel a] met]. simpl.
  apply in_or_app. now left.
Qed.

Lemma select_loop_logs_keep (cs : list string)
    (state : str_set * list LogRecord) (l : LogRecord) :
  In l (snd state) -> In l (snd (loop cs state)).
Proof.
  unfold loop, select_loop. revert state.
  induction cs as [|c cs IH]; intros state Hl; [exact Hl|].
  simpl. apply IH. now apply select_round_logs_keep.
Qed.

Lemma select_round_logs (state : str_set * list LogRecord) (c : string)
    (l : LogRecord) :
  In l (snd (step state c)) ->
  In l (snd state) \/ exists t, l = Warning_target_not_met t c.
Proof.
  destruct state as [ids0 logs0]. rewrite select_round. simpl.
  destruct (nonzero _); [|now left].
  destruct (select_per_coin_outcome _ _ _ _ _) as [[sel a] met]. simpl.
  intros Hl. apply in_app_or in Hl. destruct Hl as [Hl|Hl]; [now left|].
  destruct met; [destruct Hl|]. destruct Hl as [<-|[]]. right. eauto.
Qed.

Lemma select_logs_are_warnings (l : LogRecord) :
  In l (snd selection) -> exists t c, l = Warning_target_not_met t c.
Proof.
  unfold selection, _select_utxos. fold coins. fold loop.
  assert (H : forall cs state,
             In l (snd (loop cs state)) ->
             In l (snd state) \/ exists t c, l = Warning_target_not_met t c).
  { unfold loop, select_loop.
    induction cs as [|c cs IH]; intros state Hl; [now left|].
    simpl in Hl. apply IH in Hl. destruct Hl as [Hl|Hl]; [|now right].
    apply select_round_logs in Hl. destruct Hl as [Hl|[t ->]]; [now left|].
    right. eauto. }
  intros Hl. apply H in Hl. destruct Hl as [[]|Hl]. exact Hl.
Qed.

Lemma filtered_inputs (c : string) :
  total_amount (get_or_nil c (_organize_tx_ins_outs_by_coin txins_filtered))
  = total_amount
      (filter (fun r => String.eqb (utxo_coin r) c
                        && str_mem (utxo_id r) (fst selection)) candidates).
Proof.
  rewrite organize_by_coin_get. unfold txins_filtered.
  rewrite (total_amount_filter_perm _ _ _
             (organize_by_id_filter_perm
                (fun i => str_mem i (fst selection)) candidates)).
  rewrite filter_comm. f_equal. symmetry. apply filter_andb.
Qed.

(** A coin whose round of the selection logs no warning has its target
    covered by the selected inputs. *)
Lemma selection_covers_target (c : string) :
  In c coins ->
  (forall t, ~ In (Warning_target_not_met t c) (snd selection)) ->
  (nonzero (target c) = true /\ target c
   <= total_amount
        (get_or_nil c (_organize_tx_ins_outs_by_coin txins_filtered)))
  \/ (target c = 0 /\ c <> DEFAULT_COIN).
Proof.
  intros Hc Hwarn. apply in_split in Hc. destruct Hc as (pre & post & Hcoins).
  assert (Hsel : selection = loop post (step (loop pre ([], [])) c)).
  { unfold selection, _select_utxos. fold coins. rewrite Hcoins.
    change (pre ++ c :: post) with (pre ++ [c] ++ post).
    now rewrite !select_loop_app. }
  destruct (loop pre ([], [])) as [ids0 logs0] eqn:E0.
  assert (Hids0 : NoDup ids0).
  { change ids0 with (fst (ids0, logs0)). rewrite <- E0.
    apply select_loop_NoDup. constructor. }
  rewrite select_round in Hsel.
  destruct (nonzero (target c)) eqn:Enz.
  2:{ right. unfold nonzero in Enz. apply negb_false_iff, Z.eqb_eq in Enz.
      split; [exact Enz|]. intros ->. unfold target in Enz.
      rewrite String.eqb_refl in Enz. lia. }
  left. split; [reflexivity|].
  destruct (select_per_coin_outcome set_iter (get_or_empty c db) (target c)
              (target_with_change c) ids0) as [[sel acc] met] eqn:Eout.
  assert (Hmet : met = true).
  { destruct met; [reflexivity|exfalso].
    apply (Hwarn (target c)). rewrite Hsel.
    apply select_loop_logs_keep. simpl. apply in_or_app. right. now left. }
  subst met.
  assert (Hvals : forall k v, In (k, v) (get_or_empty c db) -> 0 <= v).
  { intros k v Hkv. apply coin_and_id_values in Hkv.
    destruct Hkv as (r & Hr & _ & _ & <-). now apply candidates_nonneg. }
  destruct (select_per_coin_bound set_iter set_iter_perm (get_or_empty c db)
              (target c) (target_with_change c) ids0 sel acc true Hids0
              (coin_and_id_inner_NoDup _ _) Hvals Eout) as [Hacc Hreach].
  assert (Hsub : forall i, str_mem i ids0 || str_mem i sel = true ->
                           str_mem i (fst selection) = true).
  { intros i Hi. apply str_mem_In. rewrite Hsel.
    apply select_loop_keeps. simpl. apply str_update_In.
    apply orb_true_iff in Hi. now rewrite !str_mem_In in Hi. }
  pose proof (dict_sum_mono _ (fun i => str_mem i (fst selection))
                (get_or_empty c db) Hvals Hsub) as Hmono.
  pose proof (coin_and_id_sum_le (fun i => str_mem i (fst selection)) c
                candidates candidates_nonneg) as Hrows.
  fold db in Hrows. cbv beta in Hrows. rewrite filtered_inputs.
  destruct (Hreach eq_refl) as [Heq|Hge]; [lia|].
  unfold target_with_change in Hge.
  destruct (String.eqb c DEFAULT_COIN); lia.
Qed.

(** Such a coin gets no error from the balancer on the selected inputs. *)
Lemma selection_covers (c : string) :
  In c coins ->
  (forall t, ~ In (Warning_target_not_met t c) (snd selection)) ->
  fst (balance_coin (_organize_tx_ins_outs_by_coin txins_filtered)
         txouts_passed_db txouts_mint_db fee withdrawals deposit
         treasury_donation c)
  = [].
Proof.
  intros Hc Hwarn.
  pose proof (selection_covers_target c Hc Hwarn) as Hcov.
  assert (Hin : 0 <= total_amount
                       (get_or_nil c
                          (_organize_tx_ins_outs_by_coin txins_filtered))).
  { rewrite filtered_inputs. apply total_amount_nonneg_rows.
    intros r Hr. apply filter_In in Hr. now apply candidates_nonneg. }
  destruct (String.eqb_spec c DEFAULT_COIN) as [->|Hne].
  - rewrite (balance_coin_base_plain _ _ _ _ _ _ _
               (proj2 (send_all_indices_nil _) no_send_all)).
    cbn [fst].
    destruct Hcov as [[_ Hcov]|[_ Hcov]]; [|now contradiction Hcov].
    unfold target in Hcov. rewrite String.eqb_refl in Hcov.
    match goal with
    | |- (if ?x <? 0 then _ else _) = _ =>
        destruct (Z.ltb_spec x 0) as [Hlt|_]; [exfalso; lia|reflexivity]
    end.
  - rewrite (balance_coin_token _ _ _ _ _ _ _ _ Hne). cbn [fst].
    assert (Htarget : target c
                      = total_amount (get_or_nil c txouts_passed_db)
                        - total_amount (get_or_nil c txouts_mint_db)).
    { unfold target. apply String.eqb_neq in Hne. now rewrite Hne. }
    match goal with
    | |- (if ?x <? 0 then _ else _) = _ =>
        destruct (Z.ltb_spec x 0) as [Hlt|_]; [exfalso|reflexivity]
    end.
    destruct Hcov as [[_ Hcov]|[Hcov _]]; lia.
Qed.
End SelectionCovers.

Section BalancerLogSources.
Variables (change_address : string) (txins_db : dict (list UTXOData))
          (txouts_passed_db txouts_mint_db : dict (list TxOut))
          (fee : Z) (withdrawals : list TxOut)
          (deposit treasury_donation : Z).

Let round := balance_coin txins_db txouts_passed_db txouts_mint_db fee
               withdrawals deposit treasury_donation.
Let step := balance_step change_address txins_db txouts_passed_db
              txouts_mint_db fee withdrawals deposit treasury_donation.

Lemma balance_coin_log_form (c : string) (l : LogRecord) :
  In l (fst (round c)) ->
  (c <> DEFAULT_COIN /\ exists a n, l = Error_coin_not_sufficient c a n)
  \/ (c = DEFAULT_COIN /\ exists a n, l = Error_not_enough_funds a n).
Proof.
  unfold round. destruct (String.eqb_spec c DEFAULT_COIN) as [->|Hc].
  - intros Hl. right. split; [reflexivity|]. revert Hl.
    destruct (send_all_indices (get_or_nil DEFAULT_COIN txouts_passed_db))
      as [|i [|j rest]] eqn:E.
    + rewrite (balance_coin_base_plain _ _ _ _ _ _ _ E). simpl.
      match goal with
      | |- context [if ?b then _ else _] => destruct b
      end; [intros [<-|[]]; eauto|intros []].
    + destruct (send_all_indices_one _ _ E)
        as (l1 & x & l2 & Hl & -> & _ & _).
      rewrite Hl in E.
      rewrite (balance_coin_base_send_all _ _ _ _ _ _ _ _ _ _ Hl E). simpl.
      match goal with
      | |- context [if ?b then _ else _] => destruct b
      end; [intros [<-|[]]; eauto|intros []].
    + rewrite balance_coin_raises; [intros []|]. rewrite E. simpl. lia.
  - intros Hl. left. split; [exact Hc|]. revert Hl.
    rewrite (balance_coin_token _ _ _ _ _ _ _ _ Hc). simpl.
    match goal with
    | |- context [if ?b then _ else _] => destruct b
    end; [intros [<-|[]]; eauto|intros []].
Qed.

Lemma balance_loop_log_source (coins : list string) :
  forall (txouts_result : list TxOut) (l : LogRecord),
    In l (fst (for_each step coins txouts_result)) ->
    exists c, In c coins /\ In l (fst (round c)).
Proof.
  induction coins as [|c coins IH]; intros txouts_result l; [intros []|].
  cbn [for_each].
  destruct (balance_coin_cases txins_db txouts_passed_db txouts_mint_db fee
              withdrawals deposit treasury_donation c)
    as [(ma & ch & Hr)|[-> Hm]].
  - unfold step at 1.
    rewrite (balance_step_returns _ _ _ _ _ _ _ _ _ _ _ _ Hr).
    fold round step. unfold bind.
    match goal with
    | |- context [for_each step coins ?s] =>
        specialize (IH s l); destruct (for_each step coins s) as [lg r]
    end.
    simpl in *. intros Hl. apply in_app_or in Hl.
    destruct Hl as [Hl|Hl].
    + exists c. split; [now left|exact Hl].
    + destruct (IH Hl) as (c' & Hc' & Hl'). exists c'. split; [now right|].
      exact Hl'.
  - unfold step at 1. rewrite (balance_step_raises _ _ _ _ _ _ _ _ _ Hm).
    intros [].
Qed.
End BalancerLogSources.

Lemma balance_txouts_log_source (set_iter : str_set -> list string)
    (change_address : string) (txouts : list TxOut)
    (txins_db : dict (list UTXOData))
    (txouts_passed_db txouts_mint_db : dict (list TxOut))
    (fee : Z) (withdrawals : list TxOut) (deposit treasury_donation : Z)
    (skip_asset_balancing : bool) (l : LogRecord) :
  In l (fst (_balance_txouts set_iter change_address txouts txins_db
               txouts_passed_db txouts_mint_db fee withdrawals deposit
               treasury_donation skip_asset_balancing)) ->
  exists c,
    In c (set_iter (coin_union (dict_keys txins_db)
                      (dict_keys txouts_passed_db)
                      (dict_keys txouts_mint_db)))
    /\ In l (fst (balance_coin txins_db txouts_passed_db txouts_mint_db fee
                    withdrawals deposit treasury_donation c)).
Proof.
  unfold _balance_txouts. destruct (burning_txouts txouts); [|intros []].
  destruct skip_asset_balancing; [intros []|].
  apply balance_loop_log_source.
Qed.

Section AutoRunLogs.
Variable set_iter : str_set -> list string.
Variables (clusterlib_obj : ClusterLib) (src_address : string)
          (txouts : list TxOut) (fee : Z)
          (deposit treasury_donation : option Z)
          (withdrawals mint_txouts : list TxOut)
          (src_addr_utxos : option (list UTXOData))
          (skip_asset_balancing : bool).

Let rows := candidate_utxos clusterlib_obj src_address src_addr_utxos.
Let outcoins_all : str_set :=
  str_update []
    (DEFAULT_COIN :: dict_keys (_organize_tx_ins_outs_by_coin mint_txouts)
       ++ dict_keys (_organize_tx_ins_outs_by_coin txouts)).
Let present (usable : list UTXOData) : bool :=
  forallb (fun c => dict_mem c (_organize_tx_ins_outs_by_coin mint_txouts)
                    || dict_mem c (_organize_utxos_by_coin_and_id usable))
          (DEFAULT_COIN :: dict_keys (_organize_tx_ins_outs_by_coin txouts)).
Let tx_deposit :=
  match deposit with
  | None => g_transaction_get_tx_deposit clusterlib_obj
  | Some d => d
  end.
Let tx_treasury_donation :=
  match treasury_donation with Some d => d | None => 0 end.
Let selection (usable : list UTXOData) :=
  _select_utxos set_iter (_organize_utxos_by_coin_and_id usable)
    (_organize_tx_ins_outs_by_coin txouts)
    (_organize_tx_ins_outs_by_coin mint_txouts) fee withdrawals
    (_min_change_value clusterlib_obj) tx_deposit tx_treasury_donation.
Let selected_rows (usable : list UTXOData) :=
  concat (map snd
            (filter (fun kv => str_mem (fst kv) (fst (selection usable)))
                    (_organize_utxos_by_id usable))).
Let balanced (usable : list UTXOData) :=
  _balance_txouts set_iter src_address txouts
    (_organize_tx_ins_outs_by_coin (selected_rows usable))
    (_organize_tx_ins_outs_by_coin txouts)
    (_organize_tx_ins_outs_by_coin mint_txouts) fee withdrawals
    tx_deposit tx_treasury_donation skip_asset_balancing.
Let result :=
  _get_tx_ins_outs set_iter clusterlib_obj src_address [] txouts fee deposit
    treasury_donation withdrawals mint_txouts src_addr_utxos
    skip_asset_balancing.

(** The log of the orchestrator when it returns: the warnings of the
    selection, then the errors of the balancer. *)
Lemma auto_select_logs (logs : list LogRecord) (ins : list UTXOData)
    (outs : list TxOut) :
  result = (logs, Return (ins, outs)) ->
  exists usable,
    _get_usable_utxos rows outcoins_all = Return usable
    /\ logs = snd (selection usable) ++ fst (balanced usable).
Proof.
  intros Hres.
  pose proof (auto_select_cases set_iter clusterlib_obj src_address txouts
                fee deposit treasury_donation withdrawals mint_txouts
                src_addr_utxos skip_asset_balancing) as Hcases.
  fold rows outcoins_all result in Hcases.
  destruct Hcases as [[_ H]|[(e & _ & H)|[[_ H]|[(u & _ & _ & H)|H]]]];
    try (rewrite H in Hres; discriminate).
  destruct H as (usable & _ & _ & _ & Hu & Hp & _ & _).
  exists usable. split; [exact Hu|].
  revert Hres. unfold result, _get_tx_ins_outs.
  fold (candidate_utxos clusterlib_obj src_address src_addr_utxos).
  fold rows. fold outcoins_all. fold tx_deposit tx_treasury_donation.
  clearbody rows outcoins_all.
  destruct rows as [|r0 rs] eqn:Erows; [discriminate|].
  cbv beta iota. rewrite <- Erows. rewrite <- Erows in Hu.
  rewrite Hu, bind_nil_return.
  destruct usable as [|u us] eqn:Eus; [discriminate|].
  change (forallb _ (DEFAULT_COIN :: _)) with (present (u :: us)).
  fold (present (u :: us)) in Hp. rewrite Hp. cbn [negb].
  fold (selection (u :: us)).
  rewrite (surjective_pairing (selection (u :: us))).
  fold (selected_rows (u :: us)).
  generalize (eq_refl (balanced (u :: us))). unfold balanced at 2.
  destruct (selected_rows (u :: us)) as [|f fs] eqn:Ef.
  - intros _. unfold bind, raise. discriminate.
  - intros Hb. rewrite bind_return. cbv beta iota.
    rewrite <- Hb. destruct (balanced (u :: us)) as [lg [o|exn]].
    + unfold bind, ret. simpl. rewrite app_nil_r. now intros [= <- _ _].
    + unfold bind. simpl. discriminate.
Qed.
End AutoRunLogs.

Lemma warning_for_coin_dec (c : string) (logs : list LogRecord) :
  (exists t, In (Warning_target_not_met t c) logs)
  \/ (forall t, ~ In (Warning_target_not_met t c) logs).
Proof.
  induction logs as [|l logs IH].
  - right. intros t [].
  - destruct IH as [[t Ht]|IH]; [left; exists t; now right|].
    destruct l as [t' c'|a n|c' a n].
    + destruct (string_dec c' c) as [->|Hne].
      * left. exists t'. now left.
      * right. intros t [H|H]; [congruence|now apply (IH t)].
    + right. intros t [H|H]; [discriminate|now apply (IH t)].
    + right. intros t [H|H]; [discriminate|now apply (IH t)].
Qed.

(** X22. When the orchestrator selects the inputs itself among candidates
    of non-negative amounts, with a dust threshold that is not negative and
    no send-all mark among the outputs, an error of the balancer never comes
    alone: whenever the log of a returning run holds the error that a coin
    is not sufficient (or, for the base coin, that the funds are not
    enough), it also holds the warning of the selection that the target of
    that coin was not met. *)
Theorem funds_error_follows_selection_warning :
  forall (set_iter : str_set -> list string),
    (forall s, Permutation (set_iter s) s) ->
    forall (clusterlib_obj : ClusterLib) (src_address : string)
           (txouts : list TxOut) (fee : Z)
           (deposit treasury_donation : option Z)
           (withdrawals mint_txouts : list TxOut)
           (src_addr_utxos : option (list UTXOData))
           (skip_asset_balancing : bool)
           (logs : list LogRecord) (ins : list UTXOData)
           (outs : list TxOut),
      (forall r,
          In r (candidate_utxos clusterlib_obj src_address src_addr_utxos) ->
          0 <= utxo_amount r) ->
      0 <= _min_change_value clusterlib_obj ->
      send_all_txouts txouts = [] ->
      _get_tx_ins_outs set_iter clusterlib_obj src_address [] txouts fee
        deposit treasury_donation withdrawals mint_txouts src_addr_utxos
        skip_asset_balancing
      = (logs, Return (ins, outs)) ->
      (forall c a n,
          In (Error_coin_not_sufficient c a n) logs ->
          exists t, In (Warning_target_not_met t c) logs)
      /\ (forall a n,
            In (Error_not_enough_funds a n) logs ->
            exists t, In (Warning_target_not_met t DEFAULT_COIN) logs).
Proof.
  intros set_iter Hperm cl src txouts fee dep don w mint sau skip logs ins
         outs Hpos Hmcv Hmark Hres.
  destruct (auto_select_logs set_iter cl src txouts fee dep don w mint sau
              skip logs ins outs Hres) as (usable & Hu & Hlogs).
  pose proof (usable_utxos_perm _ _ _ Hu) as Husable.
  assert (Hpos' : forall r, In r usable -> 0 <= utxo_amount r).
  { intros r Hr. apply (Permutation_in _ Husable) in Hr.
    apply filter_In in Hr. now apply Hpos. }
  assert (Hno : forall r,
             In r (get_or_nil DEFAULT_COIN
                     (_organize_tx_ins_outs_by_coin txouts)) ->
             txout_amount r <> -1).
  { intros r Hr Ha. rewrite organize_by_coin_get in Hr.
    apply filter_In in Hr. destruct Hr as [Hr Hc].
    assert (H : In r (send_all_txouts txouts)).
    { apply filter_In. split; [exact Hr|].
      change (coin r) with (txout_coin r) in Hc. rewrite Hc.
      now apply Z.eqb_eq. }
    rewrite Hmark in H. destruct H. }
  set (tx_deposit := match dep with
                     | Some d => d
                     | None => g_transaction_get_tx_deposit cl
                     end) in *.
  set (tx_donation := match don with Some d => d | None => 0 end) in *.
  set (passed := _organize_tx_ins_outs_by_coin txouts) in *.
  set (minted := _organize_tx_ins_outs_by_coin mint) in *.
  set (selection := _select_utxos set_iter
                      (_organize_utxos_by_coin_and_id usable) passed minted
                      fee w (_min_change_value cl) tx_deposit tx_donation)
    in *.
  set (filtered := concat (map snd
                             (filter (fun kv => str_mem (fst kv)
                                                  (fst selection))
                                     (_organize_utxos_by_id usable)))) in *.
  assert (Hround : forall l c',
             In l (fst (balance_coin
                          (_organize_tx_ins_outs_by_coin filtered) passed
                          minted fee w tx_deposit tx_donation c')) ->
             (forall t, ~ In (Warning_target_not_met t c') logs) ->
             In c' (set_iter
                      (coin_union
                         (dict_keys (_organize_tx_ins_outs_by_coin filtered))
                         (dict_keys passed) (dict_keys minted))) ->
             False).
  { intros l c' Hl Hwarn Hc'.
    assert (Hin : In c' (set_iter
                           (coin_union
                              (dict_keys
                                 (_organize_utxos_by_coin_and_id usable))
                              (dict_keys passed) (dict_keys minted)))).
    { apply (set_iter_In set_iter Hperm), coin_union_In.
      apply (set_iter_In set_iter Hperm), coin_union_In in Hc'.
      destruct Hc' as [Hk|Hk]; [left|now right].
      apply organize_by_coin_keys_map, in_map_iff in Hk.
      destruct Hk as (r & Hrc & Hr). apply coin_and_id_keys. exists r.
      split; [|exact Hrc]. unfold filtered in Hr.
      apply (Permutation_in _
               (organize_by_id_filter_perm
                  (fun i => str_mem i (fst selection)) usable)) in Hr.
      now apply filter_In in Hr. }
    assert (Hw : forall t, ~ In (Warning_target_not_met t c') (snd selection)).
    { intros t Ht. apply (Hwarn t). rewrite Hlogs. apply in_or_app.
      now left. }
    pose proof (selection_covers set_iter Hperm usable passed minted fee w
                  (_min_change_value cl) tx_deposit tx_donation Hpos' Hmcv
                  Hno c' Hin Hw) as Hcov.
    assert (Hnil : In l []) by (rewrite <- Hcov; exact Hl).
    destruct Hnil. }
  assert (Hsel : forall l, In l (snd selection) ->
                           exists t c, l = Warning_target_not_met t c).
  { intros l. apply (select_logs_are_warnings set_iter usable passed minted
                       fee w (_min_change_value cl) tx_deposit tx_donation
                       Hno). }
  split.
  - intros c a n Hl.
    destruct (warning_for_coin_dec c logs) as [H|Hwarn]; [exact H|exfalso].
    rewrite Hlogs in Hl. apply in_app_or in Hl. destruct Hl as [Hl|Hl].
    + apply Hsel in Hl. destruct Hl as (t & c0 & Hl). discriminate.
    + destruct (balance_txouts_log_source _ _ _ _ _ _ _ _ _ _ _ _ Hl)
        as (c' & Hc' & Hl').
      destruct (balance_coin_log_form _ _ _ _ _ _ _ _ _ Hl')
        as [(_ & a' & n' & E)|(_ & a' & n' & E)]; [|discriminate].
      injection E as -> _ _.
      exact (Hround _ c' Hl' Hwarn Hc').
  - intros a n Hl.
    destruct (warning_for_coin_dec DEFAULT_COIN logs) as [H|Hwarn];
      [exact H|exfalso].
    rewrite Hlogs in Hl. apply in_app_or in Hl. destruct Hl as [Hl|Hl].
    + apply Hsel in Hl. destruct Hl as (t & c0 & Hl). discriminate.
    + destruct (balance_txouts_log_source _ _ _ _ _ _ _ _ _ _ _ _ Hl)
        as (c' & Hc' & Hl').
      destruct (balance_coin_log_form _ _ _ _ _ _ _ _ _ Hl')
        as [(_ & a' & n' & E)|(-> & _)]; [discriminate|].
      exact (Hround _ DEFAULT_COIN Hl' Hwarn Hc').
Qed.

Lemma funds_error_follows_selection_warning_witness :
  (forall c a n,
      In (Error_coin_not_sufficient c a n)
         [Warning_target_not_met 9 "T"; Error_coin_not_sufficient "T" 5 9] ->
      exists t,
        In (Warning_target_not_met t c)
           [Warning_target_not_met 9 "T"; Error_coin_not_sufficient "T" 5 9])
  /\ (forall a n,
        In (Error_not_enough_funds a n)
           [Warning_target_not_met 9 "T"; Error_coin_not_sufficient "T" 5 9]
        -> exists t,
             In (Warning_target_not_met t DEFAULT_COIN)
                [Warning_target_not_met 9 "T";
                 Error_coin_not_sufficient "T" 5 9]).
Proof.
  refine (funds_error_follows_selection_warning list_order
            (fun s => Permutation_refl s)
            (cluster [row "a" 0 10 "S" DEFAULT_COIN; row "a" 0 5 "S" "T"] 0)
            "S" [mkTxOut "X" 2 DEFAULT_COIN; mkTxOut "X" 9 "T"] 1 (Some 0)
            None [] [] None false _ _ _ _ _ _ _).
  - intros r [<-|[<-|[]]]; simpl; lia.
  - simpl. lia.
  - reflexivity.
  - vm_compute. reflexivity.
Defined.
